(** * AUTONEX AIOps backend: a shallow embedding of [backend/server.py]

    The development follows the layout of the server module: the Pydantic
    models, the in-memory [AnomalyDetector], the [DataSimulator], the
    retraining task and the request handlers, each embedded as a function
    over an explicit [World] (the MongoDB collections and the two
    process-wide globals).

    Conventions.
    - Python floats are embedded as rationals [Q], the finite doubles being
      rationals; equalities between computed numbers are stated with [==].
      Rounding is not modelled, except where the outcome of a comparison
      between computed floats decides what is reported: the arithmetic of
      the attribution block of [detect_anomalies] is that of the class
      [FloatArith].
    - A [datetime] and its [isoformat()] string are embedded as the instant
      they denote, an integer number of microseconds.  All timestamps the
      server writes use the same UTC format, on which string order and
      chronological order agree.
    - Calls into scikit-learn, numpy's [exp], [json.loads], [uuid.uuid4] and
      the system clock are fields of the class [External].
    - MongoDB is embedded as lists of documents with first-match
      [update_one]/[find_one] and equality filters on top-level fields.
      Metrics and actions are only ever written from their Pydantic models
      and are kept as records; incidents take arbitrary field maps and are
      kept as documents.  An update document is taken to be one the store
      accepts ([$set] of plain top-level keys). *)

From Stdlib Require Import QArith Qabs Qround ZArith String Ascii List Lia Lqa.
From stdpp Require Import gmap strings list fin_maps sorting.

Set Warnings "-register-all".
Local Open Scope Z_scope.
Local Open Scope string_scope.

(** ** Python-level values and exceptions *)

(** JSON-like values: what [json.loads] returns and what a request body of
    type [Dict[str, Any]] carries.  [VTime] is an ISO-8601 timestamp string,
    kept as the instant it denotes. *)
Inductive value :=
  | VNull
  | VBool (b : bool)
  | VNum (q : Q)
  | VStr (s : string)
  | VTime (t : Z)
  | VList (l : list value)
  | VDict (d : gmap string value).

(** Python truthiness, as used by [if updates['resolved_at']]. *)
Definition truthy (v : value) : bool :=
  match v with
  | VNull => false
  | VBool b => b
  | VNum q => negb (Qeq_bool q 0)
  | VStr s => negb (String.eqb s "")
  | VTime _ => true
  | VList l => match l with [] => false | _ => true end
  | VDict d => negb (bool_decide (d = ∅))
  end.

Inductive exception :=
  | ZeroDivisionError
  | KeyError (k : string)
  | IndexError
  | TypeError
  | ValueError
  | ValidationError
  | NotFittedError
  | JSONDecodeError
  | ServiceError.

(** The [detail] of an [HTTPException]: a literal message, or [str(e)] of
    the exception that was caught. *)
Inductive detail :=
  | Literal (s : string)
  | StrOf (e : exception).

Inductive raised :=
  | Exception (e : exception)
  | HTTPException (status_code : nat) (d : detail).

Inductive result (A : Type) :=
  | Ok (a : A)
  | Raise (r : raised).
Arguments Ok {A} a.
Arguments Raise {A} r.

Definition is_ok {A} (r : result A) : bool :=
  match r with Ok _ => true | Raise _ => false end.

(** ** External collaborators *)

Class External := {
  (** a fitted [IsolationForest] *)
  Forest : Type;
  (** [IsolationForest.fit]; raises on input it cannot validate *)
  fit : list (list Q) -> result Forest;
  (** [model.predict([x])[0]]: 1 for inliers, -1 for outliers *)
  predict : Forest -> list Q -> result Z;
  (** [model.score_samples([x])[0]] *)
  score_samples : Forest -> list Q -> result Q;
  np_exp : Q -> Q;
  (** [json.loads] *)
  json_loads : string -> result value;
  (** the string of the [n]-th [uuid.uuid4()] drawn by the process *)
  uuid4 : nat -> string;
  (** the instant returned by the [n]-th [datetime.now(timezone.utc)] *)
  utcnow : nat -> Z
}.

(** The process-wide random generator: the value of the [n]-th
    [random.random()]. *)
Class Entropy := {
  random_draw : nat -> Q
}.

(** Double-precision arithmetic on finite values: the rounded sum,
    difference and quotient, with the three facts about them that the
    attribution block relies on.  They hold of IEEE-754 round-to-nearest: a
    sum of a non-negative double and [1] is at least [1], the difference of
    a finite double with itself is zero, and zero divided by a non-zero
    double is zero. *)
Class FloatArith := {
  fadd : Q -> Q -> Q;
  fsub : Q -> Q -> Q;
  fdiv : Q -> Q -> Q;
  fadd_one_pos : forall b : Q, (0 <= b)%Q -> (0 < fadd b 1)%Q;
  fsub_diag : forall v : Q, (fsub v v == 0)%Q;
  fdiv_zero : forall a b : Q, (a == 0)%Q -> ~ (b == 0)%Q -> (fdiv a b == 0)%Q
}.

(** ** Models *)

Module SystemMetric.
Record t := mk {
  timestamp : Z;
  service : string;
  cpu : Q;
  memory : Q;
  latency : Q;
  error_rate : Q;
  requests_per_sec : Q
}.
End SystemMetric.

Module Anomaly.
Record t := mk {
  id : string;
  timestamp : Z;
  service : string;
  metric_type : string;
  severity : string;
  confidence : Q;
  description : string;
  value : Q;
  baseline : Q
}.
End Anomaly.

Module Action.
Record t := mk {
  id : string;
  incident_id : string;
  action : string;
  description : string;
  risk_level : string;
  impact : string;
  status : string;
  approved_by : option string;
  executed_at : option Z;
  created_at : Z
}.
End Action.

(** An incident is kept as the stored document: [update_incident] merges an
    arbitrary field map into it, so no fixed record describes it. *)
Abbreviation document := (gmap string value).

(** ** In-memory anomaly detection model *)

Section Server.
Context `{External}.

Record AnomalyDetector := mkDetector {
  (** [None]: the unfitted estimator built by [__init__] *)
  model : option Forest;
  is_trained : bool;
  baseline_data : list Q
}.

Definition AnomalyDetector_init : AnomalyDetector :=
  {| model := None; is_trained := false; baseline_data := [] |}.

(** [np.mean(metrics_data, axis=0).tolist()]: the rows are summed
    component-wise and the sums divided by the number of rows.  The mean
    is the exact one; numpy's differs from it by the rounding of the sums
    and of the quotient, which changes neither the number of entries nor
    the sign of the mean of a non-negative window. *)
Definition column_sums (rows : list (list Q)) : list Q :=
  match rows with
  | [] => []
  | r :: rs => fold_left (zip_with Qplus) rs r
  end.

Definition np_mean_axis0 (rows : list (list Q)) : list Q :=
  map (fun s => s / inject_Z (Z.of_nat (length rows)))%Q (column_sums rows).

Definition train (self : AnomalyDetector) (metrics_data : list (list Q))
  : result AnomalyDetector :=
  if (20 <? length metrics_data)%nat then
    match fit metrics_data with
    | Raise e => Raise e
    | Ok m =>
        Ok {| model := Some m;
              is_trained := true;
              baseline_data := np_mean_axis0 metrics_data |}
    end
  else Ok self.

Definition neutral : bool * Q := (false, 0.5%Q).

Definition detect (self : AnomalyDetector) (metric : list Q) : bool * Q :=
  if negb (is_trained self) then neutral
  else
    match model self with
    | None => neutral
    | Some m =>
        match predict m metric with
        | Raise _ => neutral
        | Ok prediction =>
            match score_samples m metric with
            | Raise _ => neutral
            | Ok score =>
                let confidence := (1 / (1 + np_exp score))%Q in
                let is_anomaly := (prediction =? -1)%Z in
                (is_anomaly, confidence)
            end
        end
    end.

(** *** Simulation and demo mode *)

Record DataSimulator := mkSimulator {
  services : list string;
  failure_mode : bool;
  failure_service : option string;
  failure_start : option Z
}.

Definition DataSimulator_init : DataSimulator :=
  {| services := ["api-gateway"; "auth-service"; "database"; "cache"; "worker"];
     failure_mode := false;
     failure_service := None;
     failure_start := None |}.

(** *** The world the handlers run in *)

Record World := mkWorld {
  db_metrics : list SystemMetric.t;
  db_anomalies : list Anomaly.t;
  db_incidents : list document;
  db_actions : list Action.t;
  anomaly_detector : AnomalyDetector;
  data_simulator : DataSimulator;
  (** how many times the clock was read and how many uuids were drawn *)
  clock_reads : nat;
  uuid_draws : nat
}.

Definition with_metrics (x : list SystemMetric.t) (w : World) : World :=
  mkWorld x (db_anomalies w) (db_incidents w) (db_actions w)
          (anomaly_detector w) (data_simulator w) (clock_reads w) (uuid_draws w).
Definition with_anomalies (x : list Anomaly.t) (w : World) : World :=
  mkWorld (db_metrics w) x (db_incidents w) (db_actions w)
          (anomaly_detector w) (data_simulator w) (clock_reads w) (uuid_draws w).
Definition with_incidents (x : list document) (w : World) : World :=
  mkWorld (db_metrics w) (db_anomalies w) x (db_actions w)
          (anomaly_detector w) (data_simulator w) (clock_reads w) (uuid_draws w).
Definition with_actions (x : list Action.t) (w : World) : World :=
  mkWorld (db_metrics w) (db_anomalies w) (db_incidents w) x
          (anomaly_detector w) (data_simulator w) (clock_reads w) (uuid_draws w).
Definition with_detector (x : AnomalyDetector) (w : World) : World :=
  mkWorld (db_metrics w) (db_anomalies w) (db_incidents w) (db_actions w)
          x (data_simulator w) (clock_reads w) (uuid_draws w).
Definition with_simulator (x : DataSimulator) (w : World) : World :=
  mkWorld (db_metrics w) (db_anomalies w) (db_incidents w) (db_actions w)
          (anomaly_detector w) x (clock_reads w) (uuid_draws w).
Definition with_clock_reads (x : nat) (w : World) : World :=
  mkWorld (db_metrics w) (db_anomalies w) (db_incidents w) (db_actions w)
          (anomaly_detector w) (data_simulator w) x (uuid_draws w).
Definition with_uuid_draws (x : nat) (w : World) : World :=
  mkWorld (db_metrics w) (db_anomalies w) (db_incidents w) (db_actions w)
          (anomaly_detector w) (data_simulator w) (clock_reads w) x.

(** A handler is a state transformer that may raise; what it wrote before
    raising stays written. *)
Definition M (A : Type) : Type := World -> World * result A.

Definition ret {A} (a : A) : M A := fun w => (w, Ok a).
Definition raise {A} (r : raised) : M A := fun w => (w, Raise r).
Definition bind {A B} (m : M A) (k : A -> M B) : M B :=
  fun w => match m w with
           | (w', Ok a) => k a w'
           | (w', Raise r) => (w', Raise r)
           end.
Definition gets {A} (f : World -> A) : M A := fun w => (w, Ok (f w)).
Definition modify (f : World -> World) : M unit := fun w => (f w, Ok tt).
Definition lift {A} (r : result A) : M A := fun w => (w, r).

(** [datetime.now(timezone.utc)] and [uuid.uuid4()] *)
Definition now : M Z :=
  fun w => (with_clock_reads (S (clock_reads w)) w, Ok (utcnow (clock_reads w))).
Definition new_uuid : M string :=
  fun w => (with_uuid_draws (S (uuid_draws w)) w, Ok (uuid4 (uuid_draws w))).

(** [except HTTPException: raise] followed by
    [except Exception as e: raise HTTPException(500, str(e))].  Handlers
    that have the second clause only raise no [HTTPException] in their
    body, so the same wrapper serves them. *)
Definition endpoint {A} (body : M A) : M A :=
  fun w => match body w with
           | (w', Raise (Exception e)) => (w', Raise (HTTPException 500 (StrOf e)))
           | r => r
           end.

Notation "'let*' x := m 'in' k" := (bind m (fun x => k))
  (at level 10, x pattern, m at level 100, k at level 200).

(** *** Persistence: the collection operations the handlers use *)

(** [update_one(filter, {"$set": ...})]: the first matching document is
    rewritten; the second component is [matched_count]. *)
Fixpoint update_one {D} (matches : D -> bool) (set : D -> D) (coll : list D)
  : list D * nat :=
  match coll with
  | [] => ([], 0%nat)
  | d :: rest =>
      if matches d then (set d :: rest, 1%nat)
      else let '(rest', n) := update_one matches set rest in (d :: rest', n)
  end.

Definition find_one {D} (matches : D -> bool) (coll : list D) : option D :=
  head (filter (fun d => Is_true (matches d)) coll).

Definition count_documents {D} (matches : D -> bool) (coll : list D) : nat :=
  length (filter (fun d => Is_true (matches d)) coll).

(** [.sort("timestamp", -1)] *)
Definition newest_first (a b : SystemMetric.t) : Prop :=
  (SystemMetric.timestamp b <= SystemMetric.timestamp a)%Z.

#[local] Instance newest_first_dec a b : Decision (newest_first a b).
Proof. unfold newest_first. apply _. Defined.

Definition sort_timestamp_desc (coll : list SystemMetric.t) : list SystemMetric.t :=
  merge_sort newest_first coll.

(** [find_one({"service": service}, sort=[("timestamp", -1)])] *)
Definition latest_metric (service : string) (coll : list SystemMetric.t)
  : option SystemMetric.t :=
  head (sort_timestamp_desc
          (filter (fun m => SystemMetric.service m = service) coll)).

(** A filter [{field: s}] on a stored document. *)
Definition field_is (field s : string) (d : document) : bool :=
  match d !! field with
  | Some (VStr s') => String.eqb s' s
  | _ => false
  end.

(** *** DataSimulator methods *)

Definition DataSimulator_inject_failure (service : string) : M unit :=
  let* t := now in
  modify (fun w =>
    with_simulator {| services := services (data_simulator w);
                      failure_mode := true;
                      failure_service := Some service;
                      failure_start := Some t |} w).

Definition DataSimulator_clear_failure : M unit :=
  modify (fun w =>
    with_simulator {| services := services (data_simulator w);
                      failure_mode := false;
                      failure_service := None;
                      failure_start := None |} w).

(** *** Background retraining *)

Definition features_of (m : SystemMetric.t) : list Q :=
  [SystemMetric.cpu m; SystemMetric.memory m; SystemMetric.latency m;
   SystemMetric.error_rate m; SystemMetric.requests_per_sec m].

(** [db.metrics.find({}).sort("timestamp", -1).limit(200).to_list(200)] *)
Definition recent_window (w : World) : list SystemMetric.t :=
  take 200 (sort_timestamp_desc (db_metrics w)).

(** One iteration of the [while True] loop of [train_anomaly_detector],
    after the sleep.  An exception is logged and the loop goes on. *)
Definition train_anomaly_detector_cycle (w : World) : World :=
  let metrics := recent_window w in
  if (50 <? length metrics)%nat then
    let training_data := map features_of metrics in
    match train (anomaly_detector w) training_data with
    | Ok d => with_detector d w
    | Raise _ => w
    end
  else w.

(** *** Anomaly endpoints *)

Definition metric_names : list string :=
  ["cpu"; "memory"; "latency"; "error_rate"; "requests_per_sec"].

(** [a < b] on floats *)
Definition Qltb (a b : Q) : bool := negb (Qle_bool b a).

Fixpoint mapR {A B} (f : A -> result B) (l : list A) : result (list B) :=
  match l with
  | [] => Ok []
  | x :: xs =>
      match f x with
      | Raise r => Raise r
      | Ok y => match mapR f xs with
                | Raise r => Raise r
                | Ok ys => Ok (y :: ys)
                end
      end
  end.

Context {FA : FloatArith}.

(** Float division; Python raises on a zero divisor. *)
Definition py_div (a b : Q) : result Q :=
  if Qeq_bool b 0 then Raise (Exception ZeroDivisionError) else Ok (fdiv a b).

(** [abs(features[i] - baseline[i]) / (baseline[i] + 1) if i < len(baseline) else 0] *)
Definition deviation_at (features baseline : list Q) (i : nat) : result Q :=
  if (i <? length baseline)%nat then
    py_div (Qabs (fsub (nth i features 0%Q) (nth i baseline 0%Q)))
           (fadd (nth i baseline 0%Q) 1%Q)
  else Ok 0%Q.

Definition deviations (features baseline : list Q) : result (list Q) :=
  mapR (deviation_at features baseline) (seq 0 (length features)).

(** [np.argmax]: the first index holding the maximum. *)
Fixpoint argmax_from (best_i : nat) (best : Q) (i : nat) (l : list Q) : nat :=
  match l with
  | [] => best_i
  | x :: xs =>
      if Qltb best x then argmax_from i x (S i) xs
      else argmax_from best_i best (S i) xs
  end.

Definition np_argmax (l : list Q) : result nat :=
  match l with
  | [] => Raise (Exception ValueError)
  | x :: xs => Ok (argmax_from 0 x 1 xs)
  end.

(** [metric_names[i]] *)
Definition metric_name_at (i : nat) : result string :=
  match metric_names !! i with
  | Some n => Ok n
  | None => Raise (Exception IndexError)
  end.

(** ["critical" if confidence > 0.8 else "high" if confidence > 0.6 else "medium"] *)
Definition severity_of (confidence : Q) : string :=
  if Qltb 0.8 confidence then "critical"
  else if Qltb 0.6 confidence then "high"
  else "medium".

Record Attribution := mkAttribution {
  max_deviation_idx : nat;
  anomalous_metric : string;
  attributed_value : Q;
  attributed_baseline : Q
}.

(** The attribution block of [detect_anomalies], for the detector's
    [baseline_data] and the feature vector of the metric. *)
Definition attribute (baseline_data features : list Q) : result Attribution :=
  let baseline := match baseline_data with [] => features | _ => baseline_data end in
  match deviations features baseline with
  | Raise r => Raise r
  | Ok devs =>
      match np_argmax devs with
      | Raise r => Raise r
      | Ok idx =>
          match metric_name_at idx with
          | Raise r => Raise r
          | Ok name =>
              Ok {| max_deviation_idx := idx;
                    anomalous_metric := name;
                    attributed_value := nth idx features 0%Q;
                    attributed_baseline :=
                      if (idx <? length baseline)%nat then nth idx baseline 0%Q
                      else nth idx features 0%Q |}
          end
      end
  end.

(** The body of [if is_anomaly:]. *)
Definition report_anomaly (service : string) (metric : SystemMetric.t)
    (features : list Q) (confidence : Q) : M Anomaly.t :=
  let* bd := gets (fun w => baseline_data (anomaly_detector w)) in
  let* a := lift (attribute bd features) in
  let severity := severity_of confidence in
  let* uid := new_uuid in
  let anomaly :=
    {| Anomaly.id := uid;
       Anomaly.timestamp := SystemMetric.timestamp metric;
       Anomaly.service := service;
       Anomaly.metric_type := anomalous_metric a;
       Anomaly.severity := severity;
       Anomaly.confidence := confidence;
       Anomaly.description := "Anomalous " ++ anomalous_metric a ++ " detected";
       Anomaly.value := attributed_value a;
       Anomaly.baseline := attributed_baseline a |} in
  let* _ := modify (fun w => with_anomalies (db_anomalies w ++ [anomaly]) w) in
  ret anomaly.

Fixpoint detect_loop (svcs : list string) (detected : list Anomaly.t)
  : M (list Anomaly.t) :=
  match svcs with
  | [] => ret detected
  | service :: rest =>
      let* found := gets (fun w => latest_metric service (db_metrics w)) in
      match found with
      | None => detect_loop rest detected
      | Some metric =>
          let features := features_of metric in
          let* verdict := gets (fun w => detect (anomaly_detector w) features) in
          if fst verdict then
            let* anomaly := report_anomaly service metric features (snd verdict) in
            detect_loop rest (detected ++ [anomaly])
          else detect_loop rest detected
      end
  end.

(** [POST /anomalies/detect]: the number detected and the anomalies. *)
Definition detect_anomalies : M (nat * list Anomaly.t) :=
  endpoint (
    let* svcs := gets (fun w => services (data_simulator w)) in
    let* detected := detect_loop svcs [] in
    ret (length detected, detected)).

(** *** Incident endpoints *)

Record IncidentCreate := mkIncidentCreate {
  ic_title : string;
  ic_severity : string;
  ic_service : string;
  ic_anomaly_ids : list string
}.

(** The [model_dump()] of the new [Incident], with [created_at] in ISO form. *)
Definition incident_document (uid : string) (created : Z) (i : IncidentCreate)
  : document :=
  <["id" := VStr uid]>
  (<["title" := VStr (ic_title i)]>
  (<["status" := VStr "open"]>
  (<["severity" := VStr (ic_severity i)]>
  (<["service" := VStr (ic_service i)]>
  (<["root_cause" := VNull]>
  (<["ai_explanation" := VNull]>
  (<["recommendations" := VNull]>
  (<["created_at" := VTime created]>
  (<["resolved_at" := VNull]>
  (<["anomaly_ids" := VList (map VStr (ic_anomaly_ids i))]> ∅)))))))))).

Definition create_incident (incident : IncidentCreate) : M document :=
  endpoint (
    let* uid := new_uuid in
    let* created := now in
    let doc := incident_document uid created incident in
    let* _ := modify (fun w => with_incidents (db_incidents w ++ [doc]) w) in
    ret doc).

Definition update_incidents (incident_id : string) (set : document -> document)
  : M nat :=
  fun w =>
    let '(coll, matched) :=
      update_one (field_is "id" incident_id) set (db_incidents w) in
    (with_incidents coll w, Ok matched).

Definition find_incident (incident_id : string) : M (option document) :=
  gets (fun w => find_one (field_is "id" incident_id) (db_incidents w)).

(** ['resolved_at' in updates and updates['resolved_at']] *)
Definition marks_resolution (updates : document) : bool :=
  match updates !! "resolved_at" with
  | Some v => truthy v
  | None => false
  end.

(** The keys that [$set] takes as names of top-level fields: not empty, not
    the store's own [_id], without a leading [$] and without a dot (a dotted
    key is a path into embedded documents). *)
Definition plain_key (k : string) : bool :=
  negb (String.eqb k "") && negb (String.eqb k "_id") &&
  negb (String.prefix "$" k) &&
  match String.index 0 "." k with None => true | Some _ => false end.

(** An update document that the store applies as a merge of top-level
    fields: it is not empty and all its keys are plain. *)
Definition plain_update (updates : document) : Prop :=
  updates <> ∅ /\ map_Forall (fun k _ => plain_key k = true) updates.

(** [PATCH /incidents/{incident_id}]: [{"$set": updates}] overwrites the
    fields named in [updates] and keeps the others.  The merge is what the
    store does for a [plain_update]; on other update documents the store
    follows a path or refuses the update, which this definition does not
    describe. *)
Definition update_incident (incident_id : string) (updates : document)
  : M (option document) :=
  endpoint (
    let* updates :=
      if marks_resolution updates then
        let* t := now in ret (<["resolved_at" := VTime t]> updates)
      else ret updates in
    let* matched := update_incidents incident_id (fun d => updates ∪ d) in
    if (matched =? 0)%nat then
      raise (HTTPException 404 (Literal "Incident not found"))
    else find_incident incident_id).

(** *** AI recommendation endpoint *)

(** [str.find] and [str.rfind] for a one-character needle. *)
Fixpoint find_from (c : ascii) (s : string) (i : Z) : Z :=
  match s with
  | EmptyString => -1
  | String a rest => if Ascii.eqb a c then i else find_from c rest (i + 1)
  end.

Definition str_find (s : string) (c : ascii) : Z := find_from c s 0.

Fixpoint rfind_from (c : ascii) (s : string) (i last : Z) : Z :=
  match s with
  | EmptyString => last
  | String a rest => rfind_from c rest (i + 1) (if Ascii.eqb a c then i else last)
  end.

Definition str_rfind (s : string) (c : ascii) : Z := rfind_from c s 0 (-1).

(** [s[a:b]] for [0 <= a <= b] *)
Definition slice (s : string) (a b : Z) : string :=
  substring (Z.to_nat a) (Z.to_nat (b - a)) s.

Definition recommendation (action description risk_level impact : string) : value :=
  VDict (<["action" := VStr action]>
        (<["description" := VStr description]>
        (<["risk_level" := VStr risk_level]>
        (<["impact" := VStr impact]> ∅)))).

(** The list of the [else] branch. *)
Definition default_recommendations : list value :=
  [ recommendation "Scale Resources"
      "Increase CPU and memory allocation for the affected service"
      "low" "Improved performance and reduced error rates";
    recommendation "Restart Service"
      "Perform a rolling restart of the service instances"
      "medium" "Clears memory leaks and resets connections";
    recommendation "Review Recent Changes"
      "Investigate and potentially rollback recent deployments"
      "low" "Identifies root cause if related to recent changes" ].

(** The list of the [except] branch. *)
Definition except_recommendations : list value :=
  [ recommendation "Scale Resources"
      "Increase CPU and memory allocation"
      "low" "Improved performance" ].

Definition parse_recommendations (response : string) : value :=
  let json_start := str_find response "["%char in
  let json_end := str_rfind response "]"%char + 1 in
  if (0 <=? json_start)%Z && (json_start <? json_end)%Z then
    match json_loads (slice response json_start json_end) with
    | Ok v => v
    | Raise _ => VList except_recommendations
    end
  else VList default_recommendations.

(** [for rec in recommendations] *)
Definition iter_value (v : value) : result (list value) :=
  match v with
  | VList l => Ok l
  | VStr s => Ok (map (fun c => VStr (String c EmptyString)) (list_ascii_of_string s))
  | VDict d => Ok (map (fun kv => VStr (fst kv)) (map_to_list d))
  | _ => Raise (Exception TypeError)
  end.

(** [rec[key]] *)
Definition subscript (rec : value) (key : string) : result value :=
  match rec with
  | VDict d => match d !! key with
               | Some v => Ok v
               | None => Raise (Exception (KeyError key))
               end
  | _ => Raise (Exception TypeError)
  end.

(** Validation of a [str] field. *)
Definition as_str (v : value) : result string :=
  match v with
  | VStr s => Ok s
  | _ => Raise (Exception ValidationError)
  end.

(** One iteration of the loop that creates the action items. *)
Definition create_action (incident_id : string) (rec : value) : M Action.t :=
  let* a := lift (subscript rec "action") in
  let* d := lift (subscript rec "description") in
  let* r := lift (subscript rec "risk_level") in
  let* i := lift (subscript rec "impact") in
  let* uid := new_uuid in
  let* created := now in
  let* a := lift (as_str a) in
  let* d := lift (as_str d) in
  let* r := lift (as_str r) in
  let* i := lift (as_str i) in
  let action :=
    {| Action.id := uid;
       Action.incident_id := incident_id;
       Action.action := a;
       Action.description := d;
       Action.risk_level := r;
       Action.impact := i;
       Action.status := "pending";
       Action.approved_by := None;
       Action.executed_at := None;
       Action.created_at := created |} in
  let* _ := modify (fun w => with_actions (db_actions w ++ [action]) w) in
  ret action.

Fixpoint create_actions (incident_id : string) (recs : list value) : M unit :=
  match recs with
  | [] => ret tt
  | rec :: rest =>
      let* _ := create_action incident_id rec in
      create_actions incident_id rest
  end.

(** Building the prompt reads [incident['title']], [incident['service']]
    and [incident['severity']]; a missing key raises.  The text of the
    prompt is not kept: it only reaches the language model. *)
Fixpoint read_fields (incident : document) (keys : list string) : result unit :=
  match keys with
  | [] => Ok tt
  | k :: rest =>
      match incident !! k with
      | None => Raise (Exception (KeyError k))
      | Some _ => read_fields incident rest
      end
  end.

(** [POST /ai/recommend].  [reply] is the outcome of
    [await chat.send_message(user_message)]. *)
Definition generate_recommendations (incident_id : string) (reply : result string)
  : M value :=
  endpoint (
    let* incident := find_incident incident_id in
    match incident with
    | None => raise (HTTPException 404 (Literal "Incident not found"))
    | Some incident =>
        let* _ := lift (read_fields incident ["title"; "service"; "severity"]) in
        let* response := lift reply in
        let recommendations := parse_recommendations response in
        let* _ := update_incidents incident_id
                    (fun d => <["recommendations" := recommendations]> d) in
        let* recs := lift (iter_value recommendations) in
        let* _ := create_actions incident_id recs in
        ret recommendations
    end).

(** *** Action endpoints *)

Definition has_id (action_id : string) (a : Action.t) : bool :=
  String.eqb (Action.id a) action_id.

Definition update_actions (action_id : string) (set : Action.t -> Action.t)
  : M nat :=
  fun w =>
    let '(coll, matched) := update_one (has_id action_id) set (db_actions w) in
    (with_actions coll w, Ok matched).

Definition find_action (action_id : string) : M (option Action.t) :=
  gets (fun w => find_one (has_id action_id) (db_actions w)).

(** [{"$set": {"status": "approved", "approved_by": ..., "executed_at": ...}}] *)
Definition set_approved (approved_by : string) (t : Z) (a : Action.t) : Action.t :=
  {| Action.id := Action.id a;
     Action.incident_id := Action.incident_id a;
     Action.action := Action.action a;
     Action.description := Action.description a;
     Action.risk_level := Action.risk_level a;
     Action.impact := Action.impact a;
     Action.status := "approved";
     Action.approved_by := Some approved_by;
     Action.executed_at := Some t;
     Action.created_at := Action.created_at a |}.

(** [{"$set": {"status": "rejected"}}] *)
Definition set_rejected (a : Action.t) : Action.t :=
  {| Action.id := Action.id a;
     Action.incident_id := Action.incident_id a;
     Action.action := Action.action a;
     Action.description := Action.description a;
     Action.risk_level := Action.risk_level a;
     Action.impact := Action.impact a;
     Action.status := "rejected";
     Action.approved_by := Action.approved_by a;
     Action.executed_at := Action.executed_at a;
     Action.created_at := Action.created_at a |}.

(** [POST /actions/{action_id}/approve] *)
Definition approve_action (action_id approved_by : string) : M (option Action.t) :=
  endpoint (
    let* t := now in
    let* matched := update_actions action_id (set_approved approved_by t) in
    if (matched =? 0)%nat then
      raise (HTTPException 404 (Literal "Action not found"))
    else find_action action_id).

(** [POST /actions/{action_id}/reject] *)
Definition reject_action (action_id : string) : M (option Action.t) :=
  endpoint (
    let* matched := update_actions action_id set_rejected in
    if (matched =? 0)%nat then
      raise (HTTPException 404 (Literal "Action not found"))
    else find_action action_id).

(** *** Demo mode endpoints *)

(** The text of a list of plain strings inside an f-string. *)
Definition repr_list (l : list string) : string :=
  "[" ++ String.concat ", " (map (fun s => "'" ++ s ++ "'") l) ++ "]".

Record InjectResponse := mkInjectResponse {
  ir_message : string;
  ir_service : string;
  ir_status : string
}.

(** [POST /demo/inject-failure] *)
Definition inject_failure (service : string) : M InjectResponse :=
  let* svcs := gets (fun w => services (data_simulator w)) in
  if negb (existsb (String.eqb service) svcs) then
    raise (HTTPException 400
             (Literal ("Invalid service. Must be one of " ++ repr_list svcs)))
  else
    let* _ := DataSimulator_inject_failure service in
    ret {| ir_message := "Failure injected into " ++ service;
           ir_service := service;
           ir_status := "active" |}.

(** [POST /demo/clear-failure] *)
Definition clear_failure : M (string * string) :=
  let* _ := DataSimulator_clear_failure in
  ret ("Failure mode cleared", "normal").

(** *** Stats endpoint *)

Record ServiceHealth := mkServiceHealth {
  sh_service : string;
  sh_status : string;
  sh_cpu : Q;
  sh_memory : Q;
  sh_latency : Q;
  sh_error_rate : Q
}.

Record DashboardStats := mkDashboardStats {
  active_incidents : nat;
  total_incidents : nat;
  recent_anomalies : nat;
  pending_actions : nat;
  service_health : list ServiceHealth;
  anomaly_detector_status : string
}.

Definition health_of (metric : SystemMetric.t) : string :=
  if Qltb 80 (SystemMetric.cpu metric) || Qltb 80 (SystemMetric.memory metric)
     || Qltb 10 (SystemMetric.error_rate metric) then "critical"
  else if Qltb 60 (SystemMetric.cpu metric) || Qltb 60 (SystemMetric.memory metric)
     || Qltb 5 (SystemMetric.error_rate metric) then "warning"
  else "healthy".

Definition service_health_of (coll : list SystemMetric.t) (svcs : list string)
  : list ServiceHealth :=
  omap (fun service =>
          match latest_metric service coll with
          | None => None
          | Some metric =>
              Some {| sh_service := service;
                      sh_status := health_of metric;
                      sh_cpu := SystemMetric.cpu metric;
                      sh_memory := SystemMetric.memory metric;
                      sh_latency := SystemMetric.latency metric;
                      sh_error_rate := SystemMetric.error_rate metric |}
          end) svcs.

(** [timedelta(hours=h)] in microseconds *)
Definition hours (h : Z) : Z := h * 3600000000.

(** [GET /stats/dashboard] *)
Definition get_dashboard_stats : M DashboardStats :=
  endpoint (
    let* active := gets (fun w =>
      count_documents (field_is "status" "open") (db_incidents w)) in
    let* total := gets (fun w =>
      count_documents (fun _ => true) (db_incidents w)) in
    let* t := now in
    let since_24h := t - hours 24 in
    let* recent := gets (fun w =>
      count_documents (fun a => (since_24h <=? Anomaly.timestamp a)%Z)
                      (db_anomalies w)) in
    let* pending := gets (fun w =>
      count_documents (fun a => String.eqb (Action.status a) "pending")
                      (db_actions w)) in
    let* health := gets (fun w =>
      service_health_of (db_metrics w) (services (data_simulator w))) in
    let* trained := gets (fun w => is_trained (anomaly_detector w)) in
    ret {| active_incidents := active;
           total_incidents := total;
           recent_anomalies := recent;
           pending_actions := pending;
           service_health := health;
           anomaly_detector_status := if trained then "trained" else "training" |}).
(** *** Metric generation and the feed *)

Context `{Entropy}.

(** [random.uniform(a, b)], which is [a + (b - a) * random()] *)
Definition uniform (n : nat) (a b : Q) : Q := (a + (b - a) * random_draw n)%Q.

(** [min(a, b)] *)
Definition py_min (a b : Q) : Q := if Qltb b a then b else a.

(** [(t2 - t1).total_seconds()] *)
Definition total_seconds (t2 t1 : Z) : Q := (inject_Z (t2 - t1) / 1000000)%Q.

(** [self.failure_mode and service == self.failure_service] *)
Definition failing_service (sim : DataSimulator) (service : string) : bool :=
  failure_mode sim &&
  match failure_service sim with
  | Some s => String.eqb service s
  | None => false
  end.

(** [DataSimulator.generate_metric]; [n] random numbers were drawn before
    the call, and the result carries the number drawn after it. *)
Definition DataSimulator_generate_metric (service : string) (n : nat)
  : M (SystemMetric.t * nat) :=
  let* base_time := now in
  let cpu := uniform n 20 50 in
  let memory := uniform (n + 1) 30 60 in
  let latency := uniform (n + 2) 50 150 in
  let error_rate := uniform (n + 3) 0 2 in
  let rps := uniform (n + 4) 100 500 in
  let* sim := gets data_simulator in
  if failing_service sim service then
    let* t := now in
    match failure_start sim with
    | None => raise (Exception TypeError)
    | Some start =>
        let elapsed := total_seconds t start in
        let intensity := py_min (elapsed / 60)%Q 1%Q in
        let cpu := uniform (n + 5) (70 + intensity * 20)%Q 95 in
        let memory := uniform (n + 6) (70 + intensity * 20)%Q 95 in
        let latency := uniform (n + 7) (300 + intensity * 700)%Q 1000 in
        let error_rate := uniform (n + 8) (10 + intensity * 30)%Q 50 in
        let rps := uniform (n + 9) 50 100 in
        ret (SystemMetric.mk base_time service cpu memory latency error_rate rps,
             (n + 10)%nat)
    end
  else
    ret (SystemMetric.mk base_time service cpu memory latency error_rate rps,
         (n + 5)%nat).

(** The [for service in data_simulator.services] loop of
    [simulate_metrics_stream]. *)
Fixpoint feed_loop (svcs : list string) (n : nat) : M nat :=
  match svcs with
  | [] => ret n
  | service :: rest =>
      let* generated := DataSimulator_generate_metric service n in
      let* _ := modify (fun w =>
        with_metrics (db_metrics w ++ [fst generated]) w) in
      feed_loop rest (snd generated)
  end.

(** One iteration of the [while True] loop of [simulate_metrics_stream],
    up to the sleep.  An exception is logged and the loop goes on. *)
Definition simulate_metrics_stream_cycle (n : nat) (w : World) : World :=
  fst ((let* svcs := gets (fun w => services (data_simulator w)) in
        feed_loop svcs n) w).

(** *** Health, metrics and demo status *)

Record HealthReport := mkHealthReport {
  hr_status : string;
  hr_database : string;
  hr_anomaly_detector : string;
  hr_simulator : string
}.

(** [GET /health] *)
Definition health_check : M HealthReport :=
  let* trained := gets (fun w => is_trained (anomaly_detector w)) in
  let* failing := gets (fun w => failure_mode (data_simulator w)) in
  ret {| hr_status := "healthy";
         hr_database := "connected";
         hr_anomaly_detector := if trained then "trained" else "initializing";
         hr_simulator := if failing then "active" else "normal" |}.

(** [GET /metrics/latest] *)
Definition get_latest_metrics : M (list SystemMetric.t) :=
  endpoint (
    let* svcs := gets (fun w => services (data_simulator w)) in
    gets (fun w => omap (fun service => latest_metric service (db_metrics w)) svcs)).

(** [GET /demo/status] *)
Definition demo_status : M (bool * option string * list string) :=
  gets (fun w => (failure_mode (data_simulator w),
                  failure_service (data_simulator w),
                  services (data_simulator w))).

(** *** Reading and analysing incidents *)

(** [GET /incidents/{incident_id}] *)
Definition get_incident (incident_id : string) : M document :=
  endpoint (
    let* incident := find_incident incident_id in
    match incident with
    | None => raise (HTTPException 404 (Literal "Incident not found"))
    | Some d => ret d
    end).

(** The anomaly query of [analyze_incident] runs when
    [incident.get('anomaly_ids')] is truthy; [$in] accepts a list only. *)
Definition anomaly_query (incident : document) : result unit :=
  match incident !! "anomaly_ids" with
  | None => Ok tt
  | Some v =>
      if truthy v then
        match v with
        | VList _ => Ok tt
        | _ => Raise (Exception ServiceError)
        end
      else Ok tt
  end.

(** [POST /ai/analyze].  [reply] is the outcome of
    [await chat.send_message(user_message)].  The queries and the prompt
    read the incident's fields in the order given; the text of the prompt
    is not kept.  The metrics query filters on [incident['service']]; a
    dictionary stored there would be read by the store as a query
    expression, which is not modelled. *)
Definition analyze_incident (incident_id : string) (reply : result string)
  : M (string * string) :=
  endpoint (
    let* incident := find_incident incident_id in
    match incident with
    | None => raise (HTTPException 404 (Literal "Incident not found"))
    | Some incident =>
        let* _ := lift (anomaly_query incident) in
        let* _ := lift (read_fields incident
                          ["service"; "title"; "service"; "severity"; "status"]) in
        let* response := lift reply in
        let* _ := update_incidents incident_id
                    (fun d => <["ai_explanation" := VStr response]> d) in
        ret (incident_id, response)
    end).

(** *** Listing actions *)

(** [.sort("created_at", -1)] *)
Definition newest_action_first (a b : Action.t) : Prop :=
  (Action.created_at b <= Action.created_at a)%Z.

#[local] Instance newest_action_first_dec a b : Decision (newest_action_first a b).
Proof. unfold newest_action_first. apply _. Defined.

(** The query built by [get_actions]: an absent or empty parameter adds no
    condition. *)
Definition action_query (incident_id status : option string) (a : Action.t) : bool :=
  match incident_id with
  | Some i => if String.eqb i "" then true else String.eqb (Action.incident_id a) i
  | None => true
  end &&
  match status with
  | Some s => if String.eqb s "" then true else String.eqb (Action.status a) s
  | None => true
  end.

(** [GET /actions] *)
Definition get_actions (incident_id status : option string) : M (list Action.t) :=
  endpoint (
    gets (fun w =>
      take 100 (merge_sort newest_action_first
                  (filter (fun a => Is_true (action_query incident_id status a))
                          (db_actions w))))).
End Server.

(** A freshly created action: pending, with no stamps. *)
Definition pending_action (uid incident_id : string) (created : Z)
    (action description risk_level impact : string) : Action.t :=
  Action.mk uid incident_id action description risk_level impact
            "pending" None None created.

(** ** A concrete environment

    Used to run the handlers on concrete inputs: a forest that labels every
    sample an outlier, a loader that rejects its input, a counter for the
    clock and numbered identifiers. *)

Definition sample_uuid (n : nat) : string :=
  String (ascii_of_nat (65 + n)) EmptyString.

Definition sample_external : External :=
  {| Forest := unit;
     fit := fun _ => Ok tt;
     predict := fun _ _ => Ok (-1);
     score_samples := fun _ _ => Ok (-2)%Q;
     np_exp := fun q => (1 + q + q * q / 2)%Q;
     json_loads := fun _ => Raise (Exception JSONDecodeError);
     uuid4 := sample_uuid;
     utcnow := fun n => 1000 * Z.of_nat n |}.


(** The same environment with a scorer that always raises. *)
Definition failing_external : External :=
  {| Forest := unit;
     fit := fun _ => Ok tt;
     predict := fun _ _ => Raise (Exception ValueError);
     score_samples := fun _ _ => Raise (Exception ValueError);
     np_exp := fun q => q;
     json_loads := fun _ => Raise (Exception JSONDecodeError);
     uuid4 := sample_uuid;
     utcnow := fun n => 1000 * Z.of_nat n |}.

Definition sample_world : @World sample_external :=
  mkWorld [] [] [] [] AnomalyDetector_init DataSimulator_init 0 0.

Definition sample_metric (n : nat) : SystemMetric.t :=
  SystemMetric.mk (Z.of_nat n) "api-gateway" 30 40 100 1 300.

(** A store holding [n] metric samples. *)
Definition world_with_metrics (n : nat) : @World sample_external :=
  mkWorld (map sample_metric (seq 0 n)) [] [] []
          AnomalyDetector_init DataSimulator_init 0 0.

(** An engine trained to the baseline of the specification's example. *)
Definition trained_world : @World sample_external :=
  with_detector
    (@mkDetector sample_external (Some tt) true [30; 40; 100; 1; 300]%Q)
    sample_world.

Definition spike_metric : SystemMetric.t :=
  SystemMetric.mk 7 "api-gateway" 90 40 100 1 300.

Definition sample_action : Action.t :=
  pending_action "A" "I" 0 "Restart Service"
    "Perform a rolling restart of the service instances" "medium"
    "Clears memory leaks and resets connections".

Definition world_with_action : @World sample_external :=
  with_actions [sample_action] sample_world.

Definition sample_incident : IncidentCreate :=
  {| ic_title := "Test Performance Issue";
     ic_severity := "high";
     ic_service := "api-gateway";
     ic_anomaly_ids := [] |}.

(** The world after [create_incident]: one open incident with id [A]. *)
Definition incident_world : @World sample_external :=
  fst (create_incident sample_incident sample_world).

Definition investigating_incident : document :=
  <["status" := VStr "investigating"]> (incident_document "B" 5 sample_incident).

(** The field [k] of the document a handler returned. *)
Definition returned_field (r : result (option document)) (k : string)
  : option value :=
  match r with
  | Ok (Some d) => d !! k
  | _ => None
  end.

(** A generator that always draws one half. *)
Definition sample_entropy : Entropy := {| random_draw := fun _ => 0.5%Q |}.

(** The sample environment with a loader that knows two texts: a list of
    two recommendation objects, and a list whose second object is empty. *)
Definition scripted_loads (s : string) : result value :=
  if String.eqb s "[two]" then
    Ok (VList [recommendation "Add Replica" "Add a read replica" "low" "Less load";
               recommendation "Flush Cache" "Drop all cached entries" "medium"
                 "Fresh data"])
  else if String.eqb s "[one, {}]" then
    Ok (VList [recommendation "Add Replica" "Add a read replica" "low" "Less load";
               VDict ∅])
  else Raise (Exception JSONDecodeError).

Definition scripted_external : External :=
  {| Forest := unit;
     fit := fun _ => Ok tt;
     predict := fun _ _ => Ok (-1);
     score_samples := fun _ _ => Ok (-2)%Q;
     np_exp := fun q => (1 + q + q * q / 2)%Q;
     json_loads := scripted_loads;
     uuid4 := sample_uuid;
     utcnow := fun n => 1000 * Z.of_nat n |}.

Definition scripted_world : @World scripted_external :=
  fst (create_incident sample_incident
         (mkWorld [] [] [] [] AnomalyDetector_init DataSimulator_init 0 0)).

(** Arithmetic without rounding error: every operation returns the exact
    rational. *)
Program Definition exact_arith : FloatArith :=
  {| fadd := Qplus; fsub := Qminus; fdiv := Qdiv |}.
Next Obligation. intros b Hb. lra. Qed.
Next Obligation. intros v. ring. Qed.
Next Obligation. intros a b Ha Hb. rewrite Ha. now field. Qed.

(** Arithmetic whose quotients are cut to three decimals: a coarse stand-in
    for the rounding of a quotient, under which [1 / 3] and [0.333] are the
    same number. *)
Program Definition truncating_arith : FloatArith :=
  {| fadd := Qplus; fsub := Qminus;
     fdiv := fun a b => (inject_Z (Qfloor (a / b * 1000)) / 1000)%Q |}.
Next Obligation. intros b Hb. lra. Qed.
Next Obligation. intros v. ring. Qed.
Next Obligation.
  intros a b Ha Hb. cbv beta.
  assert (E : (a / b * 1000 == 0)%Q) by (rewrite Ha; now field).
  rewrite (Qfloor_comp _ _ E). reflexivity.
Qed.

(** The sample world after a failure was injected into the database
    service. *)
Definition database_failure_world : @World sample_external :=
  fst (inject_failure "database" sample_world).

(** A store of 51 samples with a trained engine. *)
Definition trained_store : @World sample_external :=
  with_detector
    (@mkDetector sample_external (Some tt) true [30; 40; 100; 1; 300]%Q)
    (world_with_metrics 51).

(** ** Reference notions used in the statements *)

(** The relative deviation of a value from its baseline, as the handler
    computes it. *)
Definition relative_deviation `{FloatArith} (v b : Q) : Q :=
  fdiv (Qabs (fsub v b)) (fadd b 1%Q).

(** [k] is the first position of [l] that holds its maximum. *)
Definition is_first_max (l : list Q) (k : nat) : Prop :=
  (k < length l)%nat /\
  (forall j, (j < length l)%nat -> (nth j l 0 <= nth k l 0)%Q) /\
  (forall j, (j < k)%nat -> (nth j l 0 < nth k l 0)%Q).

(** The mean of dimension [i] over a window of feature vectors. *)
Definition Qsum (l : list Q) : Q := fold_right Qplus 0%Q l.

Definition dimension_mean (rows : list (list Q)) (i : nat) : Q :=
  (Qsum (map (fun r => nth i r 0) rows) / inject_Z (Z.of_nat (length rows)))%Q.

(** An action's stamps agree with its status: set when approved, unset
    while pending. *)
Definition stamps_consistent (a : Action.t) : Prop :=
  (Action.status a = "approved" ->
   is_Some (Action.approved_by a) /\ is_Some (Action.executed_at a)) /\
  (Action.status a = "pending" ->
   Action.approved_by a = None /\ Action.executed_at a = None).

(** The status of a stored incident, when it is a string. *)
Definition status_of (d : document) : option string :=
  match d !! "status" with
  | Some (VStr s) => Some s
  | _ => None
  end.

Definition has_status (s : string) (d : document) : Prop :=
  status_of d = Some s.

#[global] Instance has_status_dec s d : Decision (has_status s d).
Proof. unfold has_status. apply _. Defined.

(** Every gauge of a metric sample is non-negative. *)
Definition gauges_nonnegative (m : SystemMetric.t) : Prop :=
  Forall (fun v => (0 <= v)%Q) (features_of m).

(** A stored baseline is empty (never trained) or has one non-negative
    entry per gauge. *)
Definition baseline_well_formed (bd : list Q) : Prop :=
  (bd = [] \/ length bd = 5%nat) /\ Forall (fun b => (0 <= b)%Q) bd.

(** Two worlds agree on everything but the clock counter. *)
Definition differ_in_clock_only `{External} (w w' : World) : Prop :=
  db_metrics w' = db_metrics w /\ db_anomalies w' = db_anomalies w /\
  db_incidents w' = db_incidents w /\ db_actions w' = db_actions w /\
  anomaly_detector w' = anomaly_detector w /\
  data_simulator w' = data_simulator w /\
  uuid_draws w' = uuid_draws w.

(** A simulator in failure mode knows since when and for which monitored
    service. *)
Definition simulator_consistent (sim : DataSimulator) : Prop :=
  failure_mode sim = true ->
  is_Some (failure_start sim) /\
  exists service, failure_service sim = Some service /\ service ∈ services sim.

(** [v] is a recommendation object whose four fields are the strings of
    [t]; it may carry other keys as well. *)
Definition rec_fields (v : value) (t : string * string * string * string) : Prop :=
  exists d,
    v = VDict d /\
    d !! "action" = Some (VStr t.1.1.1) /\
    d !! "description" = Some (VStr t.1.1.2) /\
    d !! "risk_level" = Some (VStr t.1.2) /\
    d !! "impact" = Some (VStr t.2).

(** The four texts of an action. *)
Definition action_texts (a : Action.t) : string * string * string * string :=
  (Action.action a, Action.description a, Action.risk_level a, Action.impact a).

(** An action as the recommendation loop creates it for [incident_id]. *)
Definition fresh_for (incident_id : string) (a : Action.t) : Prop :=
  Action.incident_id a = incident_id /\ Action.status a = "pending" /\
  Action.approved_by a = None /\ Action.executed_at a = None.

(** The character [c] occurs in [s]. *)
Definition occurs (c : ascii) (s : string) : Prop :=
  In c (list_ascii_of_string s).

(** From now on the clock does not read earlier than the start of the
    failure the simulator recorded. *)
Definition clock_past_failure_start `{External} (w : World) : Prop :=
  forall start, failure_start (data_simulator w) = Some start ->
  forall k, (clock_reads w <= k)%nat -> (start <= utcnow k)%Z.

(** What the detection pass relies on: stored gauges are non-negative, the
    baseline is well formed, the simulator is consistent and the clock has
    passed the start of the recorded failure. *)
Definition store_sound `{External} (w : World) : Prop :=
  Forall gauges_nonnegative (db_metrics w) /\
  baseline_well_formed (baseline_data (anomaly_detector w)) /\
  simulator_consistent (data_simulator w) /\
  clock_past_failure_start w.

(** [w'] keeps the metrics, the engine and the simulator of [w], and its
    clock is not behind. *)
Definition engine_frame `{External} (w w' : World) : Prop :=
  db_metrics w' = db_metrics w /\
  anomaly_detector w' = anomaly_detector w /\
  data_simulator w' = data_simulator w /\
  (clock_reads w <= clock_reads w')%nat.

(** One background cycle or one request served. *)
Inductive server_step `{External} `{Entropy} `{FloatArith} (w : World) : World -> Prop :=
  | step_feed (n : nat) :
      server_step w (simulate_metrics_stream_cycle n w)
  | step_retrain :
      server_step w (train_anomaly_detector_cycle w)
  | step_detect :
      server_step w (fst (detect_anomalies w))
  | step_inject (service : string) :
      server_step w (fst (inject_failure service w))
  | step_clear :
      server_step w (fst (clear_failure w))
  | step_create (incident : IncidentCreate) :
      server_step w (fst (create_incident incident w))
  | step_update (incident_id : string) (updates : document) :
      server_step w (fst (update_incident incident_id updates w))
  | step_analyze (incident_id : string) (reply : result string) :
      server_step w (fst (analyze_incident incident_id reply w))
  | step_recommend (incident_id : string) (reply : result string) :
      server_step w (fst (generate_recommendations incident_id reply w))
  | step_approve (action_id approved_by : string) :
      server_step w (fst (approve_action action_id approved_by w))
  | step_reject (action_id : string) :
      server_step w (fst (reject_action action_id w))
  | step_dashboard :
      server_step w (fst (get_dashboard_stats w)).

(** * Properties *)

Section Properties.
Context `{External} {FA : FloatArith}.

(** ** Severity policy *)

Lemma Qltb_lt (a b : Q) : Qltb a b = true <-> (a < b)%Q.
Proof.
  unfold Qltb. rewrite negb_true_iff, <- not_true_iff_false, Qle_bool_iff.
  split; [apply Qnot_le_lt | apply Qlt_not_le].
Qed.

Lemma Qltb_ge (a b : Q) : Qltb a b = false <-> (b <= a)%Q.
Proof.
  unfold Qltb. rewrite negb_false_iff. apply Qle_bool_iff.
Qed.

(** C5: the severity of a generated anomaly depends on the confidence alone,
    through two strict comparisons: above 0.8 it is critical, above 0.6 and
    up to 0.8 it is high, up to 0.6 it is medium; 0.8 itself is high and 0.6
    itself is medium.  [report_anomaly] stores exactly this value. *)
Theorem severity_thresholds (confidence : Q) :
  ((0.8 < confidence)%Q -> severity_of confidence = "critical") /\
  ((0.6 < confidence)%Q /\ (confidence <= 0.8)%Q -> severity_of confidence = "high") /\
  ((confidence <= 0.6)%Q -> severity_of confidence = "medium") /\
  severity_of 0.8 = "high" /\
  severity_of 0.6 = "medium" /\
  (forall service metric features w w' a,
      report_anomaly service metric features confidence w = (w', Ok a) ->
      Anomaly.severity a = severity_of confidence).
Proof.
  unfold severity_of. repeat split.
  - intros Hc. apply Qltb_lt in Hc. now rewrite Hc.
  - intros [Hlo Hhi]. apply Qltb_lt in Hlo. apply Qltb_ge in Hhi.
    now rewrite Hhi, Hlo.
  - intros Hc.
    assert (Hhi : Qltb 0.8 confidence = false) by (apply Qltb_ge; lra).
    apply Qltb_ge in Hc. now rewrite Hhi, Hc.
  - intros service metric features w w' a.
    unfold report_anomaly, bind, gets, lift, new_uuid, modify, ret.
    destruct (attribute _ features); intros [= <- <-]. reflexivity.
Qed.

(** ** Detector *)

(** C6: [detect] is a total function; on an untrained engine it returns
    [(False, 0.5)], and so it does when [predict] or [score_samples] raises
    (or when the estimator was never fitted). *)
Theorem detect_neutral_default (self : AnomalyDetector) (metric : list Q) :
  (is_trained self = false -> detect self metric = (false, 0.5%Q)) /\
  (model self = None -> detect self metric = (false, 0.5%Q)) /\
  (forall m r, model self = Some m -> predict m metric = Raise r ->
               detect self metric = (false, 0.5%Q)) /\
  (forall m r, model self = Some m -> score_samples m metric = Raise r ->
               detect self metric = (false, 0.5%Q)).
Proof.
  unfold detect, neutral. repeat split.
  - intros ->. reflexivity.
  - intros ->. now destruct (is_trained self).
  - intros m r -> ->. now destruct (is_trained self).
  - intros m r -> ->. destruct (is_trained self); [|reflexivity].
    now destruct (predict m metric).
Qed.

(** ** Attribution *)

Lemma py_div_ok (a b : Q) : ~ (b == 0)%Q -> py_div a b = Ok (fdiv a b).
Proof.
  intros Hb. unfold py_div.
  destruct (Qeq_bool b 0) eqn:E; [|reflexivity].
  apply Qeq_bool_iff in E. contradiction.
Qed.

Lemma py_div_zero (a b : Q) :
  (b == 0)%Q -> py_div a b = Raise (Exception ZeroDivisionError).
Proof.
  intros Hb. unfold py_div. apply Qeq_bool_iff in Hb. now rewrite Hb.
Qed.

Lemma argmax_from_first_max (l pre : list Q) (bi : nat) :
  is_first_max pre bi ->
  is_first_max (pre ++ l) (argmax_from bi (nth bi pre 0%Q) (length pre) l).
Proof.
  revert pre bi. induction l as [|x xs IH]; intros pre bi Hmax; simpl.
  - now rewrite app_nil_r.
  - destruct Hmax as (Hlt & Hge & Hgt).
    replace (pre ++ x :: xs)%list with ((pre ++ [x]) ++ xs)%list
      by (now rewrite <- app_assoc).
    destruct (Qltb (nth bi pre 0%Q) x) eqn:E.
    + apply Qltb_lt in E.
      assert (Hx : nth (length pre) (pre ++ [x])%list 0%Q = x) by apply nth_middle.
      specialize (IH (pre ++ [x])%list (length pre)).
      rewrite Hx, length_app, Nat.add_1_r in IH. apply IH.
      unfold is_first_max. rewrite Hx, length_app. simpl. repeat split.
      * lia.
      * intros j Hj. destruct (decide (j = length pre)) as [->|Hne].
        { rewrite Hx. apply Qle_refl. }
        rewrite app_nth1 by lia.
        apply Qle_trans with (nth bi pre 0%Q); [apply Hge; lia | now apply Qlt_le_weak].
      * intros j Hj. rewrite app_nth1 by lia.
        apply Qle_lt_trans with (nth bi pre 0%Q); [apply Hge; lia | exact E].
    + apply Qltb_ge in E.
      specialize (IH (pre ++ [x])%list bi).
      rewrite app_nth1, length_app, Nat.add_1_r in IH by lia. apply IH.
      unfold is_first_max. rewrite length_app. simpl.
      rewrite (app_nth1 pre [x] 0%Q Hlt). repeat split.
      * lia.
      * intros j Hj. destruct (decide (j = length pre)) as [->|Hne].
        { now rewrite nth_middle. }
        rewrite app_nth1 by lia. apply Hge. lia.
      * intros j Hj. rewrite app_nth1 by lia. now apply Hgt.
Qed.

Lemma np_argmax_first_max (x : Q) (xs : list Q) :
  exists k, np_argmax (x :: xs) = Ok k /\ is_first_max (x :: xs) k.
Proof.
  eexists. split; [reflexivity|].
  apply (argmax_from_first_max xs [x] 0).
  unfold is_first_max. simpl. repeat split; [lia| |lia].
  intros j Hj. replace j with 0%nat by lia. apply Qle_refl.
Qed.

Lemma self_deviation_zero (v : Q) :
  ~ (fadd v 1 == 0)%Q -> (relative_deviation v v == 0)%Q.
Proof.
  intros Hv. unfold relative_deviation.
  apply fdiv_zero; [|exact Hv].
  rewrite fsub_diag. reflexivity.
Qed.

Lemma metric_name_at_lookup (k : nat) (name : string) :
  metric_names !! k = Some name -> metric_name_at k = Ok name.
Proof. unfold metric_name_at. now intros ->. Qed.

(** With a stored five-component baseline the attribution succeeds and
    picks the first position of maximal relative deviation. *)
Lemma attribute_stored_baseline (metric : SystemMetric.t) (bd : list Q) :
  let features := features_of metric in
  length bd = 5%nat ->
  Forall (fun b => ~ (fadd b 1 == 0)%Q) bd ->
  exists a, attribute bd features = Ok a /\
    metric_names !! max_deviation_idx a = Some (anomalous_metric a) /\
    attributed_value a = nth (max_deviation_idx a) features 0%Q /\
    attributed_baseline a = nth (max_deviation_idx a) bd 0%Q /\
    is_first_max (zip_with relative_deviation features bd) (max_deviation_idx a).
Proof.
  intros features Hlen Hall. subst features.
  destruct bd as [|b0 [|b1 [|b2 [|b3 [|b4 [|]]]]]]; try discriminate.
  repeat match goal with
         | Hf : Forall _ (_ :: _) |- _ => inversion Hf; subst; clear Hf
         end.
  unfold attribute, deviations, features_of.
  cbn [length seq mapR deviation_at Nat.ltb Nat.leb nth].
  rewrite !py_div_ok by assumption.
  match goal with
  | |- context [np_argmax (?d :: ?ds)] =>
      destruct (np_argmax_first_max d ds) as (k & -> & Hmax)
  end.
  pose proof Hmax as (Hlt & _). cbn [length] in Hlt.
  destruct k as [|[|[|[|[|]]]]]; try lia;
    (eexists; split; [reflexivity|]; cbn; repeat split; try reflexivity;
     apply Hmax).
Qed.

(** Without a stored baseline the features serve as their own baseline:
    every deviation is zero and the first dimension is reported. *)
Lemma attribute_own_baseline (metric : SystemMetric.t) :
  let features := features_of metric in
  Forall (fun v => ~ (fadd v 1 == 0)%Q) features ->
  exists a, attribute [] features = Ok a /\
    max_deviation_idx a = 0%nat /\
    anomalous_metric a = "cpu" /\
    attributed_value a = SystemMetric.cpu metric /\
    attributed_baseline a = SystemMetric.cpu metric.
Proof.
  intros features Hall. subst features. unfold features_of in *.
  repeat match goal with
         | Hf : Forall _ (_ :: _) |- _ => inversion Hf; subst; clear Hf
         end.
  unfold attribute, deviations.
  cbn [length seq mapR deviation_at Nat.ltb Nat.leb nth].
  rewrite !py_div_ok by assumption.
  match goal with
  | |- context [np_argmax (?d :: ?ds)] =>
      destruct (np_argmax_first_max d ds) as (k & -> & Hmax)
  end.
  destruct Hmax as (Hlt & _ & Hgt). cbn [length] in Hlt.
  pose proof self_deviation_zero as Hzero. unfold relative_deviation in Hzero.
  destruct k as [|k].
  - eexists. split; [reflexivity|]. cbn. repeat split; reflexivity.
  - exfalso. specialize (Hgt 0%nat ltac:(lia)). cbn [nth] in Hgt.
    rewrite Hzero in Hgt by assumption.
    destruct k as [|[|[|[|]]]]; try lia; cbn [nth] in Hgt;
      rewrite Hzero in Hgt by assumption; now apply Qlt_irrefl in Hgt.
Qed.

(** Gauges are non-negative, and then so are their means: every divisor
    [baseline + 1] is positive. *)
Lemma nonnegative_divisors (bd : list Q) :
  Forall (fun b => (0 <= b)%Q) bd -> Forall (fun b => ~ (fadd b 1 == 0)%Q) bd.
Proof.
  intros Hbd. eapply Forall_impl; [exact Hbd|].
  intros b Hb E. cbv beta in Hb. apply fadd_one_pos in Hb. lra.
Qed.

(** At a baseline component whose successor is zero (the component -1) the
    division is by zero and the attribution raises. *)
Lemma attribute_zero_divisor (metric : SystemMetric.t) (b0 b1 b2 b3 b4 : Q) :
  (fadd b0 1 == 0)%Q ->
  attribute [b0; b1; b2; b3; b4] (features_of metric)
  = Raise (Exception ZeroDivisionError).
Proof.
  intros Hzero. unfold attribute, deviations, features_of.
  cbn [length seq mapR deviation_at Nat.ltb Nat.leb nth].
  now rewrite py_div_zero by exact Hzero.
Qed.

(** C7: for a positive detection with a stored five-component baseline the
    reported anomaly names the first dimension whose relative deviation
    [|value - baseline| / (baseline + 1)], as computed in double precision,
    is maximal and carries that dimension's value and baseline; with no
    stored baseline the features are their own baseline, every computed
    deviation is zero and the first dimension (cpu) is reported.  The
    divisions are assumed defined: no computed divisor [baseline + 1] is
    zero. *)
Theorem attribution_reports_max_deviation
    (service : string) (metric : SystemMetric.t) (confidence : Q) (w : World) :
  let features := features_of metric in
  let bd := baseline_data (anomaly_detector w) in
  (length bd = 5%nat ->
   Forall (fun b => ~ (fadd b 1 == 0)%Q) bd ->
   exists w' an k,
     report_anomaly service metric features confidence w = (w', Ok an) /\
     db_anomalies w' = (db_anomalies w ++ [an])%list /\
     is_first_max (zip_with relative_deviation features bd) k /\
     metric_names !! k = Some (Anomaly.metric_type an) /\
     Anomaly.value an = nth k features 0%Q /\
     Anomaly.baseline an = nth k bd 0%Q) /\
  (bd = [] ->
   Forall (fun v => ~ (fadd v 1 == 0)%Q) features ->
   Forall (fun d => (d == 0)%Q) (zip_with relative_deviation features features) /\
   exists w' an,
     report_anomaly service metric features confidence w = (w', Ok an) /\
     db_anomalies w' = (db_anomalies w ++ [an])%list /\
     Anomaly.metric_type an = "cpu" /\
     Anomaly.value an = SystemMetric.cpu metric /\
     Anomaly.baseline an = SystemMetric.cpu metric).
Proof.
  intros features bd. subst features bd. split.
  - intros Hlen Hall.
    destruct (attribute_stored_baseline metric _ Hlen Hall)
      as (a & Ha & Hname & Hval & Hbase & Hmax).
    unfold report_anomaly, bind, gets, lift, new_uuid, modify, ret.
    rewrite Ha.
    exists (with_anomalies
              (db_anomalies w ++
               [Anomaly.mk (uuid4 (uuid_draws w)) (SystemMetric.timestamp metric)
                  service (anomalous_metric a) (severity_of confidence) confidence
                  ("Anomalous " ++ anomalous_metric a ++ " detected")
                  (attributed_value a) (attributed_baseline a)])%list
              (with_uuid_draws (S (uuid_draws w)) w)).
    eexists. exists (max_deviation_idx a).
    split; [reflexivity|]. split; [reflexivity|]. split; [exact Hmax|].
    cbn. auto.
  - intros Hbd Hall. split.
    + unfold features_of in *.
      repeat match goal with
             | Hf : Forall _ (_ :: _) |- _ => inversion Hf; subst; clear Hf
             end.
      cbn [zip_with].
      repeat constructor; now apply self_deviation_zero.
    + destruct (attribute_own_baseline metric Hall)
        as (a & Ha & Hidx & Hname & Hval & Hbase).
      unfold report_anomaly, bind, gets, lift, new_uuid, modify, ret.
      rewrite Hbd, Ha.
      do 2 eexists. split; [reflexivity|]. cbn. repeat split; eauto.
Qed.

(** ** Training *)

Lemma nth_zip_with_Qplus (a b : list Q) (i : nat) :
  length a = length b ->
  nth i (zip_with Qplus a b) 0%Q = (nth i a 0 + nth i b 0)%Q.
Proof.
  revert b i. induction a as [|x a IH]; intros [|y b] i Hlen;
    try discriminate; destruct i; simpl; try reflexivity.
  apply IH. now injection Hlen.
Qed.

Lemma fold_zip_with_length (width : nat) (rs : list (list Q)) (acc : list Q) :
  length acc = width ->
  Forall (fun r => length r = width) rs ->
  length (fold_left (zip_with Qplus) rs acc) = width.
Proof.
  revert acc. induction rs as [|r rs IH]; intros acc Hacc Hrs; simpl; [assumption|].
  inversion Hrs; subst. apply IH; [|assumption].
  rewrite length_zip_with. lia.
Qed.

Lemma fold_zip_with_nth (width : nat) (rs : list (list Q)) (acc : list Q) (i : nat) :
  length acc = width ->
  Forall (fun r => length r = width) rs ->
  (nth i (fold_left (zip_with Qplus) rs acc) 0
   == nth i acc 0 + Qsum (map (fun r => nth i r 0) rs))%Q.
Proof.
  revert acc. induction rs as [|r rs IH]; intros acc Hacc Hrs; simpl.
  - ring.
  - inversion Hrs; subst. rewrite IH; [|rewrite length_zip_with; lia|assumption].
    rewrite nth_zip_with_Qplus by congruence. ring.
Qed.

(** On a rectangular window [np_mean_axis0] has one entry per dimension,
    each the mean of that dimension. *)
Lemma np_mean_axis0_dimension (width : nat) (rows : list (list Q)) (i : nat) :
  rows <> [] ->
  Forall (fun r => length r = width) rows ->
  (i < width)%nat ->
  length (np_mean_axis0 rows) = width /\
  (nth i (np_mean_axis0 rows) 0 == dimension_mean rows i)%Q.
Proof.
  intros Hne Hrows Hi. destruct rows as [|r rs]; [contradiction|].
  inversion Hrows; subst.
  unfold np_mean_axis0, dimension_mean, column_sums.
  rewrite length_map. split; [now apply fold_zip_with_length|].
  set (n := inject_Z (Z.of_nat (length (r :: rs)))).
  rewrite (nth_indep _ 0%Q (0 / n)%Q)
    by (rewrite length_map; erewrite fold_zip_with_length; eauto).
  rewrite (map_nth (fun s => (s / n)%Q)).
  rewrite (fold_zip_with_nth (length r)) by auto.
  simpl. reflexivity.
Qed.

(** C4 (as the code has it): [train] leaves the engine as it was exactly
    when at most 20 samples are supplied.  With more than 20 samples it fits
    the model, marks the engine trained and stores the per-dimension mean of
    the window as baseline; an exception of [fit] propagates. *)
Theorem train_threshold (self : AnomalyDetector) (metrics_data : list (list Q)) :
  ((length metrics_data <= 20)%nat -> train self metrics_data = Ok self) /\
  ((20 < length metrics_data)%nat ->
   (forall m, fit metrics_data = Ok m ->
      train self metrics_data
      = Ok {| model := Some m; is_trained := true;
              baseline_data := np_mean_axis0 metrics_data |} /\
      (forall width i,
          Forall (fun r => length r = width) metrics_data -> (i < width)%nat ->
          length (np_mean_axis0 metrics_data) = width /\
          (nth i (np_mean_axis0 metrics_data) 0 == dimension_mean metrics_data i)%Q)) /\
   (forall r, fit metrics_data = Raise r -> train self metrics_data = Raise r)).
Proof.
  unfold train. split.
  - intros Hle. apply Nat.ltb_ge in Hle. now rewrite Hle.
  - intros Hgt. pose proof Hgt as Hlt. apply Nat.ltb_lt in Hlt. rewrite Hlt.
    split.
    + intros m Hfit. rewrite Hfit. split; [reflexivity|].
      intros width i Hrect Hi. apply np_mean_axis0_dimension; auto.
      intros ->. simpl in Hgt. lia.
    + intros r Hfit. now rewrite Hfit.
Qed.

(** ** Background retraining *)

Lemma recent_window_length (w : World) :
  length (recent_window w) = Nat.min 200 (length (db_metrics w)).
Proof.
  unfold recent_window, sort_timestamp_desc.
  now rewrite length_take, (Permutation_length (merge_sort_Permutation _ _)).
Qed.

#[local] Instance newest_first_total : Total newest_first.
Proof. intros a b. unfold newest_first. lia. Qed.

#[local] Instance newest_first_trans : Transitive newest_first.
Proof. intros a b c. unfold newest_first. lia. Qed.

(** The window holds stored samples, and no sample left out is newer than
    one taken. *)
Lemma recent_window_newest (w : World) :
  exists older,
    db_metrics w ≡ₚ (recent_window w ++ older)%list /\
    forall x y, x ∈ recent_window w -> y ∈ older ->
                (SystemMetric.timestamp y <= SystemMetric.timestamp x)%Z.
Proof.
  exists (drop 200 (sort_timestamp_desc (db_metrics w))). split.
  - unfold recent_window. rewrite take_drop. unfold sort_timestamp_desc.
    now rewrite merge_sort_Permutation.
  - intros x y Hx Hy.
    change (newest_first x y).
    apply (StronglySorted_app_1_elem_of newest_first (recent_window w)
             (drop 200 (sort_timestamp_desc (db_metrics w))) x y); auto.
    unfold recent_window. rewrite take_drop.
    apply StronglySorted_merge_sort; apply _.
Qed.

(** Retraining keeps the stored baseline empty or five components wide. *)
Lemma retrain_baseline_width (w : World) :
  (baseline_data (anomaly_detector w) = [] \/
   length (baseline_data (anomaly_detector w)) = 5%nat) ->
  baseline_data (anomaly_detector (train_anomaly_detector_cycle w)) = [] \/
  length (baseline_data (anomaly_detector (train_anomaly_detector_cycle w))) = 5%nat.
Proof.
  intros Hw. unfold train_anomaly_detector_cycle, train. rewrite length_map.
  destruct (50 <? length (recent_window w))%nat eqn:E50; [|exact Hw].
  apply Nat.ltb_lt in E50.
  assert (E20 : (20 <? length (recent_window w))%nat = true)
    by (apply Nat.ltb_lt; lia).
  rewrite E20. destruct (fit _); [|exact Hw]. right. cbn.
  apply (np_mean_axis0_dimension 5 _ 0).
  - destruct (recent_window w); [simpl in E50; lia | discriminate].
  - apply Forall_map, Forall_forall. reflexivity.
  - lia.
Qed.

(** C8 (as the code has it): a retrain cycle reads at most the 200 newest
    samples and retrains on them exactly when more than 50 are available;
    with 50 or fewer the cycle changes nothing.  A failing [fit] is logged
    and changes nothing either. *)
Theorem retrain_cycle_threshold (w : World) :
  let window := recent_window w in
  (length window <= 200)%nat /\
  length window = Nat.min 200 (length (db_metrics w)) /\
  (exists older,
     db_metrics w ≡ₚ (window ++ older)%list /\
     forall x y, x ∈ window -> y ∈ older ->
                 (SystemMetric.timestamp y <= SystemMetric.timestamp x)%Z) /\
  ((length (db_metrics w) <= 50)%nat -> train_anomaly_detector_cycle w = w) /\
  ((50 < length (db_metrics w))%nat ->
   (forall m, fit (map features_of window) = Ok m ->
      train_anomaly_detector_cycle w
      = with_detector
          {| model := Some m; is_trained := true;
             baseline_data := np_mean_axis0 (map features_of window) |} w) /\
   (forall r, fit (map features_of window) = Raise r ->
      train_anomaly_detector_cycle w = w)).
Proof.
  intros window. subst window.
  pose proof (recent_window_length w) as Hlen.
  split; [lia|]. split; [exact Hlen|]. split; [apply recent_window_newest|].
  unfold train_anomaly_detector_cycle, train. rewrite length_map.
  split.
  - intros Hle.
    assert (Hw : (50 <? length (recent_window w))%nat = false)
      by (apply Nat.ltb_ge; lia).
    now rewrite Hw.
  - intros Hgt.
    assert (Hw : (50 <? length (recent_window w))%nat = true)
      by (apply Nat.ltb_lt; lia).
    assert (Ht : (20 <? length (recent_window w))%nat = true)
      by (apply Nat.ltb_lt; lia).
    rewrite Hw, Ht. split.
    + intros m Hfit. now rewrite Hfit.
    + intros r Hfit. now rewrite Hfit.
Qed.

(** ** The document store *)

Section Store.
Context {D : Type} (matches : D -> bool).

Lemma find_one_cons (d : D) (coll : list D) :
  find_one matches (d :: coll)
  = if matches d then Some d else find_one matches coll.
Proof.
  unfold find_one. destruct (matches d) eqn:E.
  - rewrite filter_cons_True by (now rewrite E). reflexivity.
  - rewrite filter_cons_False by (now rewrite E). reflexivity.
Qed.

Lemma count_documents_cons (d : D) (coll : list D) :
  count_documents matches (d :: coll)
  = ((if matches d then 1 else 0) + count_documents matches coll)%nat.
Proof.
  unfold count_documents. destruct (matches d) eqn:E.
  - rewrite filter_cons_True by (now rewrite E). reflexivity.
  - rewrite filter_cons_False by (now rewrite E). reflexivity.
Qed.

Lemma count_documents_app (c1 c2 : list D) :
  count_documents matches (c1 ++ c2)
  = (count_documents matches c1 + count_documents matches c2)%nat.
Proof.
  unfold count_documents. now rewrite filter_app, length_app.
Qed.

Lemma update_one_missing (set : D -> D) (coll : list D) :
  find_one matches coll = None -> update_one matches set coll = (coll, 0%nat).
Proof.
  induction coll as [|d coll IH]; [reflexivity|].
  rewrite find_one_cons. simpl. destruct (matches d); [discriminate|].
  intros Hnone. now rewrite (IH Hnone).
Qed.

(** The first matching document is rewritten in place and found again as
    long as the rewrite keeps it matching. *)
Lemma update_one_found (set : D -> D) (coll : list D) (d : D) :
  find_one matches coll = Some d ->
  matches (set d) = true ->
  exists coll',
    update_one matches set coll = (coll', 1%nat) /\
    find_one matches coll' = Some (set d) /\
    length coll' = length coll.
Proof.
  intros Hfind Hkeep. induction coll as [|x coll IH]; [discriminate|].
  rewrite find_one_cons in Hfind. simpl. destruct (matches x) eqn:E.
  - injection Hfind as ->. eexists. split; [reflexivity|].
    rewrite find_one_cons, Hkeep. auto.
  - destruct (IH Hfind) as (coll' & -> & Hf & Hl). eexists. split; [reflexivity|].
    rewrite find_one_cons, E. simpl. auto.
Qed.

Lemma find_one_matches (coll : list D) (d : D) :
  find_one matches coll = Some d -> matches d = true.
Proof.
  induction coll as [|x coll IH]; [discriminate|].
  rewrite find_one_cons. destruct (matches x) eqn:E; [|exact IH].
  now intros [= <-].
Qed.

Lemma update_one_Forall (P : D -> Prop) (set : D -> D) (coll : list D) :
  (forall x, P x -> P (set x)) ->
  Forall P coll -> Forall P (fst (update_one matches set coll)).
Proof.
  intros Hset. induction 1 as [|x coll Hx Hcoll IH]; simpl; [constructor|].
  destruct (matches x); simpl; [constructor; auto|].
  destruct (update_one matches set coll). simpl in *. constructor; auto.
Qed.
End Store.

(** ** Demo mode *)

Lemma existsb_eqb_elem_of (s : string) (l : list string) :
  existsb (String.eqb s) l = true <-> s ∈ l.
Proof.
  rewrite existsb_exists, list_elem_of_In. split.
  - intros (x & Hin & Heq). apply String.eqb_eq in Heq. now subst.
  - intros Hin. exists s. split; [assumption | apply String.eqb_refl].
Qed.

(** C9: [inject_failure] answers a service outside the monitored set with
    HTTP 400 and leaves the whole state, the simulator included, as it was;
    for a monitored service it switches failure mode on for that service and
    touches nothing but the simulator and the clock. *)
Theorem inject_failure_validates (service : string) (w : World) :
  let svcs := services (data_simulator w) in
  (service ∉ svcs ->
   inject_failure service w
   = (w, Raise (HTTPException 400
                  (Literal ("Invalid service. Must be one of " ++ repr_list svcs))))) /\
  (service ∈ svcs ->
   exists w' response,
     inject_failure service w = (w', Ok response) /\
     ir_service response = service /\
     ir_status response = "active" /\
     data_simulator w'
     = {| services := svcs; failure_mode := true;
          failure_service := Some service;
          failure_start := Some (utcnow (clock_reads w)) |} /\
     db_metrics w' = db_metrics w /\ db_anomalies w' = db_anomalies w /\
     db_incidents w' = db_incidents w /\ db_actions w' = db_actions w /\
     anomaly_detector w' = anomaly_detector w).
Proof.
  intros svcs. subst svcs. unfold inject_failure, bind, gets, raise. split.
  - intros Hnot. destruct (existsb _ _) eqn:E; [|reflexivity].
    apply existsb_eqb_elem_of in E. contradiction.
  - intros Hin. apply existsb_eqb_elem_of in Hin. rewrite Hin. simpl.
    do 2 eexists. split; [reflexivity|]. cbn. repeat split; reflexivity.
Qed.

(** ** Dashboard statistics *)

Lemma field_is_true (field s : string) (d : document) :
  field_is field s d = true <-> d !! field = Some (VStr s).
Proof.
  unfold field_is. destruct (d !! field) as [[]|]; try (split; discriminate).
  rewrite String.eqb_eq. split; [now intros ->| now intros [= ->]].
Qed.

Lemma field_is_status (s : string) (d : document) :
  field_is "status" s d = true <-> has_status s d.
Proof.
  unfold field_is, has_status, status_of.
  destruct (d !! "status") as [[]|]; try (split; discriminate).
  rewrite String.eqb_eq. split; [now intros ->| now intros [= ->]].
Qed.

(** C10: [active_incidents] is the number of stored incidents whose status
    is the string open and [total_incidents] the number of all of them, so
    an incident under investigation adds one to the total and nothing to the
    active count. *)
Theorem dashboard_counts_open_only (w : World) :
  exists w' stats,
    get_dashboard_stats w = (w', Ok stats) /\
    active_incidents stats
    = length (filter (has_status "open") (db_incidents w)) /\
    total_incidents stats = length (db_incidents w) /\
    (forall before d after,
        db_incidents w = (before ++ d :: after)%list ->
        has_status "investigating" d ->
        exists w'' stats',
          get_dashboard_stats (with_incidents (before ++ after) w)
          = (w'', Ok stats') /\
          total_incidents stats = S (total_incidents stats') /\
          active_incidents stats = active_incidents stats').
Proof.
  unfold get_dashboard_stats, endpoint, bind, gets, now, ret.
  do 2 eexists. split; [reflexivity|].
  cbn [active_incidents total_incidents db_incidents with_incidents].
  assert (Hcount : forall coll,
             count_documents (field_is "status" "open") coll
             = length (filter (has_status "open") coll)).
  { induction coll as [|x coll IH]; [reflexivity|].
    rewrite count_documents_cons, IH.
    destruct (field_is "status" "open" x) eqn:E.
    - apply field_is_status in E. now rewrite filter_cons_True.
    - rewrite filter_cons_False; [reflexivity|].
      intros Hs. apply field_is_status in Hs. congruence. }
  assert (Htotal : forall coll : list document,
             count_documents (fun _ => true) coll = length coll).
  { induction coll as [|x coll IH]; [reflexivity|].
    rewrite count_documents_cons, IH. reflexivity. }
  split; [apply Hcount|]. split; [apply Htotal|].
  intros before d after Hcoll Hd. do 2 eexists. split; [reflexivity|].
  cbn [active_incidents total_incidents db_incidents with_incidents].
  rewrite Hcoll, !Htotal, !count_documents_app, count_documents_cons.
  rewrite !length_app. simpl. split; [lia|].
  assert (E : field_is "status" "open" d = false).
  { apply not_true_iff_false. rewrite field_is_status.
    unfold has_status in *. rewrite Hd. intros [=]. }
  now rewrite E.
Qed.

(** ** Action decisions *)

Lemma approve_action_found (action_id approved_by : string) (w : World) (a : Action.t) :
  find_one (has_id action_id) (db_actions w) = Some a ->
  exists w',
    approve_action action_id approved_by w
    = (w', Ok (Some (set_approved approved_by (utcnow (clock_reads w)) a))) /\
    find_one (has_id action_id) (db_actions w')
    = Some (set_approved approved_by (utcnow (clock_reads w)) a).
Proof.
  intros Hfind.
  assert (Hid : has_id action_id a = true).
  { clear -Hfind. induction (db_actions w) as [|x l IH]; [discriminate|].
    rewrite find_one_cons in Hfind. destruct (has_id action_id x) eqn:E; auto.
    now injection Hfind as <-. }
  destruct (update_one_found (has_id action_id)
              (set_approved approved_by (utcnow (clock_reads w))) _ a Hfind Hid)
    as (coll' & Hupd & Hf & _).
  unfold approve_action, endpoint, bind, now, update_actions, find_action, gets.
  cbn [db_actions with_clock_reads]. rewrite Hupd. cbn. rewrite Hf. eauto.
Qed.

Lemma reject_action_found (action_id : string) (w : World) (a : Action.t) :
  find_one (has_id action_id) (db_actions w) = Some a ->
  exists w',
    reject_action action_id w = (w', Ok (Some (set_rejected a))) /\
    find_one (has_id action_id) (db_actions w') = Some (set_rejected a).
Proof.
  intros Hfind.
  assert (Hid : has_id action_id a = true).
  { clear -Hfind. induction (db_actions w) as [|x l IH]; [discriminate|].
    rewrite find_one_cons in Hfind. destruct (has_id action_id x) eqn:E; auto.
    now injection Hfind as <-. }
  destruct (update_one_found (has_id action_id) set_rejected _ a Hfind Hid)
    as (coll' & Hupd & Hf & _).
  unfold reject_action, endpoint, bind, update_actions, find_action, gets.
  rewrite Hupd. cbn. rewrite Hf. eauto.
Qed.

Lemma approve_action_actions (action_id approved_by : string) (w : World) :
  db_actions (fst (approve_action action_id approved_by w))
  = fst (update_one (has_id action_id)
           (set_approved approved_by (utcnow (clock_reads w))) (db_actions w)).
Proof.
  unfold approve_action, endpoint, bind, now, update_actions, find_action,
    gets, raise.
  cbn [db_actions with_clock_reads].
  destruct (update_one _ _ _) as [coll n]. now destruct n.
Qed.

Lemma reject_action_actions (action_id : string) (w : World) :
  db_actions (fst (reject_action action_id w))
  = fst (update_one (has_id action_id) set_rejected (db_actions w)).
Proof.
  unfold reject_action, endpoint, bind, update_actions, find_action, gets, raise.
  destruct (update_one _ _ _) as [coll n]. now destruct n.
Qed.

(** C1 (as the code has it): approving a stored action sets its status to
    approved and stamps [approved_by] and a non-null [executed_at];
    rejecting it sets its status to rejected and leaves both stamps as they
    were.  Neither handler looks at the current status, so each applies to
    an action in any state.  Across the store the stamps stay set on every
    approved action and unset on every pending one. *)
Theorem action_decisions (action_id approved_by : string) (w : World) :
  (forall a, find_one (has_id action_id) (db_actions w) = Some a ->
     exists w' a',
       approve_action action_id approved_by w = (w', Ok (Some a')) /\
       find_one (has_id action_id) (db_actions w') = Some a' /\
       Action.status a' = "approved" /\
       Action.approved_by a' = Some approved_by /\
       Action.executed_at a' = Some (utcnow (clock_reads w))) /\
  (forall a, find_one (has_id action_id) (db_actions w) = Some a ->
     exists w' a',
       reject_action action_id w = (w', Ok (Some a')) /\
       find_one (has_id action_id) (db_actions w') = Some a' /\
       Action.status a' = "rejected" /\
       Action.approved_by a' = Action.approved_by a /\
       Action.executed_at a' = Action.executed_at a) /\
  (Forall stamps_consistent (db_actions w) ->
     Forall stamps_consistent
       (db_actions (fst (approve_action action_id approved_by w))) /\
     Forall stamps_consistent (db_actions (fst (reject_action action_id w)))).
Proof.
  split; [|split].
  - intros a Hfind.
    destruct (approve_action_found action_id approved_by w a Hfind)
      as (w' & Hrun & Hf).
    exists w'. eexists. split; [exact Hrun|]. split; [exact Hf|].
    repeat split; reflexivity.
  - intros a Hfind.
    destruct (reject_action_found action_id w a Hfind) as (w' & Hrun & Hf).
    exists w'. eexists. split; [exact Hrun|]. split; [exact Hf|].
    repeat split; reflexivity.
  - intros Hinv. rewrite approve_action_actions, reject_action_actions.
    split; apply update_one_Forall; auto.
    + intros x _. unfold stamps_consistent. cbn. split; [eauto|discriminate].
    + intros x _. unfold stamps_consistent. cbn. split; discriminate.
Qed.

(** ** Incident updates *)

(** What [update_incident] passes to [$set]. *)
Lemma update_incident_found (incident_id : string) (updates d : document) (w : World) :
  find_one (field_is "id" incident_id) (db_incidents w) = Some d ->
  updates !! "id" = None ->
  let stamped :=
    if marks_resolution updates
    then <["resolved_at" := VTime (utcnow (clock_reads w))]> updates
    else updates in
  exists w',
    update_incident incident_id updates w = (w', Ok (Some (stamped ∪ d))) /\
    find_one (field_is "id" incident_id) (db_incidents w') = Some (stamped ∪ d).
Proof.
  intros Hfind Hid stamped.
  pose proof (find_one_matches _ _ _ Hfind) as Hd. apply field_is_true in Hd.
  assert (Hkeep : field_is "id" incident_id (stamped ∪ d) = true).
  { apply field_is_true. rewrite lookup_union_r; [exact Hd|].
    subst stamped. destruct (marks_resolution updates); [|exact Hid].
    now rewrite lookup_insert_ne. }
  destruct (update_one_found (field_is "id" incident_id)
              (fun x => stamped ∪ x) _ d Hfind Hkeep) as (coll' & Hupd & Hf & _).
  unfold update_incident, endpoint, bind, update_incidents, find_incident, gets.
  subst stamped. destruct (marks_resolution updates);
    unfold now, ret; cbn [db_incidents with_clock_reads];
    rewrite Hupd; cbn; rewrite Hf; eauto.
Qed.

(** C2 (as the code has it): for an update whose keys are plain top-level
    field names other than [id], an update sets [resolved_at] to the current
    time exactly when the request carries a truthy [resolved_at]; the status
    plays no part.  A request without the key leaves [resolved_at] as
    stored, whatever status it sets; a falsy value in the request is stored
    as given; every marked request overwrites the stored time. *)
Theorem update_incident_resolved_at
    (incident_id : string) (updates d : document) (w : World) :
  find_one (field_is "id" incident_id) (db_incidents w) = Some d ->
  updates !! "id" = None ->
  plain_update updates ->
  exists w' d',
    update_incident incident_id updates w = (w', Ok (Some d')) /\
    find_one (field_is "id" incident_id) (db_incidents w') = Some d' /\
    (marks_resolution updates = true ->
     d' !! "resolved_at" = Some (VTime (utcnow (clock_reads w)))) /\
    (updates !! "resolved_at" = None ->
     d' !! "resolved_at" = d !! "resolved_at") /\
    (forall v, updates !! "resolved_at" = Some v -> truthy v = false ->
               d' !! "resolved_at" = Some v) /\
    (forall s, updates !! "status" = Some (VStr s) -> has_status s d').
Proof.
  intros Hfind Hid _.
  destruct (update_incident_found incident_id updates d w Hfind Hid)
    as (w' & Hrun & Hf).
  exists w'. eexists. split; [exact Hrun|]. split; [exact Hf|].
  unfold marks_resolution. repeat split.
  - intros Hm. rewrite Hm.
    apply lookup_union_Some_l, lookup_insert_eq.
  - intros Hnone. rewrite Hnone. now apply lookup_union_r.
  - intros v Hv Hfalsy. rewrite Hv, Hfalsy. now apply lookup_union_Some_l.
  - intros s Hs. unfold has_status, status_of.
    assert (Hl : (if match updates !! "resolved_at" with
                     | Some v => truthy v
                     | None => false
                     end
                  then <["resolved_at" := VTime (utcnow (clock_reads w))]> updates
                  else updates) !! "status" = Some (VStr s)).
    { destruct (match updates !! "resolved_at" with
                | Some v => truthy v | None => false end); [|exact Hs].
      now rewrite lookup_insert_ne. }
    now rewrite (lookup_union_Some_l _ d _ _ Hl).
Qed.

(** ** Recommendation generation *)

Lemma parse_recommendations_no_span (response : string) :
  (str_find response "["%char < 0 \/
   str_rfind response "]"%char + 1 <= str_find response "["%char)%Z ->
  parse_recommendations response = VList default_recommendations.
Proof.
  intros Hspan. unfold parse_recommendations.
  destruct (0 <=? _)%Z eqn:E1; [|reflexivity].
  destruct (_ <? _)%Z eqn:E2; [|reflexivity].
  apply Z.leb_le in E1. apply Z.ltb_lt in E2. lia.
Qed.

Lemma parse_recommendations_bad_span (response : string) (r : raised) :
  (0 <= str_find response "["%char < str_rfind response "]"%char + 1)%Z ->
  json_loads (slice response (str_find response "["%char)
                (str_rfind response "]"%char + 1)) = Raise r ->
  parse_recommendations response = VList except_recommendations.
Proof.
  intros [Hlo Hhi] Hloads. unfold parse_recommendations.
  apply Z.leb_le in Hlo. apply Z.ltb_lt in Hhi. now rewrite Hlo, Hhi, Hloads.
Qed.

Lemma create_action_recommendation
    (incident_id a d r i : string) (w : World) :
  create_action incident_id (recommendation a d r i) w
  = (with_actions
       (db_actions w ++
        [pending_action (uuid4 (uuid_draws w)) incident_id
           (utcnow (clock_reads w)) a d r i])
       (with_clock_reads (S (clock_reads w))
          (with_uuid_draws (S (uuid_draws w)) w)),
     Ok (pending_action (uuid4 (uuid_draws w)) incident_id
           (utcnow (clock_reads w)) a d r i)).
Proof.
  unfold create_action, bind, lift, subscript, recommendation.
  repeat (rewrite lookup_insert_eq || (rewrite lookup_insert_ne by discriminate)).
  reflexivity.
Qed.

(** The handler up to the loop: the incident is looked up and the parsed
    list attached to it. *)
Lemma generate_recommendations_run
    (incident_id response : string) (d : document) (w : World) :
  find_one (field_is "id" incident_id) (db_incidents w) = Some d ->
  read_fields d ["title"; "service"; "severity"] = Ok tt ->
  exists coll',
    find_one (field_is "id" incident_id) coll'
    = Some (<["recommendations" := parse_recommendations response]> d) /\
    generate_recommendations incident_id (Ok response) w
    = endpoint
        (bind (lift (iter_value (parse_recommendations response)))
           (fun recs =>
              bind (create_actions incident_id recs)
                (fun _ => ret (parse_recommendations response))))
        (with_incidents coll' w).
Proof.
  intros Hfind Hkeys.
  pose proof (find_one_matches _ _ _ Hfind) as Hd. apply field_is_true in Hd.
  destruct (update_one_found (field_is "id" incident_id)
              (fun x => <["recommendations" := parse_recommendations response]> x)
              _ d Hfind) as (coll' & Hupd & Hf & _).
  { apply field_is_true. now rewrite lookup_insert_ne. }
  exists coll'. split; [exact Hf|].
  unfold generate_recommendations, endpoint, bind, find_incident, gets, lift,
    update_incidents.
  now rewrite Hfind, Hkeys, Hupd.
Qed.

(** C3 (as the code has it): when the reply holds no bracketed span the
    three default recommendations are used and exactly three actions are
    added for the incident, pending, in list order; when the span is found
    but [json.loads] rejects it, the one-item list of the [except] branch is
    used and exactly one action is added. *)
Theorem recommendation_fallbacks
    (incident_id response : string) (d : document) (w : World) :
  find_one (field_is "id" incident_id) (db_incidents w) = Some d ->
  read_fields d ["title"; "service"; "severity"] = Ok tt ->
  let json_start := str_find response "["%char in
  let json_end := (str_rfind response "]"%char + 1)%Z in
  let fresh k := pending_action (uuid4 (k + uuid_draws w)) incident_id
                   (utcnow (k + clock_reads w)) in
  ((json_start < 0 \/ json_end <= json_start)%Z ->
   exists w',
     generate_recommendations incident_id (Ok response) w
     = (w', Ok (VList default_recommendations)) /\
     length default_recommendations = 3%nat /\
     db_actions w'
     = (db_actions w ++
        [ fresh 0%nat "Scale Resources"
            "Increase CPU and memory allocation for the affected service"
            "low" "Improved performance and reduced error rates";
          fresh 1%nat "Restart Service"
            "Perform a rolling restart of the service instances"
            "medium" "Clears memory leaks and resets connections";
          fresh 2%nat "Review Recent Changes"
            "Investigate and potentially rollback recent deployments"
            "low" "Identifies root cause if related to recent changes" ])%list /\
     find_one (field_is "id" incident_id) (db_incidents w')
     = Some (<["recommendations" := VList default_recommendations]> d)) /\
  ((0 <= json_start < json_end)%Z ->
   forall r, json_loads (slice response json_start json_end) = Raise r ->
   exists w',
     generate_recommendations incident_id (Ok response) w
     = (w', Ok (VList except_recommendations)) /\
     db_actions w'
     = (db_actions w ++
        [ fresh 0%nat "Scale Resources" "Increase CPU and memory allocation"
            "low" "Improved performance" ])%list /\
     find_one (field_is "id" incident_id) (db_incidents w')
     = Some (<["recommendations" := VList except_recommendations]> d)).
Proof.
  intros Hfind Hkeys json_start json_end fresh. subst json_start json_end fresh.
  destruct (generate_recommendations_run incident_id response d w Hfind Hkeys)
    as (coll' & Hf & ->).
  split.
  - intros Hspan. rewrite (parse_recommendations_no_span _ Hspan) in *.
    unfold endpoint, bind, lift, ret, iter_value, default_recommendations.
    cbn [create_actions]. unfold bind, ret.
    repeat (rewrite create_action_recommendation; cbv beta iota).
    eexists. split; [reflexivity|]. split; [reflexivity|].
    cbn. rewrite <- !app_assoc. split; [reflexivity | exact Hf].
  - intros Hspan r Hloads.
    rewrite (parse_recommendations_bad_span _ r Hspan Hloads) in *.
    unfold endpoint, bind, lift, ret, iter_value, except_recommendations.
    cbn [create_actions]. unfold bind, ret.
    rewrite !create_action_recommendation.
    eexists. split; [reflexivity|].
    cbn. split; [reflexivity | exact Hf].
Qed.
End Properties.

(** * Further properties of the server *)

Section Coverage.
Context `{External} `{Entropy} {FA : FloatArith}.

#[local] Existing Instance newest_first_dec.
#[local] Existing Instance newest_first_total.
#[local] Existing Instance newest_first_trans.

(** ** The engine over its lifetime *)

(** X1: a retraining cycle never takes a trained engine back to untrained:
    it either replaces model and baseline together or leaves the engine as
    it was, also when [fit] raises. *)
Theorem retrain_keeps_trained (w : World) :
  is_trained (anomaly_detector w) = true ->
  is_trained (anomaly_detector (train_anomaly_detector_cycle w)) = true /\
  (anomaly_detector (train_anomaly_detector_cycle w) = anomaly_detector w \/
   exists m,
     fit (map features_of (recent_window w)) = Ok m /\
     anomaly_detector (train_anomaly_detector_cycle w)
     = {| model := Some m; is_trained := true;
          baseline_data := np_mean_axis0 (map features_of (recent_window w)) |}).
Proof.
  intros Htrained. unfold train_anomaly_detector_cycle, train.
  destruct (50 <? _)%nat; [|auto].
  destruct (20 <? _)%nat; [|auto].
  destruct (fit _) as [m|r] eqn:Hfit; [|auto].
  split; [reflexivity|]. right. exists m. auto.
Qed.

(** X2: [detect] reports an anomaly only for a trained engine whose fitted
    model labelled the sample -1 and scored it without raising. *)
Theorem detect_positive_only_when_scored (self : AnomalyDetector) (metric : list Q) :
  fst (detect self metric) = true ->
  is_trained self = true /\
  exists m score,
    model self = Some m /\
    predict m metric = Ok (-1) /\
    score_samples m metric = Ok score /\
    snd (detect self metric) = (1 / (1 + np_exp score))%Q.
Proof.
  unfold detect, neutral.
  destruct (is_trained self); [|discriminate]. cbn [negb].
  destruct (model self) as [m|]; [|discriminate].
  destruct (predict m metric) as [p|] eqn:Hpredict; [|discriminate].
  destruct (score_samples m metric) as [score|] eqn:Hscore; [|discriminate].
  intros Hp. cbn [fst] in Hp. apply Z.eqb_eq in Hp. subst p. cbn [snd].
  split; [reflexivity|]. exists m, score. repeat split; assumption || reflexivity.
Qed.

(** X3: with a positive [exp] the confidence returned by [detect] lies
    strictly between 0 and 1, whatever the engine state and the scorer do. *)
Theorem detect_confidence_range (self : AnomalyDetector) (metric : list Q) :
  (forall s, (0 < np_exp s)%Q) ->
  (0 < snd (detect self metric) < 1)%Q.
Proof.
  intros Hexp. unfold detect, neutral.
  destruct (negb (is_trained self)); [cbn; lra|].
  destruct (model self) as [m|]; [|cbn; lra].
  destruct (predict m metric) as [p|]; [|cbn; lra].
  destruct (score_samples m metric) as [score|]; [|cbn; lra].
  cbn [snd]. specialize (Hexp score).
  assert (Hpos : (0 < 1 + np_exp score)%Q) by lra.
  split.
  - apply Qlt_shift_div_l; [exact Hpos | lra].
  - apply Qlt_shift_div_r; [exact Hpos | lra].
Qed.

(** ** Baselines of non-negative windows *)

Lemma Qsum_lower (lo : Q) (l : list Q) :
  Forall (fun v => (lo <= v)%Q) l ->
  (inject_Z (Z.of_nat (length l)) * lo <= Qsum l)%Q.
Proof.
  induction 1 as [|v l Hlo _ IH].
  - change (0 * lo <= 0)%Q. lra.
  - cbn [length Qsum fold_right]. fold (Qsum l).
    rewrite Nat2Z.inj_succ, <- Z.add_1_r, inject_Z_plus.
    change (inject_Z 1) with 1%Q. lra.
Qed.

Lemma window_size_positive {A} (rows : list A) :
  rows <> [] -> (0 < inject_Z (Z.of_nat (length rows)))%Q.
Proof.
  intros Hne. destruct rows; [contradiction|]. cbn [length].
  rewrite Nat2Z.inj_succ, <- Z.add_1_r, inject_Z_plus.
  change (inject_Z 1) with 1%Q.
  assert (0 <= inject_Z (Z.of_nat (length rows)))%Q
    by (change 0%Q with (inject_Z 0); rewrite <- Zle_Qle; lia).
  lra.
Qed.

Lemma column_Forall (P : Q -> Prop) (width i : nat) (rows : list (list Q)) :
  (i < width)%nat ->
  Forall (fun r => length r = width) rows ->
  Forall (Forall P) rows ->
  Forall P (map (fun r => nth i r 0%Q) rows).
Proof.
  intros Hi Hrect Hrows. apply Forall_map. rewrite Forall_forall in *.
  intros r Hr. specialize (Hrect r Hr). specialize (Hrows r Hr). cbn.
  rewrite Forall_forall in Hrows. apply Hrows.
  apply list_elem_of_In, nth_In. lia.
Qed.

(** On a rectangular, non-empty window of non-negative samples the mean
    has one entry per dimension and is non-negative. *)
Lemma np_mean_axis0_nonnegative (width : nat) (rows : list (list Q)) :
  rows <> [] ->
  Forall (fun r => length r = width) rows ->
  Forall (Forall (fun v => (0 <= v)%Q)) rows ->
  length (np_mean_axis0 rows) = width /\
  Forall (fun v => (0 <= v)%Q) (np_mean_axis0 rows).
Proof.
  intros Hne Hrect Hrange.
  assert (Hlen : length (np_mean_axis0 rows) = width).
  { destruct rows as [|r rs]; [contradiction|]. inversion Hrect; subst.
    unfold np_mean_axis0, column_sums. rewrite length_map.
    now apply fold_zip_with_length. }
  pose proof (window_size_positive rows Hne) as Hn.
  split; [exact Hlen|].
  apply Forall_nth with (d := 0%Q); intros i Hi; rewrite Hlen in Hi.
  destruct (np_mean_axis0_dimension width rows i Hne Hrect Hi) as [_ Hmean].
  rewrite Hmean. unfold dimension_mean.
  pose proof (column_Forall _ width i rows Hi Hrect Hrange) as Hcol.
  apply Qsum_lower in Hcol. rewrite length_map in Hcol.
  apply Qle_shift_div_l; [exact Hn | lra].
Qed.

(** X4: training on more than twenty samples of equal width and
    non-negative gauges, when [fit] accepts them, yields a trained engine
    that holds the fitted model and a baseline with one non-negative entry
    per dimension. *)
Theorem train_baseline_nonnegative (self : AnomalyDetector) (width : nat)
    (metrics_data : list (list Q)) (m : Forest) :
  (20 < length metrics_data)%nat ->
  fit metrics_data = Ok m ->
  Forall (fun r => length r = width) metrics_data ->
  Forall (Forall (fun v => (0 <= v)%Q)) metrics_data ->
  exists d,
    train self metrics_data = Ok d /\
    is_trained d = true /\
    model d = Some m /\
    length (baseline_data d) = width /\
    Forall (fun v => (0 <= v)%Q) (baseline_data d).
Proof.
  intros Hlen Hfit Hrect Hrange. unfold train.
  apply Nat.ltb_lt in Hlen as Hlt. rewrite Hlt, Hfit.
  eexists. split; [reflexivity|]. cbn [is_trained model baseline_data].
  split; [reflexivity|]. split; [reflexivity|].
  apply (np_mean_axis0_nonnegative width metrics_data); [|exact Hrect|exact Hrange].
  intros ->. cbn in Hlen. lia.
Qed.

Lemma recent_window_stored (w : World) (m : SystemMetric.t) :
  m ∈ recent_window w -> m ∈ db_metrics w.
Proof.
  unfold recent_window, sort_timestamp_desc. intros Hm.
  apply elem_of_take in Hm as (i & Hm & _).
  apply list_elem_of_lookup_2 in Hm.
  now rewrite merge_sort_Permutation in Hm.
Qed.

(** A non-negative number plus one is not zero. *)
Lemma nonnegative_successors (bd : list Q) :
  Forall (fun b => (0 <= b)%Q) bd -> Forall (fun b => ~ (b + 1 == 0)%Q) bd.
Proof.
  intros Hbd. eapply Forall_impl; [exact Hbd|].
  intros b Hb E. cbv beta in Hb. lra.
Qed.

Lemma retrain_baseline_well_formed (w : World) :
  Forall gauges_nonnegative (db_metrics w) ->
  baseline_well_formed (baseline_data (anomaly_detector w)) ->
  baseline_well_formed
    (baseline_data (anomaly_detector (train_anomaly_detector_cycle w))).
Proof.
  intros Hstore Hbase.
  unfold train_anomaly_detector_cycle, train. rewrite length_map.
  destruct (50 <? length (recent_window w))%nat eqn:E50; [|exact Hbase].
  apply Nat.ltb_lt in E50.
  assert (E20 : (20 <? length (recent_window w))%nat = true)
    by (apply Nat.ltb_lt; lia).
  rewrite E20. destruct (fit _); [|exact Hbase]. cbn.
  destruct (np_mean_axis0_nonnegative 5 (map features_of (recent_window w)))
    as (Hlen & Hlow).
  - destruct (recent_window w); [simpl in E50; lia | discriminate].
  - apply Forall_map, Forall_forall. reflexivity.
  - apply Forall_map, Forall_forall.
    intros m Hm. apply recent_window_stored in Hm.
    rewrite Forall_forall in Hstore. now apply Hstore.
  - split; [now right|exact Hlow].
Qed.

(** X5: while every stored sample has non-negative gauges, retraining keeps
    the baseline well formed: empty or five entries wide, and non-negative.
    Such a baseline never makes the attribution divide by zero, neither in
    exact arithmetic nor in double precision. *)
Theorem retrain_keeps_baseline_well_formed (w : World) :
  Forall gauges_nonnegative (db_metrics w) ->
  baseline_well_formed (baseline_data (anomaly_detector w)) ->
  baseline_well_formed
    (baseline_data (anomaly_detector (train_anomaly_detector_cycle w))) /\
  Forall (fun b => ~ (b + 1 == 0)%Q)
    (baseline_data (anomaly_detector (train_anomaly_detector_cycle w))) /\
  Forall (fun b => ~ (fadd b 1 == 0)%Q)
    (baseline_data (anomaly_detector (train_anomaly_detector_cycle w))).
Proof.
  intros Hstore Hbase.
  pose proof (retrain_baseline_well_formed w Hstore Hbase) as Hgoal.
  split; [exact Hgoal|].
  split; [apply nonnegative_successors | apply nonnegative_divisors]; apply Hgoal.
Qed.

(** ** The detection pass as a whole *)

Lemma latest_metric_Some (service : string) (coll : list SystemMetric.t)
    (m : SystemMetric.t) :
  latest_metric service coll = Some m ->
  m ∈ coll /\ SystemMetric.service m = service /\
  forall m', m' ∈ coll -> SystemMetric.service m' = service ->
             (SystemMetric.timestamp m' <= SystemMetric.timestamp m)%Z.
Proof.
  unfold latest_metric, sort_timestamp_desc. intros Hhead.
  set (matching := filter (fun m => SystemMetric.service m = service) coll) in *.
  pose proof (merge_sort_Permutation newest_first matching) as Hperm.
  assert (Hsorted : StronglySorted newest_first (merge_sort newest_first matching))
    by (apply StronglySorted_merge_sort; apply _).
  destruct (merge_sort newest_first matching) as [|x rest] eqn:E; [discriminate|].
  injection Hhead as ->.
  assert (Hm : m ∈ matching) by (rewrite <- Hperm; left).
  apply list_elem_of_filter in Hm as [Hsvc Hin].
  split; [exact Hin|]. split; [exact Hsvc|].
  intros m' Hin' Hsvc'.
  assert (Hm' : m' ∈ m :: rest)
    by (rewrite Hperm; apply list_elem_of_filter; auto).
  apply StronglySorted_inv in Hsorted as [_ Hall].
  apply elem_of_cons in Hm' as [->|Hrest]; [lia|].
  rewrite Forall_forall in Hall. exact (Hall m' Hrest).
Qed.

Lemma latest_metric_None (service : string) (coll : list SystemMetric.t) :
  latest_metric service coll = None <->
  forall m, m ∈ coll -> SystemMetric.service m <> service.
Proof.
  unfold latest_metric, sort_timestamp_desc.
  set (matching := filter (fun m => SystemMetric.service m = service) coll).
  pose proof (merge_sort_Permutation newest_first matching) as Hperm.
  split.
  - intros Hhead m Hin Hsvc.
    assert (Hm : m ∈ merge_sort newest_first matching)
      by (rewrite Hperm; apply list_elem_of_filter; auto).
    destruct (merge_sort newest_first matching); [|discriminate].
    now apply elem_of_nil in Hm.
  - intros Hnone.
    destruct (merge_sort newest_first matching) as [|x rest] eqn:E; [reflexivity|].
    assert (Hx : x ∈ matching) by (rewrite <- Hperm; left).
    apply list_elem_of_filter in Hx as [Hsvc Hin]. now destruct (Hnone x Hin).
Qed.

Lemma report_anomaly_total (service : string) (metric : SystemMetric.t)
    (confidence : Q) (w : World) :
  gauges_nonnegative metric ->
  baseline_well_formed (baseline_data (anomaly_detector w)) ->
  exists an,
    report_anomaly service metric (features_of metric) confidence w
    = (with_anomalies (db_anomalies w ++ [an])
         (with_uuid_draws (S (uuid_draws w)) w), Ok an) /\
    Anomaly.service an = service /\
    Anomaly.confidence an = confidence /\
    Anomaly.timestamp an = SystemMetric.timestamp metric.
Proof.
  intros Hmetric [Hshape Hnonneg].
  assert (Hattr : exists a,
             attribute (baseline_data (anomaly_detector w)) (features_of metric)
             = Ok a).
  { destruct Hshape as [Hempty|Hwidth].
    - rewrite Hempty.
      destruct (attribute_own_baseline metric) as (a & Ha & _); eauto.
      now apply nonnegative_divisors.
    - destruct (attribute_stored_baseline metric _ Hwidth) as (a & Ha & _); eauto.
      now apply nonnegative_divisors. }
  destruct Hattr as (a & Ha).
  unfold report_anomaly, bind, gets, lift, new_uuid, modify, ret. rewrite Ha.
  eexists. split; [reflexivity|]. repeat split.
Qed.

Lemma detect_loop_total (svcs : list string) (detected : list Anomaly.t) (w : World) :
  Forall gauges_nonnegative (db_metrics w) ->
  baseline_well_formed (baseline_data (anomaly_detector w)) ->
  exists w' new,
    detect_loop svcs detected w = (w', Ok (detected ++ new)%list) /\
    db_anomalies w' = (db_anomalies w ++ new)%list /\
    sublist (map Anomaly.service new) svcs /\
    db_metrics w' = db_metrics w /\ db_incidents w' = db_incidents w /\
    db_actions w' = db_actions w /\ anomaly_detector w' = anomaly_detector w /\
    data_simulator w' = data_simulator w /\ clock_reads w' = clock_reads w.
Proof.
  revert detected w. induction svcs as [|service rest IH]; intros detected w Hstore Hbase.
  - exists w, []. cbn. rewrite !app_nil_r. repeat split; auto.
  - cbn [detect_loop]. unfold bind at 1. unfold gets at 1.
    destruct (latest_metric service (db_metrics w)) as [metric|] eqn:Hlatest.
    + unfold bind at 1. unfold gets at 1.
      destruct (fst (detect (anomaly_detector w) (features_of metric))).
      * apply latest_metric_Some in Hlatest as (Hin & _ & _).
        assert (Hmetric : gauges_nonnegative metric)
          by (rewrite Forall_forall in Hstore; now apply Hstore).
        destruct (report_anomaly_total service metric
                    (snd (detect (anomaly_detector w) (features_of metric)))
                    w Hmetric Hbase) as (an & Hrun & Hsvc & _).
        unfold bind at 1. rewrite Hrun.
        destruct (IH (detected ++ [an])%list
                    (with_anomalies (db_anomalies w ++ [an])
                       (with_uuid_draws (S (uuid_draws w)) w)) Hstore Hbase)
          as (w' & new & Hloop & Hanom & Hsub & Hrest).
        exists w', (an :: new). rewrite Hloop, Hanom. cbn [db_anomalies with_anomalies].
        rewrite <- !app_assoc. cbn [app map].
        split; [reflexivity|]. split; [reflexivity|].
        split; [|exact Hrest].
        rewrite Hsvc. now apply sublist_skip.
      * destruct (IH detected w Hstore Hbase)
          as (w' & new & Hloop & Hanom & Hsub & Hrest).
        exists w', new. rewrite Hloop. split; [reflexivity|].
        split; [exact Hanom|]. split; [|exact Hrest].
        now apply sublist_cons.
    + destruct (IH detected w Hstore Hbase)
        as (w' & new & Hloop & Hanom & Hsub & Hrest).
      exists w', new. rewrite Hloop. split; [reflexivity|].
      split; [exact Hanom|]. split; [|exact Hrest].
      now apply sublist_cons.
Qed.

Lemma detect_anomalies_run (w : World) :
  Forall gauges_nonnegative (db_metrics w) ->
  baseline_well_formed (baseline_data (anomaly_detector w)) ->
  exists w' detected,
    detect_anomalies w = (w', Ok (length detected, detected)) /\
    db_anomalies w' = (db_anomalies w ++ detected)%list /\
    sublist (map Anomaly.service detected) (services (data_simulator w)) /\
    db_metrics w' = db_metrics w /\ db_incidents w' = db_incidents w /\
    db_actions w' = db_actions w /\ anomaly_detector w' = anomaly_detector w /\
    data_simulator w' = data_simulator w /\ clock_reads w' = clock_reads w.
Proof.
  intros Hstore Hbase.
  destruct (detect_loop_total (services (data_simulator w)) [] w Hstore Hbase)
    as (w' & new & Hloop & Hrest).
  exists w', new. split; [|exact Hrest].
  unfold detect_anomalies, endpoint, bind, gets, ret. now rewrite Hloop.
Qed.

(** X6: on a store of non-negative gauges and a well-formed baseline the
    detection pass never fails: it returns the anomalies it found, whose
    services, in the order found, form a sublist of the monitored services
    (at most one anomaly per monitored service, in the order of the
    services), appends exactly those to the anomaly collection, and touches
    neither metrics, incidents, actions, the engine, the simulator nor the
    clock. *)
Theorem detect_anomalies_total (w : World) :
  Forall gauges_nonnegative (db_metrics w) ->
  baseline_well_formed (baseline_data (anomaly_detector w)) ->
  exists w' detected,
    detect_anomalies w = (w', Ok (length detected, detected)) /\
    db_anomalies w' = (db_anomalies w ++ detected)%list /\
    sublist (map Anomaly.service detected) (services (data_simulator w)) /\
    (length detected <= length (services (data_simulator w)))%nat /\
    Forall (fun a => Anomaly.service a ∈ services (data_simulator w)) detected /\
    db_metrics w' = db_metrics w /\ db_incidents w' = db_incidents w /\
    db_actions w' = db_actions w /\ anomaly_detector w' = anomaly_detector w /\
    data_simulator w' = data_simulator w /\ clock_reads w' = clock_reads w.
Proof.
  intros Hstore Hbase.
  destruct (detect_anomalies_run w Hstore Hbase)
    as (w' & new & Hrun & Hanom & Hsub & Hrest).
  exists w', new. split; [exact Hrun|].
  split; [exact Hanom|]. split; [exact Hsub|].
  split; [apply sublist_length in Hsub; now rewrite length_map in Hsub|].
  split; [|exact Hrest].
  apply Forall_forall. intros a Ha.
  eapply elem_of_sublist; [|exact Hsub].
  apply list_elem_of_fmap. eauto.
Qed.

(** X7: while the engine is untrained the detection pass finds nothing and
    changes nothing. *)
Theorem detect_anomalies_untrained (w : World) :
  is_trained (anomaly_detector w) = false ->
  detect_anomalies w = (w, Ok (0%nat, [])).
Proof.
  intros Huntrained.
  assert (Hloop : forall svcs detected,
             detect_loop svcs detected w = (w, Ok detected)).
  { induction svcs as [|service rest IH]; intros detected; [reflexivity|].
    cbn [detect_loop]. unfold bind, gets.
    destruct (latest_metric service (db_metrics w)); [|apply IH].
    unfold detect. rewrite Huntrained. cbn. apply IH. }
  unfold detect_anomalies, endpoint, bind, gets, ret. now rewrite Hloop.
Qed.

(** ** Latest metrics *)

Lemma omap_length_le {A B} (f : A -> option B) (l : list A) :
  (length (omap f l) <= length l)%nat.
Proof.
  induction l as [|x l IH]; [reflexivity|].
  cbn. destruct (f x); cbn; lia.
Qed.

(** The results of an [omap] over a list, read back through a left inverse
    of the mapped function, form a sublist of that list: at most one result
    per position, in the order of the list. *)
Lemma omap_sublist {A B} (f : A -> option B) (g : B -> A) (l : list A) :
  (forall x y, f x = Some y -> g y = x) ->
  sublist (map g (omap f l)) l.
Proof.
  intros Hinv. induction l as [|x l IH]; [constructor|].
  cbn. destruct (f x) as [y|] eqn:E; cbn.
  - rewrite (Hinv x y E). now apply sublist_skip.
  - now apply sublist_cons.
Qed.

(** X8: [get_latest_metrics] changes nothing and returns, in the order of
    the monitored services, the newest stored sample of each service that
    has one: the services of the samples returned form a sublist of the
    monitored services (at most one sample per listed service, in the order
    of the list), every sample returned is stored, belongs to a monitored
    service and is at least as new as every stored sample of that service,
    and every monitored service with a stored sample is represented. *)
Theorem get_latest_metrics_newest (w : World) :
  exists latest,
    get_latest_metrics w = (w, Ok latest) /\
    sublist (map SystemMetric.service latest) (services (data_simulator w)) /\
    (length latest <= length (services (data_simulator w)))%nat /\
    (forall m, m ∈ latest ->
       m ∈ db_metrics w /\
       SystemMetric.service m ∈ services (data_simulator w) /\
       forall m', m' ∈ db_metrics w ->
                  SystemMetric.service m' = SystemMetric.service m ->
                  (SystemMetric.timestamp m' <= SystemMetric.timestamp m)%Z) /\
    (forall m', m' ∈ db_metrics w ->
       SystemMetric.service m' ∈ services (data_simulator w) ->
       exists m, m ∈ latest /\ SystemMetric.service m = SystemMetric.service m').
Proof.
  eexists. split; [reflexivity|].
  split.
  { apply omap_sublist. intros service m Hlatest.
    now apply latest_metric_Some in Hlatest as (_ & ? & _). }
  split; [apply omap_length_le|]. split.
  - intros m Hm. apply list_elem_of_omap in Hm as (service & Hsvc & Hlatest).
    apply latest_metric_Some in Hlatest as (Hin & <- & Hnewest). auto.
  - intros m' Hin Hsvc.
    destruct (latest_metric (SystemMetric.service m') (db_metrics w)) as [m|] eqn:E.
    + exists m. split.
      * apply list_elem_of_omap. eauto.
      * now apply latest_metric_Some in E as (_ & ? & _).
    + rewrite latest_metric_None in E. now destruct (E m' Hin).
Qed.

(** ** Metric generation *)

Lemma uniform_range (n : nat) (a b : Q) :
  (0 <= random_draw n < 1)%Q -> (a <= b)%Q ->
  (a <= uniform n a b <= b)%Q.
Proof.
  intros [Hlo Hhi] Hab. unfold uniform.
  assert (0 <= (b - a) * random_draw n)%Q by nra.
  assert ((b - a) * random_draw n <= b - a)%Q by nra.
  lra.
Qed.

Lemma py_min_one_range (x : Q) :
  (py_min x 1 <= 1)%Q /\
  ((0 <= x)%Q -> (0 <= py_min x 1)%Q) /\
  ((1 <= x)%Q -> (py_min x 1 == 1)%Q).
Proof.
  unfold py_min. destruct (Qltb 1 x) eqn:E.
  - apply Qltb_lt in E. repeat split; intros; lra.
  - apply Qltb_ge in E. repeat split; intros; lra.
Qed.

Lemma total_seconds_range (t start : Z) :
  ((start <= t)%Z -> (0 <= total_seconds t start / 60)%Q) /\
  ((start + 60000000 <= t)%Z -> (1 <= total_seconds t start / 60)%Q).
Proof.
  unfold total_seconds. split; intros Hle.
  - assert (0 <= inject_Z (t - start))%Q
      by (change 0%Q with (inject_Z 0); rewrite <- Zle_Qle; lia).
    apply Qle_shift_div_l; [reflexivity|].
    assert (0 <= inject_Z (t - start) / 1000000)%Q
      by (apply Qle_shift_div_l; [reflexivity | lra]).
    lra.
  - assert (60000000 <= inject_Z (t - start))%Q
      by (change 60000000%Q with (inject_Z 60000000); rewrite <- Zle_Qle; lia).
    apply Qle_shift_div_l; [reflexivity|].
    assert (60 <= inject_Z (t - start) / 1000000)%Q
      by (apply Qle_shift_div_l; [reflexivity | lra]).
    lra.
Qed.

(** X9: for a service that is not the failing one, [generate_metric] reads
    the clock once, draws five random numbers and returns a sample stamped
    with that clock reading whose gauges lie in the normal ranges: cpu in
    [20, 50], memory in [30, 60], latency in [50, 150], error rate in
    [0, 2] and requests per second in [100, 500]. *)
Theorem generate_metric_normal_ranges (service : string) (n : nat) (w : World) :
  (forall k, (0 <= random_draw k < 1)%Q) ->
  failing_service (data_simulator w) service = false ->
  exists m,
    DataSimulator_generate_metric service n w
    = (with_clock_reads (S (clock_reads w)) w, Ok (m, (n + 5)%nat)) /\
    SystemMetric.service m = service /\
    SystemMetric.timestamp m = utcnow (clock_reads w) /\
    (20 <= SystemMetric.cpu m <= 50)%Q /\
    (30 <= SystemMetric.memory m <= 60)%Q /\
    (50 <= SystemMetric.latency m <= 150)%Q /\
    (0 <= SystemMetric.error_rate m <= 2)%Q /\
    (100 <= SystemMetric.requests_per_sec m <= 500)%Q.
Proof.
  intros Hrand Hnormal.
  unfold DataSimulator_generate_metric, bind, now, gets, ret.
  cbn [data_simulator with_clock_reads]. rewrite Hnormal.
  eexists. split; [reflexivity|]. cbn.
  repeat split; try reflexivity; apply uniform_range; auto; lra.
Qed.

(** X10: for the failing service, with the clock not behind the start of the
    failure, [generate_metric] reads the clock twice, draws ten random
    numbers and returns a sample in the degraded ranges: cpu and memory in
    [70, 95], latency in [300, 1000], error rate in [10, 50] and requests
    per second in [50, 100].  From one minute into the failure on, cpu and
    memory are at least 90, the error rate at least 40 and the latency is
    exactly 1000. *)
Theorem generate_metric_failure_ranges
    (service : string) (n : nat) (w : World) (start : Z) :
  (forall k, (0 <= random_draw k < 1)%Q) ->
  failing_service (data_simulator w) service = true ->
  failure_start (data_simulator w) = Some start ->
  (start <= utcnow (S (clock_reads w)))%Z ->
  exists m,
    DataSimulator_generate_metric service n w
    = (with_clock_reads (S (S (clock_reads w))) w, Ok (m, (n + 10)%nat)) /\
    SystemMetric.service m = service /\
    SystemMetric.timestamp m = utcnow (clock_reads w) /\
    (70 <= SystemMetric.cpu m <= 95)%Q /\
    (70 <= SystemMetric.memory m <= 95)%Q /\
    (300 <= SystemMetric.latency m <= 1000)%Q /\
    (10 <= SystemMetric.error_rate m <= 50)%Q /\
    (50 <= SystemMetric.requests_per_sec m <= 100)%Q /\
    ((start + 60000000 <= utcnow (S (clock_reads w)))%Z ->
     (90 <= SystemMetric.cpu m)%Q /\
     (90 <= SystemMetric.memory m)%Q /\
     (SystemMetric.latency m == 1000)%Q /\
     (40 <= SystemMetric.error_rate m)%Q).
Proof.
  intros Hrand Hfailing Hstart Hclock.
  unfold DataSimulator_generate_metric, bind, now, gets, ret.
  cbn [data_simulator with_clock_reads clock_reads]. rewrite Hfailing, Hstart.
  eexists. split; [reflexivity|]. cbn [SystemMetric.service SystemMetric.timestamp
    SystemMetric.cpu SystemMetric.memory SystemMetric.latency
    SystemMetric.error_rate SystemMetric.requests_per_sec
    clock_reads with_clock_reads].
  set (intensity := py_min (total_seconds (utcnow (S (clock_reads w))) start / 60) 1).
  destruct (py_min_one_range
              (total_seconds (utcnow (S (clock_reads w))) start / 60))
    as (Hle & Hge & Hone).
  destruct (total_seconds_range (utcnow (S (clock_reads w))) start)
    as (Hpos & Hminute).
  specialize (Hge (Hpos Hclock)). fold intensity in Hle, Hge, Hone.
  split; [reflexivity|]. split; [reflexivity|].
  pose proof (uniform_range (n + 5) (70 + intensity * 20) 95 (Hrand _)
                ltac:(lra)) as Hcpu.
  pose proof (uniform_range (n + 6) (70 + intensity * 20) 95 (Hrand _)
                ltac:(lra)) as Hmem.
  pose proof (uniform_range (n + 7) (300 + intensity * 700) 1000 (Hrand _)
                ltac:(lra)) as Hlat.
  pose proof (uniform_range (n + 8) (10 + intensity * 30) 50 (Hrand _)
                ltac:(lra)) as Herr.
  pose proof (uniform_range (n + 9) 50 100 (Hrand _) ltac:(lra)) as Hrps.
  split; [lra|]. split; [lra|]. split; [lra|]. split; [lra|]. split; [lra|].
  intros Hlate. specialize (Hone (Hminute Hlate)).
  split; [lra|]. split; [lra|]. split; [|lra].
  unfold uniform in *. nra.
Qed.

(** A sample for a healthy service has non-negative gauges. *)
Lemma generate_metric_normal (service : string) (n : nat) (w : World) :
  (forall k, (0 <= random_draw k < 1)%Q) ->
  failing_service (data_simulator w) service = false ->
  exists m,
    DataSimulator_generate_metric service n w
    = (with_clock_reads (S (clock_reads w)) w, Ok (m, (n + 5)%nat)) /\
    SystemMetric.service m = service /\
    gauges_nonnegative m.
Proof.
  intros Hrand Hnormal.
  unfold DataSimulator_generate_metric, bind, now, gets, ret.
  cbn [data_simulator with_clock_reads]. rewrite Hnormal.
  eexists. split; [reflexivity|]. split; [reflexivity|].
  unfold gauges_nonnegative, features_of.
  cbn [SystemMetric.cpu SystemMetric.memory SystemMetric.latency
       SystemMetric.error_rate SystemMetric.requests_per_sec].
  pose proof (uniform_range n 20 50 (Hrand _) ltac:(lra)) as Hcpu.
  pose proof (uniform_range (n + 1) 30 60 (Hrand _) ltac:(lra)) as Hmem.
  pose proof (uniform_range (n + 2) 50 150 (Hrand _) ltac:(lra)) as Hlat.
  pose proof (uniform_range (n + 3) 0 2 (Hrand _) ltac:(lra)) as Herr.
  pose proof (uniform_range (n + 4) 100 500 (Hrand _) ltac:(lra)) as Hrps.
  repeat constructor; lra.
Qed.

(** So has a sample for the failing service, once the clock is not behind
    the start of the failure. *)
Lemma generate_metric_failure (service : string) (n : nat) (w : World) (start : Z) :
  (forall k, (0 <= random_draw k < 1)%Q) ->
  failing_service (data_simulator w) service = true ->
  failure_start (data_simulator w) = Some start ->
  (start <= utcnow (S (clock_reads w)))%Z ->
  exists m,
    DataSimulator_generate_metric service n w
    = (with_clock_reads (S (S (clock_reads w))) w, Ok (m, (n + 10)%nat)) /\
    SystemMetric.service m = service /\
    gauges_nonnegative m.
Proof.
  intros Hrand Hfailing Hstart Hclock.
  unfold DataSimulator_generate_metric, bind, now, gets, ret.
  cbn [data_simulator with_clock_reads clock_reads]. rewrite Hfailing, Hstart.
  eexists. split; [reflexivity|]. split; [reflexivity|].
  unfold gauges_nonnegative, features_of.
  cbn [SystemMetric.cpu SystemMetric.memory SystemMetric.latency
       SystemMetric.error_rate SystemMetric.requests_per_sec
       clock_reads with_clock_reads].
  set (intensity := py_min (total_seconds (utcnow (S (clock_reads w))) start / 60) 1).
  destruct (py_min_one_range
              (total_seconds (utcnow (S (clock_reads w))) start / 60))
    as (Hle & Hge & _).
  destruct (total_seconds_range (utcnow (S (clock_reads w))) start)
    as (Hpos & _).
  specialize (Hge (Hpos Hclock)). fold intensity in Hle, Hge.
  pose proof (uniform_range (n + 5) (70 + intensity * 20) 95 (Hrand _)
                ltac:(lra)) as Hcpu.
  pose proof (uniform_range (n + 6) (70 + intensity * 20) 95 (Hrand _)
                ltac:(lra)) as Hmem.
  pose proof (uniform_range (n + 7) (300 + intensity * 700) 1000 (Hrand _)
                ltac:(lra)) as Hlat.
  pose proof (uniform_range (n + 8) (10 + intensity * 30) 50 (Hrand _)
                ltac:(lra)) as Herr.
  pose proof (uniform_range (n + 9) 50 100 (Hrand _) ltac:(lra)) as Hrps.
  repeat constructor; lra.
Qed.

Lemma generate_metric_total (service : string) (n : nat) (w : World) :
  (forall k, (0 <= random_draw k < 1)%Q) ->
  clock_past_failure_start w ->
  (failure_mode (data_simulator w) = true ->
   is_Some (failure_start (data_simulator w))) ->
  exists m n' w',
    DataSimulator_generate_metric service n w = (w', Ok (m, n')) /\
    SystemMetric.service m = service /\
    gauges_nonnegative m /\
    differ_in_clock_only w w' /\
    (clock_reads w <= clock_reads w')%nat.
Proof.
  intros Hrand Hclock Hsim.
  destruct (failing_service (data_simulator w) service) eqn:Hfailing.
  - assert (Hmode : failure_mode (data_simulator w) = true).
    { unfold failing_service in Hfailing. now apply andb_true_iff in Hfailing. }
    destruct (Hsim Hmode) as [start Hstart].
    destruct (generate_metric_failure service n w start Hrand Hfailing
                Hstart (Hclock start Hstart (S (clock_reads w)) ltac:(lia)))
      as (m & Hrun & Hsvc & Hgauges).
    exists m, (n + 10)%nat, (with_clock_reads (S (S (clock_reads w))) w).
    split; [exact Hrun|]. split; [exact Hsvc|]. split; [|split].
    + exact Hgauges.
    + unfold differ_in_clock_only. cbn. repeat split.
    + cbn. lia.
  - destruct (generate_metric_normal service n w Hrand Hfailing)
      as (m & Hrun & Hsvc & Hgauges).
    exists m, (n + 5)%nat, (with_clock_reads (S (clock_reads w)) w).
    split; [exact Hrun|]. split; [exact Hsvc|]. split; [|split].
    + exact Hgauges.
    + unfold differ_in_clock_only. cbn. repeat split.
    + cbn. lia.
Qed.

Lemma feed_loop_total (svcs : list string) (n : nat) (w : World) :
  (forall k, (0 <= random_draw k < 1)%Q) ->
  clock_past_failure_start w ->
  (failure_mode (data_simulator w) = true ->
   is_Some (failure_start (data_simulator w))) ->
  exists new n' w',
    feed_loop svcs n w = (w', Ok n') /\
    db_metrics w' = (db_metrics w ++ new)%list /\
    map SystemMetric.service new = svcs /\
    Forall gauges_nonnegative new /\
    (clock_reads w <= clock_reads w')%nat /\
    db_anomalies w' = db_anomalies w /\ db_incidents w' = db_incidents w /\
    db_actions w' = db_actions w /\ anomaly_detector w' = anomaly_detector w /\
    data_simulator w' = data_simulator w.
Proof.
  intros Hrand. revert n w.
  induction svcs as [|service rest IH]; intros n w Hclock Hsim.
  - exists [], n, w. cbn. rewrite app_nil_r. repeat split; auto.
  - destruct (generate_metric_total service n w Hrand Hclock Hsim)
      as (m & n1 & w1 & Hrun & Hsvc & Hgauges & Hframe & Hticks).
    destruct Hframe as (Hm & Ha & Hi & Hact & Hdet & Hsimeq & _).
    destruct (IH n1 (with_metrics (db_metrics w1 ++ [m]) w1))
      as (new & n' & w' & Hloop & Hmetrics & Hsvcs & Hnonneg & Hticks' & Hrest).
    { intros start Hstart k Hk.
      cbn [data_simulator with_metrics clock_reads] in Hstart, Hk.
      rewrite Hsimeq in Hstart. apply (Hclock start Hstart). lia. }
    { cbn [data_simulator with_metrics]. now rewrite Hsimeq. }
    exists (m :: new), n', w'.
    cbn [feed_loop]. unfold bind at 1. rewrite Hrun.
    unfold bind at 1. unfold modify at 1. cbn [fst snd]. rewrite Hloop.
    split; [reflexivity|]. rewrite Hmetrics.
    cbn [db_metrics with_metrics db_anomalies db_incidents db_actions
         anomaly_detector data_simulator clock_reads] in *.
    rewrite Hm, <- app_assoc. split; [reflexivity|].
    split; [cbn; now rewrite Hsvc, Hsvcs|]. split; [now constructor|].
    split; [lia|].
    destruct Hrest as (-> & -> & -> & -> & ->). auto.
Qed.

(** X11: one cycle of the feed appends exactly one sample per monitored
    service, in the order of the services, each with non-negative gauges,
    and changes no other collection, nor the engine, nor the simulator.
    It assumes a consistent simulator and a clock that, from now on, is not
    behind the start of the failure. *)
Theorem feed_cycle_one_sample_per_service (n : nat) (w : World) :
  (forall k, (0 <= random_draw k < 1)%Q) ->
  clock_past_failure_start w ->
  simulator_consistent (data_simulator w) ->
  let w' := simulate_metrics_stream_cycle n w in
  exists new,
    db_metrics w' = (db_metrics w ++ new)%list /\
    map SystemMetric.service new = services (data_simulator w) /\
    Forall gauges_nonnegative new /\
    (Forall gauges_nonnegative (db_metrics w) ->
     Forall gauges_nonnegative (db_metrics w')) /\
    (clock_reads w <= clock_reads w')%nat /\
    db_anomalies w' = db_anomalies w /\ db_incidents w' = db_incidents w /\
    db_actions w' = db_actions w /\ anomaly_detector w' = anomaly_detector w /\
    data_simulator w' = data_simulator w.
Proof.
  intros Hrand Hclock Hsim w'. subst w'.
  destruct (feed_loop_total (services (data_simulator w)) n w Hrand Hclock)
    as (new & n' & w' & Hloop & Hmetrics & Hsvcs & Hnonneg & Hrest).
  { intros Hmode. now destruct (Hsim Hmode). }
  exists new. unfold simulate_metrics_stream_cycle, bind, gets.
  rewrite Hloop. cbn [fst].
  split; [exact Hmetrics|]. split; [exact Hsvcs|]. split; [exact Hnonneg|].
  split; [|exact Hrest].
  intros Hstore. rewrite Hmetrics. now apply Forall_app.
Qed.

(** ** Demo mode over several requests *)

Lemma inject_failure_consistent (service : string) (w : World) :
  simulator_consistent (data_simulator w) ->
  simulator_consistent (data_simulator (fst (inject_failure service w))).
Proof.
  intros Hsim. unfold inject_failure, DataSimulator_inject_failure,
    bind, gets, raise, now, modify, ret.
  destruct (existsb (String.eqb service) (services (data_simulator w))) eqn:E;
    cbn; [|exact Hsim].
  apply existsb_eqb_elem_of in E.
  repeat split; try discriminate; eauto.
Qed.

(** X12: every demo request keeps the simulator consistent: in failure mode
    it records the start of the failure and a failing service that is one
    of the monitored services; the list of monitored services never
    changes. *)
Theorem demo_requests_keep_simulator_consistent (service : string) (w : World) :
  simulator_consistent (data_simulator w) ->
  simulator_consistent (data_simulator (fst (inject_failure service w))) /\
  simulator_consistent (data_simulator (fst (clear_failure w))) /\
  services (data_simulator (fst (inject_failure service w)))
  = services (data_simulator w) /\
  services (data_simulator (fst (clear_failure w))) = services (data_simulator w).
Proof.
  intros Hsim. unfold inject_failure, clear_failure, DataSimulator_inject_failure,
    DataSimulator_clear_failure, bind, gets, raise, now, modify, ret.
  destruct (existsb (String.eqb service) (services (data_simulator w))) eqn:E;
    cbn.
  - apply existsb_eqb_elem_of in E.
    repeat split; try discriminate; eauto.
  - repeat split; try discriminate; auto; now apply Hsim.
Qed.

(** X13: clearing after an accepted injection switches failure mode off
    again: the simulator forgets service and start, [demo_status] reports no
    failure and [health_check] reports the simulator as normal, while right
    after the injection they report the failing service and active. *)
Theorem clear_failure_undoes_inject (service : string) (w : World) :
  service ∈ services (data_simulator w) ->
  let w1 := fst (inject_failure service w) in
  let w2 := fst (clear_failure w1) in
  snd (demo_status w1) = Ok (true, Some service, services (data_simulator w)) /\
  (exists report, snd (health_check w1) = Ok report /\
                  hr_simulator report = "active") /\
  data_simulator w2
  = {| services := services (data_simulator w); failure_mode := false;
       failure_service := None; failure_start := None |} /\
  snd (demo_status w2) = Ok (false, None, services (data_simulator w)) /\
  (exists report, snd (health_check w2) = Ok report /\
                  hr_simulator report = "normal").
Proof.
  intros Hin w1 w2. subst w1 w2. apply existsb_eqb_elem_of in Hin.
  unfold inject_failure, clear_failure, DataSimulator_inject_failure,
    DataSimulator_clear_failure, demo_status, health_check,
    bind, gets, raise, now, modify, ret.
  rewrite Hin. cbn.
  split; [reflexivity|]. split; [eexists; split; reflexivity|].
  split; [reflexivity|]. split; [reflexivity|]. eexists; split; reflexivity.
Qed.

(** ** More on the document store *)

Lemma find_one_app {D} (matches : D -> bool) (c1 c2 : list D) :
  find_one matches (c1 ++ c2)
  = match find_one matches c1 with
    | Some d => Some d
    | None => find_one matches c2
    end.
Proof.
  induction c1 as [|x c1 IH]; [reflexivity|].
  rewrite <- app_comm_cons, !find_one_cons. now destruct (matches x).
Qed.

Lemma update_one_length {D} (matches : D -> bool) (set : D -> D) (coll : list D) :
  length (fst (update_one matches set coll)) = length coll.
Proof.
  induction coll as [|x coll IH]; [reflexivity|]. simpl.
  destruct (matches x); [reflexivity|].
  destruct (update_one matches set coll). simpl in *. now rewrite IH.
Qed.

(** A lookup by another key does not see the update. *)
Lemma update_one_frame {D} (m1 m2 : D -> bool) (set : D -> D) (coll : list D) :
  (forall x, m1 x = true -> m2 x = false /\ m2 (set x) = false) ->
  find_one m2 (fst (update_one m1 set coll)) = find_one m2 coll.
Proof.
  intros Hother. induction coll as [|x coll IH]; [reflexivity|]. simpl.
  destruct (m1 x) eqn:E1.
  - destruct (Hother x E1) as [Hx Hset]. cbn [fst].
    now rewrite !find_one_cons, Hx, Hset.
  - destruct (update_one m1 set coll). cbn [fst] in *.
    rewrite !find_one_cons. now rewrite IH.
Qed.

Lemma update_one_idempotent {D} (matches : D -> bool) (set : D -> D) (coll : list D) :
  (forall x, matches x = true -> matches (set x) = true) ->
  (forall x, set (set x) = set x) ->
  update_one matches set (fst (update_one matches set coll))
  = update_one matches set coll.
Proof.
  intros Hkeep Hidem. induction coll as [|x coll IH]; [reflexivity|]. simpl.
  destruct (matches x) eqn:E.
  - cbn. now rewrite (Hkeep x E), Hidem.
  - destruct (update_one matches set coll) as [coll' k]. cbn [fst] in *.
    simpl. now rewrite E, IH.
Qed.

Lemma field_is_other_id (i j : string) (d : document) :
  i <> j -> field_is "id" i d = true -> field_is "id" j d = false.
Proof.
  intros Hne Hi. apply field_is_true in Hi.
  apply not_true_iff_false. rewrite field_is_true, Hi. now intros [=].
Qed.

(** ** Incidents *)

(** X14: a created incident starts open and unresolved, is appended to the
    collection, and [get_incident] returns exactly it under its new id as
    long as no stored incident already carries that id; lookups under other
    ids are not affected. *)
Theorem create_then_get_incident (incident : IncidentCreate) (w : World) :
  let uid := uuid4 (uuid_draws w) in
  find_one (field_is "id" uid) (db_incidents w) = None ->
  exists w1 doc,
    create_incident incident w = (w1, Ok doc) /\
    get_incident uid w1 = (w1, Ok doc) /\
    db_incidents w1 = (db_incidents w ++ [doc])%list /\
    has_status "open" doc /\
    doc !! "resolved_at" = Some VNull /\
    doc !! "created_at" = Some (VTime (utcnow (clock_reads w))) /\
    doc !! "title" = Some (VStr (ic_title incident)) /\
    (forall j, j <> uid ->
       find_one (field_is "id" j) (db_incidents w1)
       = find_one (field_is "id" j) (db_incidents w)).
Proof.
  intros uid Hfresh. subst uid.
  unfold create_incident, get_incident, endpoint, bind, new_uuid, now, modify,
    ret, find_incident, gets.
  cbn [db_incidents with_incidents with_clock_reads with_uuid_draws
       clock_reads uuid_draws].
  do 2 eexists. split; [reflexivity|].
  cbn [db_incidents with_incidents with_clock_reads with_uuid_draws
       clock_reads uuid_draws].
  assert (Hid : field_is "id" (uuid4 (uuid_draws w))
                  (incident_document (uuid4 (uuid_draws w))
                     (utcnow (clock_reads w)) incident) = true).
  { apply field_is_true. unfold incident_document. apply lookup_insert_eq. }
  rewrite find_one_app, Hfresh, find_one_cons, Hid.
  split; [reflexivity|]. split; [reflexivity|].
  split; [reflexivity|]. split; [reflexivity|].
  split; [reflexivity|]. split; [reflexivity|].
  intros j Hj. rewrite find_one_app.
  destruct (find_one (field_is "id" j) (db_incidents w)); [reflexivity|].
  rewrite find_one_cons.
  now rewrite (field_is_other_id _ j _ (not_eq_sym Hj) Hid).
Qed.

Lemma stamped_keeps_id (updates : document) (t : Z) :
  updates !! "id" = None ->
  (if marks_resolution updates
   then <["resolved_at" := VTime t]> updates else updates) !! "id" = None.
Proof.
  intros Hid. destruct (marks_resolution updates); [|exact Hid].
  now rewrite lookup_insert_ne.
Qed.

Lemma update_incident_incidents (incident_id : string) (updates : document) (w : World) :
  db_incidents (fst (update_incident incident_id updates w))
  = fst (update_one (field_is "id" incident_id)
           (fun d => (if marks_resolution updates
                      then <["resolved_at" := VTime (utcnow (clock_reads w))]> updates
                      else updates) ∪ d)
           (db_incidents w)).
Proof.
  unfold update_incident, endpoint, bind, update_incidents, find_incident,
    gets, raise.
  destruct (marks_resolution updates); unfold now, ret;
    cbn [db_incidents with_clock_reads clock_reads];
    destruct (update_one _ _ _) as [coll n]; now destruct n.
Qed.

(** X15: an update that does not touch the [id] field changes at most the
    addressed incident: the collection keeps its size, every incident stored
    under another id is found as before, and the other collections, the
    engine and the simulator stay as they were. *)
Theorem update_incident_frame (incident_id : string) (updates : document) (w : World) :
  updates !! "id" = None ->
  let w' := fst (update_incident incident_id updates w) in
  length (db_incidents w') = length (db_incidents w) /\
  (forall j, j <> incident_id ->
     find_one (field_is "id" j) (db_incidents w')
     = find_one (field_is "id" j) (db_incidents w)) /\
  db_metrics w' = db_metrics w /\ db_anomalies w' = db_anomalies w /\
  db_actions w' = db_actions w /\ anomaly_detector w' = anomaly_detector w /\
  data_simulator w' = data_simulator w.
Proof.
  intros Hid w'. subst w'. split; [|split].
  - rewrite update_incident_incidents. apply update_one_length.
  - intros j Hj. rewrite update_incident_incidents. apply update_one_frame.
    intros x Hx. split; [now apply (field_is_other_id incident_id)|].
    apply (field_is_other_id incident_id); [congruence|].
    apply field_is_true. rewrite lookup_union_r by now apply stamped_keeps_id.
    now apply field_is_true.
  - unfold update_incident, endpoint, bind, update_incidents, find_incident,
      gets, raise.
    destruct (marks_resolution updates); unfold now, ret;
      cbn [db_incidents with_clock_reads clock_reads];
      destruct (update_one _ _ _) as [coll n]; destruct n; cbn; auto.
Qed.

(** X16: repeating an update that carries no resolution marker and does not
    touch the [id] field changes nothing more: the second request returns
    what the first returned and leaves the world of the first. *)
Theorem update_incident_idempotent (incident_id : string) (updates : document) (w : World) :
  updates !! "id" = None ->
  marks_resolution updates = false ->
  update_incident incident_id updates (fst (update_incident incident_id updates w))
  = update_incident incident_id updates w.
Proof.
  intros Hid Hplain.
  assert (Hupd : update_one (field_is "id" incident_id) (fun d => updates ∪ d)
                   (fst (update_one (field_is "id" incident_id)
                           (fun d => updates ∪ d) (db_incidents w)))
                 = update_one (field_is "id" incident_id) (fun d => updates ∪ d)
                     (db_incidents w)).
  { apply update_one_idempotent.
    - intros x Hx. apply field_is_true. rewrite lookup_union_r by exact Hid.
      now apply field_is_true.
    - intros x. now rewrite (assoc_L (∪)), (idemp_L (∪)). }
  unfold update_incident, endpoint, bind, update_incidents, find_incident,
    gets, raise, ret.
  rewrite Hplain.
  destruct (update_one (field_is "id" incident_id) (fun d => updates ∪ d)
              (db_incidents w)) as [coll n] eqn:E.
  cbn [fst] in Hupd.
  destruct n as [|n]; cbn [Nat.eqb fst db_incidents with_incidents];
    rewrite Hupd; cbn [Nat.eqb]; destruct w; reflexivity.
Qed.

(** X17: [analyze_incident] on a stored incident whose fields can be read
    (and whose service is not a dictionary) attaches the reply as
    [ai_explanation] and changes no other field of the incident; when the
    language model fails, the request fails with status 500 and the world
    is left as it was. *)
Theorem analyze_incident_attaches_reply
    (incident_id : string) (d : document) (w : World) :
  find_one (field_is "id" incident_id) (db_incidents w) = Some d ->
  anomaly_query d = Ok tt ->
  read_fields d ["service"; "title"; "service"; "severity"; "status"] = Ok tt ->
  (forall query, d !! "service" <> Some (VDict query)) ->
  (forall response,
     exists w',
       analyze_incident incident_id (Ok response) w
       = (w', Ok (incident_id, response)) /\
       find_one (field_is "id" incident_id) (db_incidents w')
       = Some (<["ai_explanation" := VStr response]> d) /\
       (forall k, k <> "ai_explanation" ->
          (<["ai_explanation" := VStr response]> d) !! k = d !! k) /\
       db_actions w' = db_actions w /\ db_anomalies w' = db_anomalies w /\
       db_metrics w' = db_metrics w) /\
  (forall e,
     analyze_incident incident_id (Raise (Exception e)) w
     = (w, Raise (HTTPException 500 (StrOf e)))).
Proof.
  intros Hfind Hquery Hfields _.
  unfold analyze_incident, endpoint, bind, find_incident, gets, lift,
    update_incidents, ret.
  rewrite Hfind, Hquery, Hfields. split.
  - intros response.
    pose proof (find_one_matches _ _ _ Hfind) as Hd. apply field_is_true in Hd.
    destruct (update_one_found (field_is "id" incident_id)
                (fun x => <["ai_explanation" := VStr response]> x) _ d Hfind)
      as (coll' & Hupd & Hf & _).
    { apply field_is_true. now rewrite lookup_insert_ne. }
    rewrite Hupd. eexists. split; [reflexivity|]. cbn.
    split; [exact Hf|]. split; [|auto].
    intros k Hk. now rewrite lookup_insert_ne.
  - intros e. reflexivity.
Qed.

(** ** Recommendations in general *)

Lemma create_action_fields (incident_id : string) (v : value)
    (t : string * string * string * string) (w : World) :
  rec_fields v t ->
  exists a,
    create_action incident_id v w
    = (with_actions (db_actions w ++ [a])
         (with_clock_reads (S (clock_reads w))
            (with_uuid_draws (S (uuid_draws w)) w)), Ok a) /\
    action_texts a = t /\ fresh_for incident_id a /\
    Action.id a = uuid4 (uuid_draws w) /\
    Action.created_at a = utcnow (clock_reads w).
Proof.
  intros (d & -> & Ha & Hd & Hr & Hi).
  unfold create_action, bind, lift, subscript. rewrite Ha, Hd, Hr, Hi.
  eexists. split; [reflexivity|]. destruct t as [[[? ?] ?] ?].
  repeat split.
Qed.

Lemma create_actions_fields (incident_id : string) (recs : list value)
    (ts : list (string * string * string * string)) (w : World) :
  Forall2 rec_fields recs ts ->
  exists w' new,
    create_actions incident_id recs w = (w', Ok tt) /\
    db_actions w' = (db_actions w ++ new)%list /\
    map action_texts new = ts /\
    Forall (fresh_for incident_id) new /\
    db_incidents w' = db_incidents w /\ db_metrics w' = db_metrics w /\
    db_anomalies w' = db_anomalies w.
Proof.
  intros Hrecs. revert w.
  induction Hrecs as [|v t recs ts Hv _ IH]; intros w.
  - exists w, []. cbn. rewrite app_nil_r. repeat split; auto.
  - destruct (create_action_fields incident_id v t w Hv)
      as (a & Hrun & Htexts & Hfresh & _).
    destruct (IH (with_actions (db_actions w ++ [a])
                    (with_clock_reads (S (clock_reads w))
                       (with_uuid_draws (S (uuid_draws w)) w))))
      as (w' & new & Hloop & Hactions & Hmap & Hall & Hrest).
    exists w', (a :: new). cbn [create_actions]. unfold bind at 1.
    rewrite Hrun, Hloop. split; [reflexivity|].
    rewrite Hactions. cbn [db_actions with_actions]. rewrite <- app_assoc.
    split; [reflexivity|]. split; [cbn; now rewrite Htexts, Hmap|].
    split; [now constructor | exact Hrest].
Qed.

Lemma parse_recommendations_loaded (response : string) (v : value) :
  (0 <= str_find response "["%char < str_rfind response "]"%char + 1)%Z ->
  json_loads (slice response (str_find response "["%char)
                (str_rfind response "]"%char + 1)) = Ok v ->
  parse_recommendations response = v.
Proof.
  intros [Hlo Hhi] Hloads. unfold parse_recommendations.
  apply Z.leb_le in Hlo. apply Z.ltb_lt in Hhi. now rewrite Hlo, Hhi, Hloads.
Qed.

(** X18: when the bracketed span of the reply parses to a list of
    recommendation objects, the handler returns that list, attaches it to
    the incident and appends one action per object, in the order of the
    list: each carries the object's four texts, belongs to the incident, is
    pending and has no approval stamps. *)
Theorem generate_recommendations_parsed
    (incident_id response : string) (d : document) (w : World)
    (recs : list value) (ts : list (string * string * string * string)) :
  find_one (field_is "id" incident_id) (db_incidents w) = Some d ->
  read_fields d ["title"; "service"; "severity"] = Ok tt ->
  (0 <= str_find response "["%char < str_rfind response "]"%char + 1)%Z ->
  json_loads (slice response (str_find response "["%char)
                (str_rfind response "]"%char + 1)) = Ok (VList recs) ->
  Forall2 rec_fields recs ts ->
  exists w' new,
    generate_recommendations incident_id (Ok response) w = (w', Ok (VList recs)) /\
    db_actions w' = (db_actions w ++ new)%list /\
    map action_texts new = ts /\
    Forall (fresh_for incident_id) new /\
    find_one (field_is "id" incident_id) (db_incidents w')
    = Some (<["recommendations" := VList recs]> d).
Proof.
  intros Hfind Hkeys Hspan Hloads Hrecs.
  destruct (generate_recommendations_run incident_id response d w Hfind Hkeys)
    as (coll' & Hf & ->).
  rewrite (parse_recommendations_loaded _ _ Hspan Hloads) in *.
  destruct (create_actions_fields incident_id recs ts (with_incidents coll' w) Hrecs)
    as (w' & new & Hloop & Hactions & Hmap & Hall & Hinc & _).
  exists w', new.
  unfold endpoint, bind, lift, ret, iter_value. rewrite Hloop.
  split; [reflexivity|]. split; [exact Hactions|]. split; [exact Hmap|].
  split; [exact Hall|]. rewrite Hinc. exact Hf.
Qed.

(** X19: the loop does not undo what it did: when an object of the parsed
    list lacks the key [action], the request fails with status 500, yet the
    list is already attached to the incident and the actions of the objects
    before the faulty one stay stored. *)
Theorem generate_recommendations_partial
    (incident_id response : string) (d : document) (w : World)
    (good rest : list value) (broken : document)
    (ts : list (string * string * string * string)) :
  find_one (field_is "id" incident_id) (db_incidents w) = Some d ->
  read_fields d ["title"; "service"; "severity"] = Ok tt ->
  (0 <= str_find response "["%char < str_rfind response "]"%char + 1)%Z ->
  json_loads (slice response (str_find response "["%char)
                (str_rfind response "]"%char + 1))
  = Ok (VList (good ++ VDict broken :: rest)) ->
  Forall2 rec_fields good ts ->
  broken !! "action" = None ->
  exists w' new,
    generate_recommendations incident_id (Ok response) w
    = (w', Raise (HTTPException 500 (StrOf (KeyError "action")))) /\
    db_actions w' = (db_actions w ++ new)%list /\
    map action_texts new = ts /\
    find_one (field_is "id" incident_id) (db_incidents w')
    = Some (<["recommendations" := VList (good ++ VDict broken :: rest)]> d).
Proof.
  intros Hfind Hkeys Hspan Hloads Hgood Hbroken.
  destruct (generate_recommendations_run incident_id response d w Hfind Hkeys)
    as (coll' & Hf & ->).
  rewrite (parse_recommendations_loaded _ _ Hspan Hloads) in *.
  assert (Hloop : forall w0,
             exists w' new,
               create_actions incident_id (good ++ VDict broken :: rest) w0
               = (w', Raise (Exception (KeyError "action"))) /\
               db_actions w' = (db_actions w0 ++ new)%list /\
               map action_texts new = ts /\
               db_incidents w' = db_incidents w0).
  { clear -Hgood Hbroken. induction Hgood as [|v t good ts Hv _ IH]; intros w0.
    - exists w0, []. cbn [app create_actions].
      unfold bind, create_action, lift, subscript. rewrite Hbroken.
      rewrite app_nil_r. repeat split.
    - destruct (create_action_fields incident_id v t w0 Hv)
        as (a & Hrun & Htexts & _).
      destruct (IH (with_actions (db_actions w0 ++ [a])
                      (with_clock_reads (S (clock_reads w0))
                         (with_uuid_draws (S (uuid_draws w0)) w0))))
        as (w' & new & Hloop & Hactions & Hmap & Hinc).
      exists w', (a :: new). rewrite <- app_comm_cons. cbn [create_actions].
      unfold bind at 1. rewrite Hrun, Hloop. split; [reflexivity|].
      rewrite Hactions. cbn [db_actions with_actions]. rewrite <- app_assoc.
      split; [reflexivity|]. split; [cbn; now rewrite Htexts, Hmap|].
      exact Hinc. }
  destruct (Hloop (with_incidents coll' w)) as (w' & new & Hrun & Hactions & Hmap & Hinc).
  exists w', new.
  unfold endpoint, bind, lift, ret, iter_value. rewrite Hrun.
  split; [reflexivity|]. split; [exact Hactions|]. split; [exact Hmap|].
  rewrite Hinc. exact Hf.
Qed.

Lemma find_from_absent (c : ascii) (s : string) (i : Z) :
  ~ occurs c s -> find_from c s i = (-1)%Z.
Proof.
  unfold occurs. revert i. induction s as [|a s IH]; intros i Habsent; [reflexivity|].
  cbn in *. destruct (Ascii.eqb a c) eqn:E.
  - apply Ascii.eqb_eq in E. tauto.
  - apply IH. tauto.
Qed.

Lemma rfind_from_absent (c : ascii) (s : string) (i last : Z) :
  ~ occurs c s -> rfind_from c s i last = last.
Proof.
  unfold occurs. revert i last.
  induction s as [|a s IH]; intros i last Habsent; [reflexivity|].
  cbn in *. destruct (Ascii.eqb a c) eqn:E.
  - apply Ascii.eqb_eq in E. tauto.
  - apply IH. tauto.
Qed.

Lemma find_from_lower (c : ascii) (s : string) (i : Z) :
  (0 <= i)%Z -> (find_from c s i = -1 \/ i <= find_from c s i)%Z.
Proof.
  revert i. induction s as [|a s IH]; intros i Hi; [now left|].
  cbn. destruct (Ascii.eqb a c); [right; lia|].
  destruct (IH (i + 1)%Z ltac:(lia)); [now left | right; lia].
Qed.

(** X20: a reply that lacks an opening bracket, or lacks a closing bracket,
    always yields the three default recommendations; [json.loads] is not
    consulted. *)
Theorem reply_without_brackets_gets_defaults (response : string) :
  ~ occurs "["%char response \/ ~ occurs "]"%char response ->
  parse_recommendations response = VList default_recommendations.
Proof.
  intros Habsent. apply parse_recommendations_no_span.
  unfold str_find, str_rfind. destruct Habsent as [Hopen|Hclose].
  - left. rewrite find_from_absent by exact Hopen. lia.
  - rewrite (rfind_from_absent _ _ _ _ Hclose).
    destruct (find_from_lower "["%char response 0 ltac:(lia)); lia.
Qed.

(** ** Requests for unknown ids *)

(** X21: a request for an incident id that is not stored is answered with
    status 404 by every incident endpoint, before the language model is
    involved, and changes no collection, engine or simulator state (an
    update carrying a resolution marker still reads the clock). *)
Theorem unknown_incident_is_not_found
    (incident_id : string) (updates : document) (reply : result string) (w : World) :
  find_one (field_is "id" incident_id) (db_incidents w) = None ->
  let not_found := HTTPException 404 (Literal "Incident not found") in
  get_incident incident_id w = (w, Raise not_found) /\
  analyze_incident incident_id reply w = (w, Raise not_found) /\
  generate_recommendations incident_id reply w = (w, Raise not_found) /\
  snd (update_incident incident_id updates w) = Raise not_found /\
  differ_in_clock_only w (fst (update_incident incident_id updates w)).
Proof.
  intros Hfind not_found. subst not_found.
  unfold get_incident, analyze_incident, generate_recommendations,
    update_incident, endpoint, bind, find_incident, gets, raise,
    update_incidents.
  rewrite Hfind. split; [reflexivity|]. split; [reflexivity|].
  split; [reflexivity|].
  destruct (marks_resolution updates); unfold now, ret;
    cbn [db_incidents with_clock_reads clock_reads];
    rewrite (update_one_missing _ _ _ Hfind); cbn;
    (split; [reflexivity|]); unfold differ_in_clock_only; destruct w; cbn;
    repeat split.
Qed.

(** X22: a decision on an action id that is not stored is answered with
    status 404 and changes no collection, engine or simulator state. *)
Theorem unknown_action_is_not_found (action_id approved_by : string) (w : World) :
  find_one (has_id action_id) (db_actions w) = None ->
  let not_found := HTTPException 404 (Literal "Action not found") in
  snd (approve_action action_id approved_by w) = Raise not_found /\
  differ_in_clock_only w (fst (approve_action action_id approved_by w)) /\
  snd (reject_action action_id w) = Raise not_found /\
  differ_in_clock_only w (fst (reject_action action_id w)).
Proof.
  intros Hfind not_found. subst not_found.
  unfold approve_action, reject_action, endpoint, bind, now, update_actions,
    find_action, gets, raise.
  cbn [db_actions with_clock_reads clock_reads].
  rewrite !(update_one_missing _ _ _ Hfind). cbn.
  unfold differ_in_clock_only. destruct w; cbn. repeat split.
Qed.

(** ** Decisions and the other actions *)

Lemma has_id_other (i j : string) (a : Action.t) :
  i <> j -> has_id i a = true -> has_id j a = false.
Proof.
  unfold has_id. intros Hne Hi. apply String.eqb_eq in Hi.
  apply String.eqb_neq. congruence.
Qed.

(** X23: a decision concerns the addressed action only: the collection
    keeps its size, every action stored under another id is found as
    before with all its fields, and metrics, anomalies, incidents, the
    engine and the simulator stay as they were. *)
Theorem decisions_touch_one_action (action_id approved_by : string) (w : World) :
  let approved := fst (approve_action action_id approved_by w) in
  let rejected := fst (reject_action action_id w) in
  length (db_actions approved) = length (db_actions w) /\
  length (db_actions rejected) = length (db_actions w) /\
  (forall j, j <> action_id ->
     find_one (has_id j) (db_actions approved) = find_one (has_id j) (db_actions w) /\
     find_one (has_id j) (db_actions rejected) = find_one (has_id j) (db_actions w)) /\
  db_incidents approved = db_incidents w /\ db_incidents rejected = db_incidents w /\
  db_metrics approved = db_metrics w /\ db_metrics rejected = db_metrics w /\
  db_anomalies approved = db_anomalies w /\ db_anomalies rejected = db_anomalies w.
Proof.
  intros approved rejected. subst approved rejected.
  rewrite approve_action_actions, reject_action_actions.
  split; [apply update_one_length|]. split; [apply update_one_length|].
  split.
  - intros j Hj. split; apply update_one_frame; intros x Hx;
      (split; [now apply (has_id_other action_id)|]);
      apply (has_id_other action_id); auto.
  - unfold approve_action, reject_action, endpoint, bind, now, update_actions,
      find_action, gets, raise.
    cbn [db_actions with_clock_reads clock_reads].
    destruct (update_one (has_id action_id) (set_approved _ _) _) as [c1 n1].
    destruct (update_one (has_id action_id) set_rejected _) as [c2 n2].
    destruct n1, n2; cbn; repeat split.
Qed.

Lemma approve_action_clock (action_id approved_by : string) (w : World) :
  clock_reads (fst (approve_action action_id approved_by w)) = S (clock_reads w).
Proof.
  unfold approve_action, endpoint, bind, now, update_actions, find_action,
    gets, raise.
  cbn [db_actions with_clock_reads clock_reads].
  destruct (update_one _ _ _) as [coll n]. now destruct n.
Qed.

(** X28: decisions can be repeated and the last one wins.  A second
    approval replaces approver and time by its own; a second rejection
    changes nothing; an approval after a rejection approves the action as
    if it had never been rejected. *)
Theorem last_decision_wins (action_id first second : string) (w : World) (a : Action.t) :
  find_one (has_id action_id) (db_actions w) = Some a ->
  snd (approve_action action_id second (fst (approve_action action_id first w)))
  = Ok (Some (set_approved second (utcnow (S (clock_reads w))) a)) /\
  reject_action action_id (fst (reject_action action_id w))
  = reject_action action_id w /\
  snd (approve_action action_id second (fst (reject_action action_id w)))
  = Ok (Some (set_approved second (utcnow (clock_reads w)) a)).
Proof.
  intros Hfind. split; [|split].
  - destruct (approve_action_found action_id first w a Hfind) as (w1 & Hrun1 & Hf1).
    destruct (approve_action_found action_id second w1 _ Hf1) as (w2 & Hrun2 & _).
    rewrite Hrun1. cbn [fst]. rewrite Hrun2. cbn [snd].
    replace (clock_reads w1) with (S (clock_reads w)); [reflexivity|].
    rewrite <- (approve_action_clock action_id first w). now rewrite Hrun1.
  - assert (Hupd : update_one (has_id action_id) set_rejected
                     (fst (update_one (has_id action_id) set_rejected (db_actions w)))
                   = update_one (has_id action_id) set_rejected (db_actions w)).
    { apply update_one_idempotent; [auto|reflexivity]. }
    unfold reject_action, endpoint, bind, update_actions, find_action, gets, raise.
    destruct (update_one (has_id action_id) set_rejected (db_actions w))
      as [coll n] eqn:E.
    cbn [fst] in Hupd.
    destruct n as [|n]; cbn [Nat.eqb fst db_actions with_actions];
      rewrite Hupd; cbn [Nat.eqb]; destruct w; reflexivity.
  - destruct (reject_action_found action_id w a Hfind) as (w1 & Hrun1 & Hf1).
    destruct (approve_action_found action_id second w1 _ Hf1) as (w2 & Hrun2 & _).
    rewrite Hrun1. cbn [fst]. rewrite Hrun2. cbn [snd].
    replace (clock_reads w1) with (clock_reads w); [reflexivity|].
    transitivity (clock_reads (fst (reject_action action_id w)));
      [|now rewrite Hrun1].
    unfold reject_action, endpoint, bind, update_actions, find_action, gets, raise.
    destruct (update_one _ _ _) as [coll n]. now destruct n.
Qed.

(** ** Listing actions *)

#[local] Instance newest_action_first_total : Total newest_action_first.
Proof. intros a b. unfold newest_action_first. lia. Qed.

#[local] Instance newest_action_first_trans : Transitive newest_action_first.
Proof. intros a b c. unfold newest_action_first. lia. Qed.

#[local] Existing Instance newest_action_first_dec.

(** X24: [get_actions] changes nothing and returns at most 100 stored
    actions, newest first, each satisfying every condition given by a
    non-empty parameter; an empty parameter filters nothing; when no more
    than 100 actions qualify, all of them are returned. *)
Theorem get_actions_listing (incident_id status : option string) (w : World) :
  exists listed,
    get_actions incident_id status w = (w, Ok listed) /\
    (length listed <= 100)%nat /\
    StronglySorted newest_action_first listed /\
    (forall a, a ∈ listed ->
       a ∈ db_actions w /\
       (forall i, incident_id = Some i -> i <> "" -> Action.incident_id a = i) /\
       (forall s, status = Some s -> s <> "" -> Action.status a = s)) /\
    ((length (db_actions w) <= 100)%nat ->
     forall a, a ∈ db_actions w ->
       (forall i, incident_id = Some i -> Action.incident_id a = i) ->
       (forall s, status = Some s -> Action.status a = s) ->
       a ∈ listed) /\
    get_actions (Some "") status w = get_actions None status w /\
    get_actions incident_id (Some "") w = get_actions incident_id None w.
Proof.
  set (matching := filter (fun a => Is_true (action_query incident_id status a))
                     (db_actions w)).
  exists (take 100 (merge_sort newest_action_first matching)).
  split; [reflexivity|].
  pose proof (merge_sort_Permutation newest_action_first matching) as Hperm.
  split; [rewrite length_take; lia|]. split.
  { apply (StronglySorted_app_1_l _ _
             (drop 100 (merge_sort newest_action_first matching))).
    rewrite take_drop. apply StronglySorted_merge_sort; apply _. }
  split.
  { intros a Ha. apply elem_of_take in Ha as (k & Ha & _).
    apply list_elem_of_lookup_2 in Ha. rewrite Hperm in Ha.
    apply list_elem_of_filter in Ha as [Hq Hin]. apply Is_true_true in Hq.
    unfold action_query in Hq. apply andb_true_iff in Hq as [Hi Hs].
    split; [exact Hin|]. split.
    - intros i -> Hne. apply String.eqb_neq in Hne. rewrite Hne in Hi.
      now apply String.eqb_eq.
    - intros s -> Hne. apply String.eqb_neq in Hne. rewrite Hne in Hs.
      now apply String.eqb_eq. }
  split.
  { intros Hsmall a Hin Hi Hs.
    rewrite take_ge.
    - rewrite Hperm. apply list_elem_of_filter. split; [|exact Hin].
      apply Is_true_true. unfold action_query. apply andb_true_iff. split.
      + destruct incident_id as [i|]; [|reflexivity].
        destruct (String.eqb i ""); [reflexivity|].
        apply String.eqb_eq. now apply Hi.
      + destruct status as [s|]; [|reflexivity].
        destruct (String.eqb s ""); [reflexivity|].
        apply String.eqb_eq. now apply Hs.
    - rewrite (Permutation_length Hperm). unfold matching.
      pose proof (length_filter (fun a => Is_true (action_query incident_id status a))
                    (db_actions w)). lia. }
  split; reflexivity.
Qed.

(** ** The dashboard *)

(** X25: [get_dashboard_stats] only reads: apart from one clock reading the
    world is unchanged.  [pending_actions] is the number of actions whose
    status is pending, [recent_anomalies] the number of anomalies stamped
    within the 24 hours before that clock reading, the services of the
    entries of [service_health] form a sublist of the monitored services
    (at most one entry per listed service, in the order of the list), and
    the engine is reported as trained exactly when it is. *)
Theorem dashboard_is_read_only (w : World) :
  exists w' stats,
    get_dashboard_stats w = (w', Ok stats) /\
    differ_in_clock_only w w' /\
    clock_reads w' = S (clock_reads w) /\
    pending_actions stats
    = length (filter (fun a => Action.status a = "pending") (db_actions w)) /\
    recent_anomalies stats
    = length (filter (fun a => (utcnow (clock_reads w) - 86400000000
                                <= Anomaly.timestamp a)%Z) (db_anomalies w)) /\
    sublist (map sh_service (service_health stats)) (services (data_simulator w)) /\
    (length (service_health stats) <= length (services (data_simulator w)))%nat /\
    (anomaly_detector_status stats = "trained" <->
     is_trained (anomaly_detector w) = true).
Proof.
  unfold get_dashboard_stats, endpoint, bind, gets, now, ret.
  do 2 eexists. split; [reflexivity|].
  cbn [db_actions db_anomalies db_metrics data_simulator anomaly_detector
       with_clock_reads clock_reads pending_actions recent_anomalies
       service_health anomaly_detector_status].
  split; [unfold differ_in_clock_only; destruct w; cbn; repeat split|].
  split; [reflexivity|]. split.
  { unfold count_documents. f_equal. apply list_filter_iff. intros a.
    rewrite Is_true_true. apply String.eqb_eq. }
  split.
  { unfold count_documents, hours. f_equal. apply list_filter_iff. intros a.
    rewrite Is_true_true. change (24 * 3600000000)%Z with 86400000000%Z.
    apply Z.leb_le. }
  split.
  { apply omap_sublist. intros service entry.
    destruct (latest_metric service (db_metrics w)); [|discriminate].
    now intros [= <-]. }
  split; [apply omap_length_le|].
  destruct (is_trained (anomaly_detector w)); split; auto; discriminate.
Qed.

(** X26: the health of a sample is critical exactly when cpu or memory
    exceeds 80 or the error rate exceeds 10; healthy exactly when cpu and
    memory are at most 60 and the error rate at most 5; warning otherwise.
    Latency and request rate play no part. *)
Theorem health_of_thresholds (m : SystemMetric.t) :
  (health_of m = "critical" <->
   (80 < SystemMetric.cpu m \/ 80 < SystemMetric.memory m \/
    10 < SystemMetric.error_rate m)%Q) /\
  (health_of m = "healthy" <->
   (SystemMetric.cpu m <= 60 /\ SystemMetric.memory m <= 60 /\
    SystemMetric.error_rate m <= 5)%Q) /\
  (health_of m = "warning" <-> health_of m <> "critical" /\ health_of m <> "healthy").
Proof.
  unfold health_of.
  set (critical := Qltb 80 (SystemMetric.cpu m) || Qltb 80 (SystemMetric.memory m)
                   || Qltb 10 (SystemMetric.error_rate m)).
  set (warning := Qltb 60 (SystemMetric.cpu m) || Qltb 60 (SystemMetric.memory m)
                  || Qltb 5 (SystemMetric.error_rate m)).
  assert (Hcritical : critical = true <->
            (80 < SystemMetric.cpu m \/ 80 < SystemMetric.memory m \/
             10 < SystemMetric.error_rate m)%Q).
  { subst critical. rewrite !orb_true_iff, !Qltb_lt. tauto. }
  assert (Hcalm : warning = false <->
            (SystemMetric.cpu m <= 60 /\ SystemMetric.memory m <= 60 /\
             SystemMetric.error_rate m <= 5)%Q).
  { subst warning. rewrite !orb_false_iff, !Qltb_ge. tauto. }
  destruct critical eqn:Ec.
  - destruct (proj1 Hcritical eq_refl) as [Hc|[Hc|Hc]];
      (split; [tauto|]); (split; [|split; [discriminate | intros [Hne _]; congruence]]);
      (split; [discriminate|]); intros (? & ? & ?); lra.
  - assert (Hnot : ~ (80 < SystemMetric.cpu m \/ 80 < SystemMetric.memory m \/
                      10 < SystemMetric.error_rate m)%Q)
      by (intros Hc; apply Hcritical in Hc; discriminate).
    destruct warning eqn:Ew.
    + split; [split; [discriminate | tauto]|].
      split; [split; [discriminate|]|].
      * intros Hcalm'. apply Hcalm in Hcalm'. discriminate.
      * split; [intros _; split; discriminate | reflexivity].
    + split; [split; [discriminate | tauto]|].
      split; [split; [intros _; now apply Hcalm | reflexivity]|].
      split; [discriminate | intros [_ Hne]; congruence].
Qed.

(** ** The server as a whole *)

Definition frames {A} (m : M A) : Prop := forall w, engine_frame w (fst (m w)).

Lemma engine_frame_refl (w : World) : engine_frame w w.
Proof. unfold engine_frame. auto. Qed.

Lemma engine_frame_trans (w1 w2 w3 : World) :
  engine_frame w1 w2 -> engine_frame w2 w3 -> engine_frame w1 w3.
Proof.
  unfold engine_frame. intros (-> & -> & -> & ?) (-> & -> & -> & ?).
  repeat split; lia.
Qed.

Lemma frames_ret {A} (a : A) : frames (ret a).
Proof. intros w. apply engine_frame_refl. Qed.

Lemma frames_raise {A} (r : raised) : frames (@raise _ A r).
Proof. intros w. apply engine_frame_refl. Qed.

Lemma frames_gets {A} (f : World -> A) : frames (gets f).
Proof. intros w. apply engine_frame_refl. Qed.

Lemma frames_lift {A} (r : result A) : frames (lift r).
Proof. intros w. apply engine_frame_refl. Qed.

Lemma frames_now : frames now.
Proof. intros w. unfold engine_frame. cbn. repeat split; lia. Qed.

Lemma frames_new_uuid : frames new_uuid.
Proof. intros w. unfold engine_frame. cbn. repeat split; lia. Qed.

Lemma frames_modify (f : World -> World) :
  (forall w, engine_frame w (f w)) -> frames (modify f).
Proof. intros Hf w. apply Hf. Qed.

Lemma frames_bind {A B} (m : M A) (k : A -> M B) :
  frames m -> (forall a, frames (k a)) -> frames (bind m k).
Proof.
  intros Hm Hk w. unfold bind. specialize (Hm w).
  destruct (m w) as [w' [a|r]]; cbn [fst] in *; [|exact Hm].
  eapply engine_frame_trans; [exact Hm | apply Hk].
Qed.

Lemma frames_endpoint {A} (body : M A) : frames body -> frames (endpoint body).
Proof.
  intros Hb w. unfold endpoint. specialize (Hb w).
  destruct (body w) as [w' [a|[e|c d]]]; exact Hb.
Qed.

Lemma frames_update_incidents (incident_id : string) (set : document -> document) :
  frames (update_incidents incident_id set).
Proof.
  intros w. unfold update_incidents. destruct (update_one _ _ _).
  unfold engine_frame. cbn. auto.
Qed.

Lemma frames_update_actions (action_id : string) (set : Action.t -> Action.t) :
  frames (update_actions action_id set).
Proof.
  intros w. unfold update_actions. destruct (update_one _ _ _).
  unfold engine_frame. cbn. auto.
Qed.

Ltac frame_step :=
  lazymatch goal with
  | |- frames (bind _ _) => apply frames_bind; [|intros ?]
  | |- frames (endpoint _) => apply frames_endpoint
  | |- frames (ret _) => apply frames_ret
  | |- frames (raise _) => apply frames_raise
  | |- frames (gets _) => apply frames_gets
  | |- frames (lift _) => apply frames_lift
  | |- frames now => apply frames_now
  | |- frames new_uuid => apply frames_new_uuid
  | |- frames (update_incidents _ _) => apply frames_update_incidents
  | |- frames (update_actions _ _) => apply frames_update_actions
  | |- frames (find_incident _) => apply frames_gets
  | |- frames (find_action _) => apply frames_gets
  | |- frames (modify _) =>
      apply frames_modify; intros ?; unfold engine_frame; cbn; auto
  | |- frames (if ?b then _ else _) => destruct b
  | |- frames (match ?o with Some _ => _ | None => _ end) => destruct o
  end.

Lemma frames_create_actions (incident_id : string) (recs : list value) :
  frames (create_actions incident_id recs).
Proof.
  induction recs as [|rec recs IH]; [apply frames_ret|].
  cbn [create_actions]. apply frames_bind; [|intros _; exact IH].
  unfold create_action. repeat frame_step.
Qed.

Lemma engine_frame_keeps_sound (w w' : World) :
  engine_frame w w' -> store_sound w -> store_sound w'.
Proof.
  intros (Hm & Hd & Hs & Hc) (Hstore & Hbase & Hsim & Hclock).
  unfold store_sound, clock_past_failure_start. rewrite Hm, Hd, Hs.
  split; [exact Hstore|]. split; [exact Hbase|]. split; [exact Hsim|].
  intros start Hstart k Hk. apply (Hclock start Hstart). lia.
Qed.

Lemma requests_frame :
  (forall incident, frames (create_incident incident)) /\
  (forall i u, frames (update_incident i u)) /\
  (forall i r, frames (analyze_incident i r)) /\
  (forall i r, frames (generate_recommendations i r)) /\
  (forall i b, frames (approve_action i b)) /\
  (forall i, frames (reject_action i)) /\
  frames get_dashboard_stats.
Proof.
  split; [|split; [|split; [|split; [|split; [|split]]]]].
  - intros incident. unfold create_incident. repeat frame_step.
  - intros i u. unfold update_incident. repeat frame_step.
  - intros i r. unfold analyze_incident. repeat frame_step.
  - intros i r. unfold generate_recommendations. repeat frame_step.
    apply frames_create_actions.
  - intros i b. unfold approve_action. repeat frame_step.
  - intros i. unfold reject_action. repeat frame_step.
  - unfold get_dashboard_stats. repeat frame_step.
Qed.

Lemma detect_anomalies_frame (w : World) :
  store_sound w -> engine_frame w (fst (detect_anomalies w)).
Proof.
  intros (Hstore & Hbase & _).
  destruct (detect_anomalies_run w Hstore Hbase)
    as (w' & detected & Hrun & _ & _ & Hm & _ & _ & Hd & Hs & Hc).
  rewrite Hrun. cbn [fst]. unfold engine_frame. repeat split; auto. lia.
Qed.

Lemma retrain_cycle_frame (w : World) :
  db_metrics (train_anomaly_detector_cycle w) = db_metrics w /\
  data_simulator (train_anomaly_detector_cycle w) = data_simulator w /\
  clock_reads (train_anomaly_detector_cycle w) = clock_reads w.
Proof.
  unfold train_anomaly_detector_cycle.
  destruct (50 <? _)%nat; [|auto]. destruct (train _ _); cbn; auto.
Qed.

(** X27: soundness of the store is an invariant of the server: with random
    draws in [0, 1) and a clock that never runs backwards, every background
    cycle and every request keeps stored gauges non-negative, the baseline
    well formed and the simulator consistent.  Hence, after any sequence of
    such steps from a sound world, the detection pass succeeds. *)
Theorem server_keeps_store_sound (w w' : World) :
  (forall k, (0 <= random_draw k < 1)%Q) ->
  (forall i j, (i <= j)%nat -> (utcnow i <= utcnow j)%Z) ->
  store_sound w ->
  rtc server_step w w' ->
  store_sound w' /\
  exists w'' detected,
    detect_anomalies w' = (w'', Ok (length detected, detected)).
Proof.
  intros Hrand Hmono Hsound Hsteps.
  assert (Hinv : store_sound w').
  { induction Hsteps as [|w1 w2 w3 Hstep _ IH]; [exact Hsound|].
    apply IH. clear IH. pose proof Hsound as Hsound'.
    destruct Hsound as (Hstore & Hbase & Hsim & Hclock).
    destruct requests_frame as (Hc & Hu & Ha & Hr & Hap & Hrj & Hdash).
    destruct Hstep.
    - destruct (feed_loop_total (services (data_simulator w1)) n w1 Hrand Hclock)
        as (new & n' & w1' & Hloop & Hmetrics & _ & Hnonneg & Hticks
            & _ & _ & _ & Hdet & Hs).
      { intros Hmode. now destruct (Hsim Hmode). }
      unfold simulate_metrics_stream_cycle, bind, gets. rewrite Hloop. cbn [fst].
      unfold store_sound, clock_past_failure_start. rewrite Hdet, Hs, Hmetrics.
      split; [now apply Forall_app|]. split; [exact Hbase|]. split; [exact Hsim|].
      intros start Hstart k Hk. apply (Hclock start Hstart). lia.
    - destruct (retrain_cycle_frame w1) as (Hm & Hs & Hc').
      unfold store_sound, clock_past_failure_start. rewrite Hm, Hs, Hc'.
      split; [exact Hstore|].
      split; [now apply retrain_baseline_well_formed|]. auto.
    - apply (engine_frame_keeps_sound w1).
      + now apply detect_anomalies_frame.
      + exact Hsound'.
    - pose proof (inject_failure_consistent service w1 Hsim) as Hinj.
      unfold store_sound. split; [|split; [|split; [exact Hinj|]]].
      + revert Hstore. unfold inject_failure, DataSimulator_inject_failure,
          bind, gets, raise, now, modify, ret.
        now destruct (negb _).
      + revert Hbase. unfold inject_failure, DataSimulator_inject_failure,
          bind, gets, raise, now, modify, ret.
        now destruct (negb _).
      + revert Hclock. unfold clock_past_failure_start, inject_failure,
          DataSimulator_inject_failure, bind, gets, raise, now, modify, ret.
        destruct (negb _); [auto|]. cbn. intros _ start [= <-] k Hk.
        apply Hmono. lia.
    - unfold store_sound, clock_past_failure_start, simulator_consistent,
        clear_failure, DataSimulator_clear_failure, bind, modify, ret. cbn.
      split; [exact Hstore|]. split; [exact Hbase|].
      split; discriminate.
    - apply (engine_frame_keeps_sound w1); [apply Hc|].
      exact Hsound'.
    - apply (engine_frame_keeps_sound w1); [apply Hu|].
      exact Hsound'.
    - apply (engine_frame_keeps_sound w1); [apply Ha|].
      exact Hsound'.
    - apply (engine_frame_keeps_sound w1); [apply Hr|].
      exact Hsound'.
    - apply (engine_frame_keeps_sound w1); [apply Hap|].
      exact Hsound'.
    - apply (engine_frame_keeps_sound w1); [apply Hrj|].
      exact Hsound'.
    - apply (engine_frame_keeps_sound w1); [apply Hdash|].
      exact Hsound'. }
  split; [exact Hinv|].
  destruct Hinv as (Hstore & Hbase & _).
  destruct (detect_anomalies_run w' Hstore Hbase) as (w'' & detected & Hrun & _).
  eauto.
Qed.
End Coverage.

(** ** Concrete runs that separate the code from the specification *)

#[local] Existing Instance sample_external.
#[local] Existing Instance exact_arith.

(** C1: an approved action that is then rejected ends up rejected, and keeps
    the stamps of the approval. *)
Lemma reject_reverts_approved :
  let w1 := fst (approve_action "A" "alice" world_with_action) in
  let w2 := fst (reject_action "A" w1) in
  Action.status <$> find_one (has_id "A") (db_actions w1) = Some "approved" /\
  Action.status <$> find_one (has_id "A") (db_actions w2) = Some "rejected" /\
  Action.approved_by <$> find_one (has_id "A") (db_actions w2)
  = Some (Some "alice") /\
  Action.executed_at <$> find_one (has_id "A") (db_actions w2) = Some (Some 0).
Proof. vm_compute. repeat split. Qed.

(** C2: setting the status to resolved leaves [resolved_at] null; a
    resolution marker sets [resolved_at] on an incident that is still open,
    and a second marker replaces the first time. *)
Lemma resolved_at_ignores_status :
  let r1 := snd (update_incident "A" {["status" := VStr "resolved"]} incident_world) in
  let marked := update_incident "A" {["resolved_at" := VBool true]} incident_world in
  let again := update_incident "A" {["resolved_at" := VBool true]} (fst marked) in
  returned_field r1 "status" = Some (VStr "resolved") /\
  returned_field r1 "resolved_at" = Some VNull /\
  returned_field (snd marked) "status" = Some (VStr "open") /\
  returned_field (snd marked) "resolved_at" = Some (VTime 1000) /\
  returned_field (snd again) "resolved_at" = Some (VTime 2000).
Proof. vm_compute. repeat split. Qed.

(** Which dimension is reported follows the arithmetic of the quotients:
    where rounding makes the deviations of cpu and memory equal, the first
    of them, cpu, is reported; without rounding the deviation of memory,
    [1 / 3], exceeds that of cpu, [0.333], and memory is reported. *)
Lemma attribution_follows_rounding :
  let bd := [0; 2; 100; 1; 300]%Q in
  let features := [0.333; 3; 100; 1; 300]%Q in
  (exists a, attribute (FA := truncating_arith) bd features = Ok a /\
             anomalous_metric a = "cpu") /\
  (exists a, attribute (FA := exact_arith) bd features = Ok a /\
             anomalous_metric a = "memory").
Proof. split; eexists; split; vm_compute; reflexivity. Qed.

(** C3: a reply whose bracketed span does not parse yields the one-item
    list, and one action. *)
Lemma unparsable_span_single_action :
  let response := "Try this: [oops]" in
  let run := generate_recommendations "A" (Ok response) incident_world in
  slice response (str_find response "["%char) (str_rfind response "]"%char + 1)
  = "[oops]" /\
  json_loads "[oops]" = Raise (Exception JSONDecodeError) /\
  snd run = Ok (VList except_recommendations) /\
  length (db_actions (fst run)) = 1%nat /\
  length except_recommendations = 1%nat /\
  length default_recommendations = 3%nat.
Proof. vm_compute. repeat split. Qed.

(** C4: exactly 20 samples do not train the engine. *)
Lemma twenty_samples_do_not_train :
  let data := repeat [30; 40; 100; 1; 300]%Q 20 in
  length data = 20%nat /\
  fit data = Ok tt /\
  train AnomalyDetector_init data = Ok AnomalyDetector_init /\
  is_trained AnomalyDetector_init = false.
Proof. vm_compute. repeat split. Qed.

(** C8: with exactly 50 samples in the window the cycle does not retrain. *)
Lemma fifty_samples_do_not_retrain :
  let w := world_with_metrics 50 in
  length (recent_window w) = 50%nat /\
  fit (map features_of (recent_window w)) = Ok tt /\
  train_anomaly_detector_cycle w = w /\
  is_trained (anomaly_detector (train_anomaly_detector_cycle w)) = false.
Proof. vm_compute. repeat split. Qed.

(** ** The theorems at concrete inputs *)

Lemma train_threshold_witness :
  let few := repeat [30; 40; 100; 1; 300]%Q 20 in
  let many := repeat [30; 40; 100; 1; 300]%Q 21 in
  (length few <= 20)%nat /\
  train AnomalyDetector_init few = Ok AnomalyDetector_init /\
  (20 < length many)%nat /\
  fit many = Ok tt /\
  train AnomalyDetector_init many
  = Ok {| model := Some tt; is_trained := true;
          baseline_data := np_mean_axis0 many |}.
Proof.
  intros few many.
  assert (Hfew : (length few <= 20)%nat) by (vm_compute; lia).
  assert (Hmany : (20 < length many)%nat) by (vm_compute; lia).
  assert (Hfit : fit many = Ok tt) by reflexivity.
  split; [exact Hfew|].
  split; [exact (proj1 (train_threshold AnomalyDetector_init few) Hfew)|].
  split; [exact Hmany|]. split; [exact Hfit|].
  exact (proj1 (proj1 (proj2 (train_threshold AnomalyDetector_init many) Hmany)
                  tt Hfit)).
Defined.

Lemma retrain_cycle_threshold_witness :
  let w := world_with_metrics 51 in
  (50 < length (db_metrics w))%nat /\
  fit (map features_of (recent_window w)) = Ok tt /\
  train_anomaly_detector_cycle w
  = with_detector
      {| model := Some tt; is_trained := true;
         baseline_data := np_mean_axis0 (map features_of (recent_window w)) |} w.
Proof.
  intros w.
  assert (Hlen : (50 < length (db_metrics w))%nat) by (vm_compute; lia).
  assert (Hfit : fit (map features_of (recent_window w)) = Ok tt) by reflexivity.
  split; [exact Hlen|]. split; [exact Hfit|].
  exact (proj1 (proj2 (proj2 (proj2 (proj2 (retrain_cycle_threshold w)))) Hlen)
           tt Hfit).
Defined.

Lemma attribution_reports_max_deviation_witness :
  let bd := baseline_data (anomaly_detector trained_world) in
  let features := features_of spike_metric in
  length bd = 5%nat /\
  Forall (fun b => ~ (fadd b 1 == 0)%Q) bd /\
  exists w' an k,
    report_anomaly "api-gateway" spike_metric features 0.9%Q trained_world
    = (w', Ok an) /\
    db_anomalies w' = (db_anomalies trained_world ++ [an])%list /\
    is_first_max (zip_with relative_deviation features bd) k /\
    metric_names !! k = Some (Anomaly.metric_type an) /\
    Anomaly.value an = nth k features 0%Q /\
    Anomaly.baseline an = nth k bd 0%Q.
Proof.
  intros bd features.
  assert (Hlen : length bd = 5%nat) by reflexivity.
  assert (Hall : Forall (fun b => ~ (fadd b 1 == 0)%Q) bd)
    by (repeat constructor; intros E; vm_compute in E; discriminate E).
  split; [exact Hlen|]. split; [exact Hall|].
  exact (proj1 (attribution_reports_max_deviation
                  "api-gateway" spike_metric 0.9%Q trained_world) Hlen Hall).
Defined.

Lemma inject_failure_validates_witness :
  ("database" ∈ services (data_simulator sample_world)) /\
  ("mainframe" ∉ services (data_simulator sample_world)) /\
  (exists w' response,
     inject_failure "database" sample_world = (w', Ok response) /\
     failure_mode (data_simulator w') = true /\
     failure_service (data_simulator w') = Some "database") /\
  (exists d, inject_failure "mainframe" sample_world
             = (sample_world, Raise (HTTPException 400 d))).
Proof.
  assert (Hin : "database" ∈ services (data_simulator sample_world))
    by (apply existsb_eqb_elem_of; reflexivity).
  assert (Hout : "mainframe" ∉ services (data_simulator sample_world))
    by (intros Hm; apply existsb_eqb_elem_of in Hm; discriminate Hm).
  split; [exact Hin|]. split; [exact Hout|]. split.
  - destruct (proj2 (inject_failure_validates "database" sample_world) Hin)
      as (w' & response & Hrun & _ & _ & Hsim & _).
    exists w', response. split; [exact Hrun|]. rewrite Hsim. split; reflexivity.
  - eexists. exact (proj1 (inject_failure_validates "mainframe" sample_world) Hout).
Defined.

Lemma dashboard_counts_open_only_witness :
  let w := with_incidents (db_incidents incident_world ++ [investigating_incident])
             incident_world in
  has_status "investigating" investigating_incident /\
  exists stats stats',
    snd (get_dashboard_stats w) = Ok stats /\
    snd (get_dashboard_stats incident_world) = Ok stats' /\
    total_incidents stats = S (total_incidents stats') /\
    active_incidents stats = active_incidents stats'.
Proof.
  intros w.
  assert (Hst : has_status "investigating" investigating_incident) by reflexivity.
  split; [exact Hst|].
  destruct (dashboard_counts_open_only w) as (w' & stats & Hrun & _ & _ & Hdrop).
  destruct (Hdrop (db_incidents incident_world) investigating_incident [] eq_refl Hst)
    as (w'' & stats' & Hrun' & Htotal & Hactive).
  exists stats, stats'. rewrite Hrun. split; [reflexivity|].
  split; [|split; assumption].
  transitivity (snd (get_dashboard_stats
                       (with_incidents (db_incidents incident_world ++ []) w)));
    [reflexivity | now rewrite Hrun'].
Defined.

Lemma action_decisions_witness :
  find_one (has_id "A") (db_actions world_with_action) = Some sample_action /\
  (exists w' a',
     approve_action "A" "alice" world_with_action = (w', Ok (Some a')) /\
     find_one (has_id "A") (db_actions w') = Some a' /\
     Action.status a' = "approved" /\
     Action.approved_by a' = Some "alice" /\
     Action.executed_at a' = Some (utcnow (clock_reads world_with_action))) /\
  Forall stamps_consistent (db_actions world_with_action) /\
  Forall stamps_consistent (db_actions (fst (reject_action "A" world_with_action))).
Proof.
  assert (Hfind : find_one (has_id "A") (db_actions world_with_action)
                  = Some sample_action) by reflexivity.
  assert (Hinv : Forall stamps_consistent (db_actions world_with_action)).
  { constructor; [|constructor].
    split; [intros E; discriminate E | intros _; split; reflexivity]. }
  split; [exact Hfind|].
  split; [exact (proj1 (action_decisions "A" "alice" world_with_action) _ Hfind)|].
  split; [exact Hinv|].
  exact (proj2 (proj2 (proj2 (action_decisions "A" "alice" world_with_action)) Hinv)).
Defined.

Lemma update_incident_resolved_at_witness :
  let updates : document := {["resolved_at" := VBool true]} in
  let d := incident_document "A" 0 sample_incident in
  find_one (field_is "id" "A") (db_incidents incident_world) = Some d /\
  updates !! "id" = None /\
  plain_update updates /\
  marks_resolution updates = true /\
  exists w' d',
    update_incident "A" updates incident_world = (w', Ok (Some d')) /\
    d' !! "resolved_at" = Some (VTime (utcnow (clock_reads incident_world))).
Proof.
  intros updates d.
  assert (Hfind : find_one (field_is "id" "A") (db_incidents incident_world)
                  = Some d) by reflexivity.
  assert (Hid : updates !! "id" = None) by reflexivity.
  assert (Hplain : plain_update updates).
  { split; [apply insert_non_empty|].
    apply map_Forall_singleton. reflexivity. }
  assert (Hmark : marks_resolution updates = true) by reflexivity.
  split; [exact Hfind|]. split; [exact Hid|]. split; [exact Hplain|].
  split; [exact Hmark|].
  destruct (update_incident_resolved_at "A" updates d incident_world Hfind Hid
              Hplain)
    as (w' & d' & Hrun & _ & Hres & _).
  exists w', d'. split; [exact Hrun | exact (Hres Hmark)].
Defined.

Lemma recommendation_fallbacks_witness :
  let plain := "I cannot help with that." in
  let broken := "Try this: [oops]" in
  let d := incident_document "A" 0 sample_incident in
  find_one (field_is "id" "A") (db_incidents incident_world) = Some d /\
  read_fields d ["title"; "service"; "severity"] = Ok tt /\
  (str_find plain "["%char < 0)%Z /\
  (exists w',
     generate_recommendations "A" (Ok plain) incident_world
     = (w', Ok (VList default_recommendations)) /\
     length (db_actions w') = 3%nat) /\
  (0 <= str_find broken "["%char < str_rfind broken "]"%char + 1)%Z /\
  (exists w',
     generate_recommendations "A" (Ok broken) incident_world
     = (w', Ok (VList except_recommendations)) /\
     length (db_actions w') = 1%nat).
Proof.
  intros plain broken d.
  assert (Hfind : find_one (field_is "id" "A") (db_incidents incident_world)
                  = Some d) by reflexivity.
  assert (Hkeys : read_fields d ["title"; "service"; "severity"] = Ok tt)
    by reflexivity.
  assert (Hplain : (str_find plain "["%char < 0)%Z) by reflexivity.
  assert (Hbroken : (0 <= str_find broken "["%char
                     < str_rfind broken "]"%char + 1)%Z)
    by (vm_compute; split; [discriminate | reflexivity]).
  split; [exact Hfind|]. split; [exact Hkeys|]. split; [exact Hplain|].
  split; [|split; [exact Hbroken|]].
  - destruct (proj1 (recommendation_fallbacks "A" plain d incident_world
                       Hfind Hkeys)
                (or_introl Hplain)) as (w' & Hrun & _ & Hactions & _).
    exists w'. split; [exact Hrun|]. rewrite Hactions. reflexivity.
  - destruct (proj2 (recommendation_fallbacks "A" broken d incident_world
                       Hfind Hkeys)
                Hbroken (Exception JSONDecodeError) eq_refl)
      as (w' & Hrun & Hactions & _).
    exists w'. split; [exact Hrun|]. rewrite Hactions. reflexivity.
Defined.

Lemma severity_thresholds_witness :
  (0.8 < 0.85)%Q /\ severity_of 0.85 = "critical" /\
  ((0.6 < 0.7)%Q /\ (0.7 <= 0.8)%Q) /\ severity_of 0.7 = "high" /\
  (0.4 <= 0.6)%Q /\ severity_of 0.4 = "medium" /\
  exists w' a,
    report_anomaly "api-gateway" spike_metric (features_of spike_metric)
      0.85%Q trained_world = (w', Ok a) /\
    Anomaly.severity a = "critical".
Proof.
  assert (H1 : (0.8 < 0.85)%Q) by reflexivity.
  assert (H2 : (0.6 < 0.7)%Q /\ (0.7 <= 0.8)%Q) by (split; [reflexivity | discriminate]).
  assert (H3 : (0.4 <= 0.6)%Q) by discriminate.
  split; [exact H1|]. split; [exact (proj1 (severity_thresholds 0.85) H1)|].
  split; [exact H2|]. split; [exact (proj1 (proj2 (severity_thresholds 0.7)) H2)|].
  split; [exact H3|].
  split; [exact (proj1 (proj2 (proj2 (severity_thresholds 0.4))) H3)|].
  destruct (report_anomaly "api-gateway" spike_metric (features_of spike_metric)
              0.85%Q trained_world) as [w' [a|r]] eqn:E.
  - exists w', a. split; [reflexivity|].
    rewrite (proj2 (proj2 (proj2 (proj2 (proj2 (severity_thresholds 0.85)))))
               _ _ _ _ _ _ E).
    exact (proj1 (severity_thresholds 0.85) H1).
  - exfalso. vm_compute in E. discriminate E.
Defined.

Lemma detect_neutral_default_witness :
  let fresh := @AnomalyDetector_init sample_external in
  let broken := @mkDetector failing_external (Some tt) true [30; 40; 100; 1; 300]%Q in
  let sample := [95; 95; 950; 45; 60]%Q in
  is_trained fresh = false /\
  detect fresh sample = (false, 0.5%Q) /\
  model broken = Some tt /\
  @predict failing_external tt sample = Raise (Exception ValueError) /\
  detect broken sample = (false, 0.5%Q).
Proof.
  intros fresh broken sample.
  assert (Hfresh : is_trained fresh = false) by reflexivity.
  assert (Hmodel : model broken = Some tt) by reflexivity.
  assert (Hraise : @predict failing_external tt sample
                   = Raise (Exception ValueError)) by reflexivity.
  split; [exact Hfresh|].
  split; [exact (proj1 (detect_neutral_default fresh sample) Hfresh)|].
  split; [exact Hmodel|]. split; [exact Hraise|].
  exact (proj1 (proj2 (proj2 (@detect_neutral_default failing_external broken sample)))
           tt _ Hmodel Hraise).
Defined.

(** ** The further properties at concrete inputs *)

Lemma sample_draws_in_range : forall k, (0 <= @random_draw sample_entropy k < 1)%Q.
Proof. intros k. cbn. split; [discriminate | reflexivity]. Qed.

Lemma sample_clock_after : clock_past_failure_start database_failure_world.
Proof. intros start [= <-] k _. cbn. lia. Qed.

Lemma retrain_keeps_trained_witness :
  is_trained (anomaly_detector trained_store) = true /\
  is_trained (anomaly_detector (train_anomaly_detector_cycle trained_store)) = true.
Proof.
  assert (Ht : is_trained (anomaly_detector trained_store) = true) by reflexivity.
  split; [exact Ht|].
  exact (proj1 (retrain_keeps_trained trained_store Ht)).
Defined.

Lemma detect_positive_only_when_scored_witness :
  let self := anomaly_detector trained_store in
  let sample := [95; 95; 950; 45; 60]%Q in
  fst (detect self sample) = true /\
  is_trained self = true /\
  exists m score,
    model self = Some m /\ predict m sample = Ok (-1) /\
    score_samples m sample = Ok score /\
    snd (detect self sample) = (1 / (1 + np_exp score))%Q.
Proof.
  intros self sample.
  assert (Hpos : fst (detect self sample) = true) by reflexivity.
  split; [exact Hpos|].
  exact (detect_positive_only_when_scored self sample Hpos).
Defined.

Lemma detect_confidence_range_witness :
  (forall s, (0 < @np_exp sample_external s)%Q) /\
  (0 < snd (detect (anomaly_detector trained_store) [95; 95; 950; 45; 60]%Q) < 1)%Q.
Proof.
  assert (Hexp : forall s, (0 < @np_exp sample_external s)%Q).
  { intros s. change (0 < 1 + s + s * s / 2)%Q.
    assert (Hsq : (0 <= (s + 1) * (s + 1))%Q).
    { destruct (Qlt_le_dec (s + 1) 0).
      - setoid_replace ((s + 1) * (s + 1))%Q with ((- (s + 1)) * (- (s + 1)))%Q
          using relation Qeq by ring.
        apply Qmult_le_0_compat; lra.
      - apply Qmult_le_0_compat; lra. }
    assert (Heq : (1 + s + s * s / 2 == ((s + 1) * (s + 1) + 1) / 2)%Q) by field.
    rewrite Heq. apply Qlt_shift_div_l; [reflexivity | lra]. }
  split; [exact Hexp|].
  exact (detect_confidence_range _ _ Hexp).
Defined.

Lemma train_baseline_nonnegative_witness :
  let many := repeat [30; 40; 100; 1; 300]%Q 21 in
  (20 < length many)%nat /\
  fit many = Ok tt /\
  Forall (fun r => length r = 5%nat) many /\
  Forall (Forall (fun v => (0 <= v)%Q)) many /\
  exists d,
    train AnomalyDetector_init many = Ok d /\
    is_trained d = true /\
    length (baseline_data d) = 5%nat /\
    Forall (fun v => (0 <= v)%Q) (baseline_data d).
Proof.
  intros many.
  assert (Hmany : (20 < length many)%nat) by (vm_compute; lia).
  assert (Hfit : fit many = Ok tt) by reflexivity.
  assert (Hrect : Forall (fun r => length r = 5%nat) many)
    by (repeat constructor).
  assert (Hlow : Forall (Forall (fun v => (0 <= v)%Q)) many)
    by (repeat constructor; discriminate).
  split; [exact Hmany|]. split; [exact Hfit|]. split; [exact Hrect|].
  split; [exact Hlow|].
  destruct (train_baseline_nonnegative (H := sample_external)
              AnomalyDetector_init 5 many tt Hmany Hfit Hrect Hlow)
    as (d & Hrun & Htrained & _ & Hlen & Hnonneg).
  exists d. repeat split; assumption.
Defined.

Lemma sample_store_nonnegative (n : nat) :
  Forall gauges_nonnegative (db_metrics (world_with_metrics n)).
Proof.
  cbn. apply Forall_map, Forall_forall. intros k _.
  unfold gauges_nonnegative, features_of, sample_metric. cbn.
  repeat constructor; discriminate.
Qed.

Lemma sample_baseline_well_formed :
  baseline_well_formed [30; 40; 100; 1; 300]%Q.
Proof.
  split; [now right|]. repeat constructor; discriminate.
Qed.

Lemma retrain_keeps_baseline_well_formed_witness :
  Forall gauges_nonnegative (db_metrics trained_store) /\
  baseline_well_formed (baseline_data (anomaly_detector trained_store)) /\
  baseline_well_formed
    (baseline_data (anomaly_detector (train_anomaly_detector_cycle trained_store))).
Proof.
  pose proof (sample_store_nonnegative 51) as Hstore.
  pose proof sample_baseline_well_formed as Hbase.
  split; [exact Hstore|]. split; [exact Hbase|].
  exact (proj1 (retrain_keeps_baseline_well_formed trained_store Hstore Hbase)).
Defined.

Lemma detect_anomalies_total_witness :
  Forall gauges_nonnegative (db_metrics trained_store) /\
  baseline_well_formed (baseline_data (anomaly_detector trained_store)) /\
  exists w' detected,
    detect_anomalies trained_store = (w', Ok (length detected, detected)) /\
    db_anomalies w' = (db_anomalies trained_store ++ detected)%list /\
    sublist (map Anomaly.service detected) (services (data_simulator trained_store)).
Proof.
  pose proof (sample_store_nonnegative 51) as Hstore.
  pose proof sample_baseline_well_formed as Hbase.
  split; [exact Hstore|]. split; [exact Hbase|].
  destruct (detect_anomalies_total trained_store Hstore Hbase)
    as (w' & detected & Hrun & Hanom & Hsub & _).
  exists w', detected. repeat split; assumption.
Defined.

Lemma detect_anomalies_untrained_witness :
  is_trained (anomaly_detector (world_with_metrics 51)) = false /\
  detect_anomalies (world_with_metrics 51) = (world_with_metrics 51, Ok (0%nat, [])).
Proof.
  assert (Hu : is_trained (anomaly_detector (world_with_metrics 51)) = false)
    by reflexivity.
  split; [exact Hu|].
  exact (detect_anomalies_untrained _ Hu).
Defined.

Lemma generate_metric_normal_ranges_witness :
  (forall k, (0 <= @random_draw sample_entropy k < 1)%Q) /\
  failing_service (data_simulator database_failure_world) "cache" = false /\
  exists m,
    DataSimulator_generate_metric (H0 := sample_entropy) "cache" 0
      database_failure_world
    = (with_clock_reads (S (clock_reads database_failure_world))
         database_failure_world, Ok (m, 5%nat)) /\
    (20 <= SystemMetric.cpu m <= 50)%Q.
Proof.
  assert (Hnormal : failing_service (data_simulator database_failure_world) "cache"
                    = false) by reflexivity.
  split; [exact sample_draws_in_range|]. split; [exact Hnormal|].
  destruct (generate_metric_normal_ranges "cache" 0 database_failure_world
              sample_draws_in_range Hnormal)
    as (m & Hrun & _ & _ & Hcpu & _).
  exists m. split; assumption.
Defined.

Lemma generate_metric_failure_ranges_witness :
  (forall k, (0 <= @random_draw sample_entropy k < 1)%Q) /\
  failing_service (data_simulator database_failure_world) "database" = true /\
  failure_start (data_simulator database_failure_world) = Some 0 /\
  (0 <= utcnow (S (clock_reads database_failure_world)))%Z /\
  exists m,
    DataSimulator_generate_metric (H0 := sample_entropy) "database" 0
      database_failure_world
    = (with_clock_reads (S (S (clock_reads database_failure_world)))
         database_failure_world, Ok (m, 10%nat)) /\
    (70 <= SystemMetric.cpu m <= 95)%Q /\
    (300 <= SystemMetric.latency m <= 1000)%Q.
Proof.
  assert (Hfailing : failing_service (data_simulator database_failure_world)
                       "database" = true) by reflexivity.
  assert (Hstart : failure_start (data_simulator database_failure_world) = Some 0)
    by reflexivity.
  assert (Hclock : (0 <= utcnow (S (clock_reads database_failure_world)))%Z)
    by (cbn; lia).
  split; [exact sample_draws_in_range|]. split; [exact Hfailing|].
  split; [exact Hstart|]. split; [exact Hclock|].
  destruct (generate_metric_failure_ranges "database" 0 database_failure_world 0
              sample_draws_in_range Hfailing Hstart Hclock)
    as (m & Hrun & _ & _ & Hcpu & _ & Hlat & _).
  exists m. repeat split; assumption || apply Hcpu || apply Hlat.
Defined.

Lemma sample_simulator_consistent :
  simulator_consistent (data_simulator database_failure_world).
Proof.
  intros _. split; [now eexists|]. exists "database". split; [reflexivity|].
  apply existsb_eqb_elem_of. reflexivity.
Qed.

Lemma feed_cycle_one_sample_per_service_witness :
  (forall k, (0 <= @random_draw sample_entropy k < 1)%Q) /\
  clock_past_failure_start database_failure_world /\
  simulator_consistent (data_simulator database_failure_world) /\
  exists new,
    db_metrics (simulate_metrics_stream_cycle (H0 := sample_entropy) 0
                  database_failure_world)
    = (db_metrics database_failure_world ++ new)%list /\
    map SystemMetric.service new = services (data_simulator database_failure_world) /\
    Forall gauges_nonnegative new.
Proof.
  split; [exact sample_draws_in_range|].
  split; [exact sample_clock_after|].
  split; [exact sample_simulator_consistent|].
  destruct (feed_cycle_one_sample_per_service 0 database_failure_world
              sample_draws_in_range sample_clock_after
              sample_simulator_consistent)
    as (new & Hmetrics & Hsvcs & Hnonneg & _).
  exists new. repeat split; assumption.
Defined.

Lemma demo_requests_keep_simulator_consistent_witness :
  simulator_consistent (data_simulator database_failure_world) /\
  simulator_consistent
    (data_simulator (fst (inject_failure "cache" database_failure_world))) /\
  simulator_consistent
    (data_simulator (fst (clear_failure database_failure_world))).
Proof.
  split; [exact sample_simulator_consistent|].
  destruct (demo_requests_keep_simulator_consistent "cache" database_failure_world sample_simulator_consistent)
    as (Hinject & Hclear & _).
  split; assumption.
Defined.

Lemma clear_failure_undoes_inject_witness :
  ("worker" ∈ services (data_simulator sample_world)) /\
  data_simulator (fst (clear_failure (fst (inject_failure "worker" sample_world))))
  = data_simulator sample_world.
Proof.
  assert (Hin : "worker" ∈ services (data_simulator sample_world))
    by (apply existsb_eqb_elem_of; reflexivity).
  split; [exact Hin|].
  destruct (clear_failure_undoes_inject "worker" sample_world Hin) as (_ & _ & Hsim & _).
  rewrite Hsim. reflexivity.
Defined.

Lemma create_then_get_incident_witness :
  find_one (field_is "id" (uuid4 (uuid_draws incident_world)))
    (db_incidents incident_world) = None /\
  exists w1 doc,
    create_incident sample_incident incident_world = (w1, Ok doc) /\
    get_incident (uuid4 (uuid_draws incident_world)) w1 = (w1, Ok doc) /\
    has_status "open" doc.
Proof.
  assert (Hfresh : find_one (field_is "id" (uuid4 (uuid_draws incident_world)))
                     (db_incidents incident_world) = None) by reflexivity.
  split; [exact Hfresh|].
  destruct (create_then_get_incident sample_incident incident_world Hfresh)
    as (w1 & doc & Hcreate & Hget & _ & Hopen & _).
  exists w1, doc. repeat split; assumption.
Defined.

Lemma update_incident_frame_witness :
  let updates : document := {["status" := VStr "investigating"]} in
  let w := fst (create_incident sample_incident incident_world) in
  updates !! "id" = None /\
  find_one (field_is "id" "A") (db_incidents (fst (update_incident "B" updates w)))
  = find_one (field_is "id" "A") (db_incidents w).
Proof.
  intros updates w.
  assert (Hid : updates !! "id" = None) by reflexivity.
  split; [exact Hid|].
  destruct (update_incident_frame "B" updates w Hid)
    as (_ & Hother & _).
  apply Hother. discriminate.
Defined.

Lemma update_incident_idempotent_witness :
  let updates : document := {["status" := VStr "investigating"]} in
  updates !! "id" = None /\
  marks_resolution updates = false /\
  update_incident "A" updates (fst (update_incident "A" updates incident_world))
  = update_incident "A" updates incident_world.
Proof.
  intros updates.
  assert (Hid : updates !! "id" = None) by reflexivity.
  assert (Hplain : marks_resolution updates = false) by reflexivity.
  split; [exact Hid|]. split; [exact Hplain|].
  exact (update_incident_idempotent "A" updates incident_world Hid Hplain).
Defined.

Lemma analyze_incident_attaches_reply_witness :
  let d := incident_document "A" 0 sample_incident in
  find_one (field_is "id" "A") (db_incidents incident_world) = Some d /\
  anomaly_query d = Ok tt /\
  read_fields d ["service"; "title"; "service"; "severity"; "status"] = Ok tt /\
  (forall query, d !! "service" <> Some (VDict query)) /\
  (exists w',
     analyze_incident "A" (Ok "Disk is full.") incident_world
     = (w', Ok ("A", "Disk is full.")) /\
     find_one (field_is "id" "A") (db_incidents w')
     = Some (<["ai_explanation" := VStr "Disk is full."]> d)) /\
  analyze_incident "A" (Raise (Exception ServiceError)) incident_world
  = (incident_world, Raise (HTTPException 500 (StrOf ServiceError))).
Proof.
  intros d.
  assert (Hfind : find_one (field_is "id" "A") (db_incidents incident_world)
                  = Some d) by reflexivity.
  assert (Hquery : anomaly_query d = Ok tt) by reflexivity.
  assert (Hfields : read_fields d
                      ["service"; "title"; "service"; "severity"; "status"] = Ok tt)
    by reflexivity.
  assert (Hservice : forall query, d !! "service" <> Some (VDict query))
    by (intros query; discriminate).
  split; [exact Hfind|]. split; [exact Hquery|]. split; [exact Hfields|].
  split; [exact Hservice|].
  destruct (analyze_incident_attaches_reply "A" d incident_world
              Hfind Hquery Hfields Hservice) as (Hok & Hfail).
  split; [|exact (Hfail ServiceError)].
  destruct (Hok "Disk is full.") as (w' & Hrun & Hf & _).
  exists w'. split; assumption.
Defined.

Lemma generate_recommendations_parsed_witness :
  let response := "Plan: [two]" in
  let d := incident_document "A" 0 sample_incident in
  let recs := [recommendation "Add Replica" "Add a read replica" "low" "Less load";
               recommendation "Flush Cache" "Drop all cached entries" "medium"
                 "Fresh data"] in
  let ts := [("Add Replica", "Add a read replica", "low", "Less load");
             ("Flush Cache", "Drop all cached entries", "medium", "Fresh data")] in
  find_one (field_is "id" "A") (db_incidents scripted_world) = Some d /\
  read_fields d ["title"; "service"; "severity"] = Ok tt /\
  (0 <= str_find response "["%char < str_rfind response "]"%char + 1)%Z /\
  @json_loads scripted_external
    (slice response (str_find response "["%char) (str_rfind response "]"%char + 1))
  = Ok (VList recs) /\
  Forall2 rec_fields recs ts /\
  exists w' new,
    generate_recommendations "A" (Ok response) scripted_world
    = (w', Ok (VList recs)) /\
    db_actions w' = (db_actions scripted_world ++ new)%list /\
    map action_texts new = ts.
Proof.
  intros response d recs ts.
  assert (Hfind : find_one (field_is "id" "A") (db_incidents scripted_world)
                  = Some d) by reflexivity.
  assert (Hkeys : read_fields d ["title"; "service"; "severity"] = Ok tt)
    by reflexivity.
  assert (Hspan : (0 <= str_find response "["%char
                   < str_rfind response "]"%char + 1)%Z)
    by (vm_compute; split; [discriminate | reflexivity]).
  assert (Hloads : @json_loads scripted_external
                     (slice response (str_find response "["%char)
                        (str_rfind response "]"%char + 1)) = Ok (VList recs))
    by reflexivity.
  assert (Hrecs : Forall2 rec_fields recs ts).
  { repeat constructor; eexists; (split; [reflexivity|]); repeat split. }
  split; [exact Hfind|]. split; [exact Hkeys|]. split; [exact Hspan|].
  split; [exact Hloads|]. split; [exact Hrecs|].
  destruct (generate_recommendations_parsed (H := scripted_external)
              "A" response d scripted_world recs ts
              Hfind Hkeys Hspan Hloads Hrecs)
    as (w' & new & Hrun & Hactions & Hmap & _).
  exists w', new. repeat split; assumption.
Defined.

Lemma generate_recommendations_partial_witness :
  let response := "Plan: [one, {}]" in
  let d := incident_document "A" 0 sample_incident in
  let good := [recommendation "Add Replica" "Add a read replica" "low" "Less load"] in
  let ts := [("Add Replica", "Add a read replica", "low", "Less load")] in
  find_one (field_is "id" "A") (db_incidents scripted_world) = Some d /\
  read_fields d ["title"; "service"; "severity"] = Ok tt /\
  (0 <= str_find response "["%char < str_rfind response "]"%char + 1)%Z /\
  @json_loads scripted_external
    (slice response (str_find response "["%char) (str_rfind response "]"%char + 1))
  = Ok (VList (good ++ VDict ∅ :: [])) /\
  Forall2 rec_fields good ts /\
  (∅ : document) !! "action" = None /\
  exists w' new,
    generate_recommendations "A" (Ok response) scripted_world
    = (w', Raise (HTTPException 500 (StrOf (KeyError "action")))) /\
    db_actions w' = (db_actions scripted_world ++ new)%list /\
    map action_texts new = ts.
Proof.
  intros response d good ts.
  assert (Hfind : find_one (field_is "id" "A") (db_incidents scripted_world)
                  = Some d) by reflexivity.
  assert (Hkeys : read_fields d ["title"; "service"; "severity"] = Ok tt)
    by reflexivity.
  assert (Hspan : (0 <= str_find response "["%char
                   < str_rfind response "]"%char + 1)%Z)
    by (vm_compute; split; [discriminate | reflexivity]).
  assert (Hloads : @json_loads scripted_external
                     (slice response (str_find response "["%char)
                        (str_rfind response "]"%char + 1))
                   = Ok (VList (good ++ VDict ∅ :: []))) by reflexivity.
  assert (Hgood : Forall2 rec_fields good ts).
  { repeat constructor; eexists; (split; [reflexivity|]); repeat split. }
  assert (Hbroken : (∅ : document) !! "action" = None) by reflexivity.
  split; [exact Hfind|]. split; [exact Hkeys|]. split; [exact Hspan|].
  split; [exact Hloads|]. split; [exact Hgood|]. split; [exact Hbroken|].
  destruct (generate_recommendations_partial (H := scripted_external)
              "A" response d scripted_world good [] ∅ ts
              Hfind Hkeys Hspan Hloads Hgood Hbroken)
    as (w' & new & Hrun & Hactions & Hmap & _).
  exists w', new. repeat split; assumption.
Defined.

Lemma reply_without_brackets_gets_defaults_witness :
  (~ occurs "["%char "Restart it] and wait") /\
  parse_recommendations "Restart it] and wait" = VList default_recommendations.
Proof.
  assert (Habsent : ~ occurs "["%char "Restart it] and wait").
  { unfold occurs. cbn. intros Hin.
    repeat (destruct Hin as [Hin|Hin]; [discriminate Hin|]). exact Hin. }
  split; [exact Habsent|].
  exact (reply_without_brackets_gets_defaults "Restart it] and wait"
           (or_introl Habsent)).
Defined.

Lemma unknown_incident_is_not_found_witness :
  find_one (field_is "id" "Z") (db_incidents incident_world) = None /\
  get_incident "Z" incident_world
  = (incident_world, Raise (HTTPException 404 (Literal "Incident not found"))) /\
  generate_recommendations "Z" (Ok "[]") incident_world
  = (incident_world, Raise (HTTPException 404 (Literal "Incident not found"))).
Proof.
  assert (Hfind : find_one (field_is "id" "Z") (db_incidents incident_world) = None)
    by reflexivity.
  split; [exact Hfind|].
  destruct (unknown_incident_is_not_found "Z" ∅ (Ok "[]") incident_world Hfind)
    as (Hget & _ & Hrec & _).
  split; assumption.
Defined.

Lemma unknown_action_is_not_found_witness :
  find_one (has_id "Z") (db_actions world_with_action) = None /\
  snd (approve_action "Z" "alice" world_with_action)
  = Raise (HTTPException 404 (Literal "Action not found")) /\
  db_actions (fst (approve_action "Z" "alice" world_with_action))
  = db_actions world_with_action.
Proof.
  assert (Hfind : find_one (has_id "Z") (db_actions world_with_action) = None)
    by reflexivity.
  split; [exact Hfind|].
  destruct (unknown_action_is_not_found "Z" "alice" world_with_action Hfind)
    as (Happrove & Hframe & _).
  split; [exact Happrove|]. apply Hframe.
Defined.

Lemma last_decision_wins_witness :
  find_one (has_id "A") (db_actions world_with_action) = Some sample_action /\
  snd (approve_action "A" "bob" (fst (approve_action "A" "alice" world_with_action)))
  = Ok (Some (set_approved "bob" 1000 sample_action)).
Proof.
  assert (Hfind : find_one (has_id "A") (db_actions world_with_action)
                  = Some sample_action) by reflexivity.
  split; [exact Hfind|].
  exact (proj1 (last_decision_wins "A" "alice" "bob" world_with_action
                  sample_action Hfind)).
Defined.

Lemma sample_world_sound : store_sound sample_world.
Proof.
  split; [constructor|]. split; [split; [now left | constructor]|].
  split; [intros Hmode; discriminate Hmode | intros start Hstart; discriminate Hstart].
Qed.

Lemma sample_clock_monotone (i j : nat) :
  (i <= j)%nat -> (@utcnow sample_external i <= @utcnow sample_external j)%Z.
Proof. intros Hij. cbn. lia. Qed.

Lemma server_keeps_store_sound_witness :
  let w1 := simulate_metrics_stream_cycle (H0 := sample_entropy) 0 sample_world in
  let w2 := fst (inject_failure "database" w1) in
  let w3 := train_anomaly_detector_cycle w2 in
  (forall k, (0 <= @random_draw sample_entropy k < 1)%Q) /\
  store_sound sample_world /\
  rtc (server_step (H0 := sample_entropy)) sample_world w3 /\
  store_sound w3 /\
  exists w'' detected,
    detect_anomalies w3 = (w'', Ok (length detected, detected)).
Proof.
  intros w1 w2 w3.
  assert (Hsteps : rtc (server_step (H0 := sample_entropy)) sample_world w3).
  { eapply rtc_l; [apply (step_feed (H0 := sample_entropy) sample_world 0)|].
    eapply rtc_l; [apply (step_inject (H0 := sample_entropy) w1 "database")|].
    eapply rtc_l; [apply (step_retrain (H0 := sample_entropy) w2)|].
    apply rtc_refl. }
  split; [exact sample_draws_in_range|]. split; [exact sample_world_sound|].
  split; [exact Hsteps|].
  exact (server_keeps_store_sound (H0 := sample_entropy) sample_world w3
           sample_draws_in_range sample_clock_monotone sample_world_sound Hsteps).
Defined.
